(** * A shallow embedding of the ubuntu_audit CIS checker

    The Python sources shell out to [lsmod], [modprobe], [findmnt], [dpkg],
    [systemctl] and friends and decide pass/fail by string tests on their
    output.  We model:
    - the Python string primitives they use ([in], [strip], [split],
      [split(',')]) and the line filter of [grep];
    - the scripts that print, run shell commands and write files as
      programs in a trace monad with exceptions, over an oracle world that
      answers commands and file writes and sees the history of effects;
    - the argv-based checks of [cis_filesystem_audit.py] and
      [cis_services_audit.py] as functions of the command results. *)

From Stdlib Require Import List ZArith Bool Ascii String Lia DecimalString.
Import ListNotations.
Open Scope string_scope.
Open Scope bool_scope.

(* ------------------------------------------------------------------ *)
(** ** Python string primitives *)

Module Py.

(** Characters Python's [str.isspace] accepts in the ASCII range:
    \t \n \v \f \r, \x1c-\x1f and the space. *)
Definition is_space (c : ascii) : bool :=
  let n := nat_of_ascii c in
  (Nat.leb 9 n && Nat.leb n 13) || (Nat.leb 28 n && Nat.leb n 32).

Fixpoint lstrip (s : string) : string :=
  match s with
  | EmptyString => EmptyString
  | String c s' => if is_space c then lstrip s' else s
  end.

Fixpoint rstrip (s : string) : string :=
  match s with
  | EmptyString => EmptyString
  | String c s' =>
      let r := rstrip s' in
      if is_space c && String.eqb r "" then "" else String c r
  end.

(** [s.strip()] *)
Definition strip (s : string) : string := rstrip (lstrip s).

(** [needle in hay] for two strings. *)
Fixpoint contains (needle hay : string) : bool :=
  String.prefix needle hay ||
  match hay with
  | EmptyString => false
  | String _ hay' => contains needle hay'
  end.

(** [s.split()] : maximal runs of non-whitespace characters. *)
Fixpoint split_ws_aux (cur s : string) : list string :=
  match s with
  | EmptyString => if String.eqb cur "" then [] else [cur]
  | String c s' =>
      if is_space c then
        (if String.eqb cur "" then split_ws_aux "" s'
         else cur :: split_ws_aux "" s')
      else split_ws_aux (cur ++ String c "") s'
  end.

Definition split (s : string) : list string := split_ws_aux "" s.

(** [s.split(sep)] for a one-character separator: keeps empty fields. *)
Fixpoint split_on_aux (sep : ascii) (cur s : string) : list string :=
  match s with
  | EmptyString => [cur]
  | String c s' =>
      if Ascii.eqb c sep then cur :: split_on_aux sep "" s'
      else split_on_aux sep (cur ++ String c "") s'
  end.

Definition split_on (sep : ascii) (s : string) : list string :=
  split_on_aux sep "" s.

Definition newline : ascii := ascii_of_nat 10.
Definition nl : string := String newline "".

(** [xs[i]] : [None] is an [IndexError]. *)
Definition index {A} (xs : list A) (i : nat) : option A := nth_error xs i.

(** [x in xs] for a list of strings. *)
Definition list_in (x : string) (xs : list string) : bool :=
  existsb (String.eqb x) xs.

End Py.

(** [grep pat] over a text: the lines of the input that contain [pat],
    each followed by a newline.  The module names grepped for in the
    sources (cramfs, hfs, vfat, ...) contain no regular-expression
    metacharacter, so the pattern match is substring containment. *)
Definition grep (pat text : string) : string :=
  String.concat "" (map (fun l => l ++ Py.nl)
                        (filter (Py.contains pat) (Py.split_on Py.newline text))).

(** The result of one command, as [subprocess.run] reports it. *)
Record proc_result := mk_proc { rc : Z; out : string; err : string }.

(** [_run_command] of the [modules/] package and of [fs_kernel_modules.py]:
    [(result.stdout.strip(), result.stderr.strip(), result.returncode)].
    An exception inside [subprocess.run] is already folded into the
    [proc_result] the snapshot gives ([("", str(e), 1)]). *)
Definition _run_command (r : proc_result) : string * string * Z :=
  (Py.strip (out r), Py.strip (err r), rc r).


(** The ANSI codes of the [COLORS] table every script defines. *)
Module Colors.
Definition esc : string := String (ascii_of_nat 27) "".
Definition GREEN : string := esc ++ "[92m".
Definition RED : string := esc ++ "[91m".
Definition YELLOW : string := esc ++ "[93m".
Definition BLUE : string := esc ++ "[94m".
Definition RESET : string := esc ++ "[0m".
End Colors.

(** [s * n] for a string [s]. *)
Fixpoint repeat_str (s : string) (n : nat) : string :=
  match n with O => "" | S k => s ++ repeat_str s k end.

(** The double quote character. *)
Definition dq : string := String (ascii_of_nat 34) "".

(* ------------------------------------------------------------------ *)
(** ** Effects: printing, shell commands, file writes, exceptions *)

(** What a script does to the outside world, in order. *)
Inductive event :=
| EPrint (s : string)
| ERun (command : string) (result : proc_result)
    (* _run_command(command), shell=True *)
| EWrite (path content : string) (failure : option string)
    (* with open(path, 'w') as f: f.write(content); Some (str e) when it raised *).

(** The world answers commands and file writes; it sees everything the
    script did before, so a [rmmod] or a write may change later answers. *)
Record world := mk_world {
  w_run : list event -> string -> proc_result;
  w_write : list event -> string -> string -> option string
}.

(** A state monad over the trace of events, with an exception: [None] is
    a Python exception escaping the computation. *)
Definition M (A : Type) : Type := world -> list event -> list event * option A.

Definition ret {A} (a : A) : M A := fun _ tr => (tr, Some a).
Definition bind {A B} (m : M A) (k : A -> M B) : M B :=
  fun w tr => let '(tr', r) := m w tr in
              match r with
              | None => (tr', None)
              | Some a => k a w tr'
              end.

(** [raise]: an uncaught exception (here the [IndexError] of [xs[i]]). *)
Definition raise {A} : M A := fun _ tr => (tr, None).

Definition from_option {A} (o : option A) : M A :=
  match o with Some a => ret a | None => raise end.

Notation "x <- m ;; k" := (bind m (fun x => k))
  (at level 61, m at next level, right associativity).
Notation "m ;;; k" := (bind m (fun _ => k))
  (at level 61, right associativity).

Definition print (s : string) : M unit := fun _ tr => (app tr [EPrint s], Some tt).

Definition run_command (command : string) : M (string * string * Z) :=
  fun w tr => let r := w_run w tr command in
              (app tr [ERun command r], Some (_run_command r)).

Definition write_file (path content : string) : M (option string) :=
  fun w tr => let res := w_write w tr path content in
              (app tr [EWrite path content res], Some res).

Fixpoint mapM {A B} (f : A -> M B) (xs : list A) : M (list B) :=
  match xs with
  | [] => ret []
  | x :: xs' => b <- f x ;; bs <- mapM f xs' ;; ret (b :: bs)
  end.

Fixpoint foldM {A B} (f : A -> B -> M A) (a : A) (xs : list B) : M A :=
  match xs with
  | [] => ret a
  | x :: xs' => a' <- f a x ;; foldM f a' xs'
  end.

(** The [run_all_remediations] of the [modules/] packages that call their
    remediation functions in turn: [success = True] and
    [if not f(): success = False] for each [f]. *)
Definition all_remediations (fs : list (M bool)) : M bool :=
  foldM (fun success f => r <- f ;; ret (success && r)) true fs.

(** The printed lines of a trace. *)
Definition printed (tr : list event) : list string :=
  flat_map (fun e => match e with EPrint s => [s] | _ => [] end) tr.

(* ------------------------------------------------------------------ *)
(** ** A stable system: the probes answered from a snapshot *)

(** [Some rest] when [s] is [pre ++ rest]. *)
Fixpoint strip_prefix (pre s : string) : option string :=
  match pre, s with
  | EmptyString, _ => Some s
  | String c pre', String d s' =>
      if Ascii.eqb c d then strip_prefix pre' s' else None
  | String _ _, EmptyString => None
  end.

(** A snapshot of what the audited commands print: the raw output of
    [lsmod], and the results of [modprobe -n -v m] and [findmnt -n p]. *)
Record snapshot := mk_snapshot {
  lsmod_text : string;
  modprobe_n : string -> proc_result;
  findmnt_n : string -> proc_result
}.

(** The shell pipeline [lsmod | grep m]: grep exits 1 when no line matches. *)
Definition sh_lsmod_grep (p : snapshot) (m : string) : proc_result :=
  let o := grep m (lsmod_text p) in
  mk_proc (if String.eqb o "" then 1 else 0) o "".

(** The world of a system that does not change while it is audited: every
    command is answered from the snapshot, whatever ran before.  Other
    commands are not found by the shell; writes succeed. *)
Definition snapshot_world (p : snapshot) : world :=
  mk_world
    (fun _ command =>
       match strip_prefix "lsmod | grep " command with
       | Some m => sh_lsmod_grep p m
       | None =>
       match strip_prefix "modprobe -n -v " command with
       | Some m => modprobe_n p m
       | None =>
       match strip_prefix "findmnt -n " command with
       | Some mp => findmnt_n p mp
       | None => mk_proc 127 "" ("/bin/sh: 1: " ++ command ++ ": not found")
       end end end)
    (fun _ _ _ => None).

(** The value a computation returns from the empty trace. *)
Definition result_of {A} (w : world) (m : M A) : option A := snd (m w []).

(* ------------------------------------------------------------------ *)
(** ** [modules/kernel/fs_modules.py] *)

Module FsModules.

(** [return bool(stdout)] of [_run_command(f"lsmod | grep {module_name}")] *)
Definition _is_module_loaded (module_name : string) : M bool :=
  r <- run_command ("lsmod | grep " ++ module_name) ;;
  let '(stdout, _, _) := r in
  ret (negb (String.eqb stdout "")).

Definition _is_module_available (module_name : string) : M bool :=
  r <- run_command ("modprobe -n -v " ++ module_name) ;;
  let '(stdout, _, _) := r in
  ret (negb (Py.contains "not found" stdout
             || Py.contains "No such file or directory" stdout)).

Definition _is_module_disabled (module_name : string) : M bool :=
  r <- run_command ("modprobe -n -v " ++ module_name) ;;
  let '(stdout, _, _) := r in
  ret (Py.contains "install /bin/true" stdout
       || Py.contains "install /bin/false" stdout).

(** The decision and the messages shared by [check_cramfs] .. [check_udf]
    and by each half of [check_fat]: [False] when the module is loaded,
    then [not _is_module_available(m) or _is_module_disabled(m)] with
    Python's short circuit. *)
Definition module_status (module_name : string) : M bool :=
  loaded <- _is_module_loaded module_name ;;
  if loaded then
    print (Colors.RED ++ "[-] FAIL: " ++ module_name ++ " module is loaded" ++ Colors.RESET) ;;;
    print ("    Remediation: Run 'rmmod " ++ module_name ++ "' to unload the module") ;;;
    ret false
  else
    avail <- _is_module_available module_name ;;
    ok <- (if negb avail then ret true else _is_module_disabled module_name) ;;
    if ok then
      print (Colors.GREEN ++ "[+] PASS: " ++ module_name
             ++ " module is not available or is disabled" ++ Colors.RESET) ;;;
      ret true
    else
      print (Colors.RED ++ "[-] FAIL: " ++ module_name
             ++ " module is available to be loaded" ++ Colors.RESET) ;;;
      print ("    Remediation: Run 'sudo modprobe -r " ++ module_name
             ++ "' and create a disable-" ++ module_name ++ ".conf file") ;;;
      ret false.

(** [check_cramfs] .. [check_udf]:
    [(passed, f"{benchmark_id} Ensure {module_name} kernel module is not available", passed)]. *)
Definition check_module (module_name benchmark_id : string) : M (bool * string * bool) :=
  let d := benchmark_id ++ " Ensure " ++ module_name ++ " kernel module is not available" in
  passed <- module_status module_name ;;
  ret (passed, d, passed).

Definition check_cramfs := check_module "cramfs" "1.1.1.1".
Definition check_freevxfs := check_module "freevxfs" "1.1.1.2".
Definition check_jffs2 := check_module "jffs2" "1.1.1.3".
Definition check_hfs := check_module "hfs" "1.1.1.4".
Definition check_hfsplus := check_module "hfsplus" "1.1.1.5".
Definition check_squashfs := check_module "squashfs" "1.1.1.6".
Definition check_udf := check_module "udf" "1.1.1.7".

Definition check_fat : M (bool * string * bool) :=
  fat_result <- module_status "fat" ;;
  vfat_result <- module_status "vfat" ;;
  let overall_result := fat_result && vfat_result in
  ret (overall_result, "1.1.1.8 Ensure FAT kernel module is not available", overall_result).

(** The list literal [results] of [run_all_audits], evaluated in order. *)
Definition results : M (list (bool * string * bool)) :=
  mapM (fun c => c)
    [check_cramfs; check_freevxfs; check_jffs2; check_hfs;
     check_hfsplus; check_squashfs; check_udf; check_fat].

Definition count_str (n : nat) : string := NilEmpty.string_of_uint (Nat.to_uint n).

(** The summary block printed after the checks. *)
Definition print_summary (title : string) (rs : list (bool * string * bool)) : M unit :=
  let passes := List.length (filter (fun r => fst (fst r)) rs) in
  let fails := List.length rs - passes in
  print (Py.nl ++ repeat_str "-" 60) ;;;
  print (Colors.BLUE ++ title ++ Colors.RESET) ;;;
  print (Colors.GREEN ++ "PASS: " ++ count_str passes ++ Colors.RESET) ;;;
  print (Colors.RED ++ "FAIL: " ++ count_str fails ++ Colors.RESET) ;;;
  print (repeat_str "-" 60).

(** [run_all_audits(return_results)]: the list of [(result[1], result[2])]
    on the left, [all(result[0] for result in results)] on the right. *)
Definition audits_header : string :=
  Colors.BLUE ++ "Running Filesystem Kernel Module Audits..." ++ Colors.RESET.

Definition run_all_audits (return_results : bool) : M (list (string * bool) + bool) :=
  print audits_header ;;;
  rs <- results ;;
  print_summary "Filesystem Kernel Module Audit Summary:" rs ;;;
  if return_results then ret (inl (map (fun r => (snd (fst r), snd r)) rs))
  else ret (inr (forallb (fun r => fst (fst r)) rs)).

(** The remediation functions only print the manual steps. *)
Definition remediate_cramfs : M bool :=
  print (Colors.BLUE ++ "Remediating: 1.1.1.1 Ensure " ++ "cramfs" ++ " kernel module is not available" ++ Colors.RESET) ;;;
  print (Colors.YELLOW ++ "Manual remediation steps:" ++ Colors.RESET) ;;;
  print ("    1. Unload the module if it's loaded: sudo modprobe -r " ++ "cramfs") ;;;
  print ("    2. Create a configuration file to disable the module:") ;;;
  print ("       sudo echo 'install " ++ "cramfs" ++ " /bin/true' > /etc/modprobe.d/disable-" ++ "cramfs" ++ ".conf") ;;;
  print ("    3. Update the initramfs: sudo update-initramfs -u") ;;;
  ret true.

Definition remediate_freevxfs : M bool :=
  print (Colors.BLUE ++ "Remediating: 1.1.1.2 Ensure " ++ "freevxfs" ++ " kernel module is not available" ++ Colors.RESET) ;;;
  print (Colors.YELLOW ++ "Manual remediation steps:" ++ Colors.RESET) ;;;
  print ("    1. Unload the module if it's loaded: sudo modprobe -r " ++ "freevxfs") ;;;
  print ("    2. Create a configuration file to disable the module:") ;;;
  print ("       sudo echo 'install " ++ "freevxfs" ++ " /bin/true' > /etc/modprobe.d/disable-" ++ "freevxfs" ++ ".conf") ;;;
  print ("    3. Update the initramfs: sudo update-initramfs -u") ;;;
  ret true.

Definition remediate_jffs2 : M bool :=
  print (Colors.BLUE ++ "Remediating: 1.1.1.3 Ensure " ++ "jffs2" ++ " kernel module is not available" ++ Colors.RESET) ;;;
  print (Colors.YELLOW ++ "Manual remediation steps:" ++ Colors.RESET) ;;;
  print ("    1. Unload the module if it's loaded: sudo modprobe -r " ++ "jffs2") ;;;
  print ("    2. Create a configuration file to disable the module:") ;;;
  print ("       sudo echo 'install " ++ "jffs2" ++ " /bin/true' > /etc/modprobe.d/disable-" ++ "jffs2" ++ ".conf") ;;;
  print ("    3. Update the initramfs: sudo update-initramfs -u") ;;;
  ret true.

Definition remediate_hfs : M bool :=
  print (Colors.BLUE ++ "Remediating: 1.1.1.4 Ensure " ++ "hfs" ++ " kernel module is not available" ++ Colors.RESET) ;;;
  print (Colors.YELLOW ++ "Manual remediation steps:" ++ Colors.RESET) ;;;
  print ("    1. Unload the module if it's loaded: sudo modprobe -r " ++ "hfs") ;;;
  print ("    2. Create a configuration file to disable the module:") ;;;
  print ("       sudo echo 'install " ++ "hfs" ++ " /bin/true' > /etc/modprobe.d/disable-" ++ "hfs" ++ ".conf") ;;;
  print ("    3. Update the initramfs: sudo update-initramfs -u") ;;;
  ret true.

Definition remediate_hfsplus : M bool :=
  print (Colors.BLUE ++ "Remediating: 1.1.1.5 Ensure " ++ "hfsplus" ++ " kernel module is not available" ++ Colors.RESET) ;;;
  print (Colors.YELLOW ++ "Manual remediation steps:" ++ Colors.RESET) ;;;
  print ("    1. Unload the module if it's loaded: sudo modprobe -r " ++ "hfsplus") ;;;
  print ("    2. Create a configuration file to disable the module:") ;;;
  print ("       sudo echo 'install " ++ "hfsplus" ++ " /bin/true' > /etc/modprobe.d/disable-" ++ "hfsplus" ++ ".conf") ;;;
  print ("    3. Update the initramfs: sudo update-initramfs -u") ;;;
  ret true.

Definition remediate_squashfs : M bool :=
  print (Colors.BLUE ++ "Remediating: 1.1.1.6 Ensure " ++ "squashfs" ++ " kernel module is not available" ++ Colors.RESET) ;;;
  print (Colors.YELLOW ++ "Manual remediation steps:" ++ Colors.RESET) ;;;
  print ("    1. Unload the module if it's loaded: sudo modprobe -r " ++ "squashfs") ;;;
  print ("    2. Create a configuration file to disable the module:") ;;;
  print ("       sudo echo 'install " ++ "squashfs" ++ " /bin/true' > /etc/modprobe.d/disable-" ++ "squashfs" ++ ".conf") ;;;
  print ("    3. Update the initramfs: sudo update-initramfs -u") ;;;
  ret true.

Definition remediate_udf : M bool :=
  print (Colors.BLUE ++ "Remediating: 1.1.1.7 Ensure " ++ "udf" ++ " kernel module is not available" ++ Colors.RESET) ;;;
  print (Colors.YELLOW ++ "Manual remediation steps:" ++ Colors.RESET) ;;;
  print ("    1. Unload the module if it's loaded: sudo modprobe -r " ++ "udf") ;;;
  print ("    2. Create a configuration file to disable the module:") ;;;
  print ("       sudo echo 'install " ++ "udf" ++ " /bin/true' > /etc/modprobe.d/disable-" ++ "udf" ++ ".conf") ;;;
  print ("    3. Update the initramfs: sudo update-initramfs -u") ;;;
  ret true.

Definition remediate_fat : M bool :=
  print (Colors.BLUE ++ "Remediating: 1.1.1.8 Ensure FAT kernel module is not available" ++ Colors.RESET) ;;;
  print (Colors.YELLOW ++ "Manual remediation steps:" ++ Colors.RESET) ;;;
  print ("    1. Unload the vfat module first (as it depends on fat): sudo modprobe -r vfat") ;;;
  print ("    2. Create a configuration file to disable the vfat module:") ;;;
  print ("       sudo echo 'install vfat /bin/true' > /etc/modprobe.d/disable-vfat.conf") ;;;
  print ("    3. Unload the fat module: sudo modprobe -r fat") ;;;
  print ("    4. Create a configuration file to disable the fat module:") ;;;
  print ("       sudo echo 'install fat /bin/true' > /etc/modprobe.d/disable-fat.conf") ;;;
  print ("    5. Update the initramfs: sudo update-initramfs -u") ;;;
  ret true.

Definition remediation_functions : list (string * M bool) := [
  ("cramfs", remediate_cramfs); ("freevxfs", remediate_freevxfs);
  ("jffs2", remediate_jffs2); ("hfs", remediate_hfs);
  ("hfsplus", remediate_hfsplus); ("squashfs", remediate_squashfs);
  ("udf", remediate_udf); ("FAT", remediate_fat)
].

(** [run_all_remediations()]: the results of the remediation functions are
    dropped; the value is that of the verifying [run_all_audits()]. *)
Definition run_all_remediations : M bool :=
  print (Colors.BLUE ++ "Running Filesystem Kernel Module Remediations..." ++ Colors.RESET) ;;;
  mapM (fun (e : string * M bool) =>
          let '(module_name, remediate_func) := e in
          print (Py.nl ++ Colors.BLUE ++ "Remediating " ++ module_name ++ "..." ++ Colors.RESET) ;;;
          remediate_func) remediation_functions ;;;
  print (Py.nl ++ repeat_str "=" 60) ;;;
  print (Colors.BLUE ++ "Verifying remediations..." ++ Colors.RESET) ;;;
  r <- run_all_audits false ;;
  let all_pass := match r with inl l => match l with [] => false | _ => true end | inr b => b end in
  (if all_pass then
     print (Py.nl ++ Colors.GREEN
            ++ "✅ All filesystem kernel module remediations completed successfully!" ++ Colors.RESET)
   else
     print (Py.nl ++ Colors.YELLOW
            ++ "⚠️ Some filesystem kernel module remediations failed. Manual intervention may be required."
            ++ Colors.RESET)) ;;;
  ret all_pass.

End FsModules.

(* ------------------------------------------------------------------ *)
(** ** [modules/filesystem/partitions.py] *)

Module Partitions.

(** [_get_mount_info(mount_point)] : [(is_mounted, mount_options, device)]
    from [findmnt -n mount_point], whose columns are
    TARGET SOURCE FSTYPE OPTIONS. *)
Definition mount_info_of (stdout : string) : bool * list string * string :=
  if String.eqb stdout "" then (false, [], "")
  else match Py.split stdout with
       | _ :: device :: _ :: opts :: _ => (true, Py.split_on ","%char opts, device)
       | _ => (true, [], "")
       end.

Definition _get_mount_info (mount_point : string) : M (bool * list string * string) :=
  r <- run_command ("findmnt -n " ++ mount_point) ;;
  let '(stdout, _, _) := r in
  ret (mount_info_of stdout).

(** [root_device]: [stdout.split()[1]] of [findmnt -n /] when its output
    is non-empty ([IndexError] when it has a single field), [""]
    otherwise. *)
Definition root_device_of (stdout : string) : option string :=
  if String.eqb stdout "" then Some "" else Py.index (Py.split stdout) 1.

Definition _is_separate_partition (mount_point : string) : M bool :=
  info <- _get_mount_info mount_point ;;
  let '(is_mounted, _, device) := info in
  if negb is_mounted then ret false
  else
    r <- run_command "findmnt -n /" ;;
    let '(stdout, _, _) := r in
    root_device <- from_option (root_device_of stdout) ;;
    ret (negb (String.eqb device root_device) && negb (String.eqb device "")).

Definition _has_option (mount_point option : string) : M bool :=
  info <- _get_mount_info mount_point ;;
  let '(is_mounted, options, _) := info in
  if negb is_mounted then ret false else ret (Py.list_in option options).

Definition check_tmp_partition : M (bool * string * bool) :=
  let d := "1.1.2.1 Ensure /tmp is a separate partition" in
  sep <- _is_separate_partition "/tmp" ;;
  if sep then
    print (Colors.GREEN ++ "[+] PASS: /tmp is mounted on a separate partition" ++ Colors.RESET) ;;;
    ret (true, d, true)
  else
    print (Colors.RED ++ "[-] FAIL: /tmp is not mounted on a separate partition" ++ Colors.RESET) ;;;
    print "    Remediation: Create a separate partition for /tmp and update /etc/fstab" ;;;
    ret (false, d, false).

(** The [_has_option] branch shared by the six option checks. *)
Definition option_status (mount_point option : string) : M bool :=
  has <- _has_option mount_point option ;;
  if has then
    print (Colors.GREEN ++ "[+] PASS: " ++ option ++ " option is set on " ++ mount_point
           ++ Colors.RESET) ;;;
    ret true
  else
    print (Colors.RED ++ "[-] FAIL: " ++ option ++ " option is not set on " ++ mount_point
           ++ Colors.RESET) ;;;
    print ("    Remediation: Add the " ++ option ++ " option to the " ++ mount_point
           ++ " entry in /etc/fstab") ;;;
    ret false.

(** [check_tmp_nodev], [check_tmp_nosuid] and [check_tmp_noexec]. *)
Definition check_tmp_option (benchmark_id option : string) : M (bool * string * bool) :=
  let d := benchmark_id ++ " Ensure " ++ option ++ " option set on /tmp partition" in
  sep <- _is_separate_partition "/tmp" ;;
  if negb sep then
    print (Colors.YELLOW ++ "[!] WARN: /tmp is not a separate partition, skipping "
           ++ option ++ " check" ++ Colors.RESET) ;;;
    ret (false, d, false)
  else
    passed <- option_status "/tmp" option ;;
    ret (passed, d, passed).

Definition check_tmp_nodev := check_tmp_option "1.1.2.2" "nodev".
Definition check_tmp_nosuid := check_tmp_option "1.1.2.3" "nosuid".
Definition check_tmp_noexec := check_tmp_option "1.1.2.4" "noexec".

Definition check_dev_shm_partition : M (bool * string * bool) :=
  let d := "1.1.2.5 Ensure /dev/shm is configured" in
  info <- _get_mount_info "/dev/shm" ;;
  let '(is_mounted, _, _) := info in
  if is_mounted then
    print (Colors.GREEN ++ "[+] PASS: /dev/shm is properly configured" ++ Colors.RESET) ;;;
    ret (true, d, true)
  else
    print (Colors.RED ++ "[-] FAIL: /dev/shm is not properly configured" ++ Colors.RESET) ;;;
    print "    Remediation: Ensure /dev/shm is properly mounted" ;;;
    ret (false, d, false).

(** [check_dev_shm_nodev], [check_dev_shm_nosuid], [check_dev_shm_noexec]. *)
Definition check_dev_shm_option (benchmark_id option : string) : M (bool * string * bool) :=
  let d := benchmark_id ++ " Ensure " ++ option ++ " option set on /dev/shm partition" in
  info <- _get_mount_info "/dev/shm" ;;
  let '(is_mounted, _, _) := info in
  if negb is_mounted then
    print (Colors.YELLOW ++ "[!] WARN: /dev/shm is not properly configured, skipping "
           ++ option ++ " check" ++ Colors.RESET) ;;;
    ret (false, d, false)
  else
    passed <- option_status "/dev/shm" option ;;
    ret (passed, d, passed).

Definition check_dev_shm_nodev := check_dev_shm_option "1.1.2.6" "nodev".
Definition check_dev_shm_nosuid := check_dev_shm_option "1.1.2.7" "nosuid".
Definition check_dev_shm_noexec := check_dev_shm_option "1.1.2.8" "noexec".

(** The list literal [results] of [run_all_audits]: its elements are
    evaluated in order and the first exception propagates. *)
Definition results : M (list (bool * string * bool)) :=
  mapM (fun c => c)
    [check_tmp_partition; check_tmp_nodev; check_tmp_nosuid; check_tmp_noexec;
     check_dev_shm_partition; check_dev_shm_nodev; check_dev_shm_nosuid;
     check_dev_shm_noexec].

Definition audits_header : string :=
  Colors.BLUE ++ "Running Filesystem Partition Configuration Audits..." ++ Colors.RESET.

Definition run_all_audits (return_results : bool) : M (list (string * bool) + bool) :=
  print audits_header ;;;
  rs <- results ;;
  FsModules.print_summary "Filesystem Partition Configuration Audit Summary:" rs ;;;
  if return_results then ret (inl (map (fun r => (snd (fst r), snd r)) rs))
  else ret (inr (forallb (fun r => fst (fst r)) rs)).

(** [run_all_remediations()] only prints the manual steps. *)
Definition run_all_remediations : M bool :=
  print (Colors.BLUE ++ "Filesystem Partition Configuration Remediation Guide" ++ Colors.RESET) ;;;
  print (Colors.YELLOW ++ "NOTE: All filesystem partition remediations require manual intervention." ++ Colors.RESET) ;;;
  print (Colors.YELLOW ++ "The following are suggestions for how to remediate each issue." ++ Colors.RESET ++ Py.nl) ;;;
  print (Colors.BLUE ++ "1.1.2.1 Ensure /tmp is a separate partition" ++ Colors.RESET) ;;;
  print ("Manual remediation steps:") ;;;
  print ("    1. Back up any data in /tmp") ;;;
  print ("    2. Create a new partition or logical volume for /tmp") ;;;
  print ("    3. Add an entry to /etc/fstab similar to:") ;;;
  print ("       UUID=<UUID> /tmp ext4 defaults,nodev,nosuid,noexec 0 2") ;;;
  print ("    4. Mount the new partition: mount /tmp") ;;;
  print ("    5. Restore any data to /tmp if needed" ++ Py.nl) ;;;
  print (Colors.BLUE ++ "1.1.2.2 Ensure nodev option set on /tmp partition" ++ Colors.RESET) ;;;
  print ("Manual remediation steps:") ;;;
  print ("    1. Edit /etc/fstab and add the nodev option to the /tmp entry") ;;;
  print ("    2. Remount /tmp: mount -o remount /tmp" ++ Py.nl) ;;;
  print (Colors.BLUE ++ "1.1.2.3 Ensure nosuid option set on /tmp partition" ++ Colors.RESET) ;;;
  print ("Manual remediation steps:") ;;;
  print ("    1. Edit /etc/fstab and add the nosuid option to the /tmp entry") ;;;
  print ("    2. Remount /tmp: mount -o remount /tmp" ++ Py.nl) ;;;
  print (Colors.BLUE ++ "1.1.2.4 Ensure noexec option set on /tmp partition" ++ Colors.RESET) ;;;
  print ("Manual remediation steps:") ;;;
  print ("    1. Edit /etc/fstab and add the noexec option to the /tmp entry") ;;;
  print ("    2. Remount /tmp: mount -o remount /tmp" ++ Py.nl) ;;;
  print (Colors.BLUE ++ "1.1.2.5 Ensure /dev/shm is configured" ++ Colors.RESET) ;;;
  print ("Manual remediation steps:") ;;;
  print ("    1. Edit /etc/fstab and add an entry for /dev/shm:") ;;;
  print ("       tmpfs /dev/shm tmpfs defaults,nodev,nosuid,noexec 0 0") ;;;
  print ("    2. Mount /dev/shm: mount /dev/shm" ++ Py.nl) ;;;
  print (Colors.BLUE ++ "1.1.2.6 Ensure nodev option set on /dev/shm partition" ++ Colors.RESET) ;;;
  print ("Manual remediation steps:") ;;;
  print ("    1. Edit /etc/fstab and add the nodev option to the /dev/shm entry") ;;;
  print ("    2. Remount /dev/shm: mount -o remount /dev/shm" ++ Py.nl) ;;;
  print (Colors.BLUE ++ "1.1.2.7 Ensure nosuid option set on /dev/shm partition" ++ Colors.RESET) ;;;
  print ("Manual remediation steps:") ;;;
  print ("    1. Edit /etc/fstab and add the nosuid option to the /dev/shm entry") ;;;
  print ("    2. Remount /dev/shm: mount -o remount /dev/shm" ++ Py.nl) ;;;
  print (Colors.BLUE ++ "1.1.2.8 Ensure noexec option set on /dev/shm partition" ++ Colors.RESET) ;;;
  print ("Manual remediation steps:") ;;;
  print ("    1. Edit /etc/fstab and add the noexec option to the /dev/shm entry") ;;;
  print ("    2. Remount /dev/shm: mount -o remount /dev/shm" ++ Py.nl) ;;;
  print (Colors.YELLOW ++ "After making these changes, run the audit again to verify:" ++ Colors.RESET) ;;;
  print ("    python3 cis_audit.py audit filesystem --user-friendly") ;;;
  ret false.

End Partitions.
(* ------------------------------------------------------------------ *)
(** ** A JSON value, as [json.dumps] prints it (objects keep key order). *)

#[warnings="-register-all"]
Inductive json :=
| JBool (b : bool)
| JString (s : string)
| JArray (xs : list json)
| JObject (kvs : list (string * json)).

(** One element appended to [results] by the JSON branch of [main]:
    [{"check": name, "status": status, "message": msg, "passed": passed}]. *)
Definition result_entry (name : string) (passed : bool) (msg : string) : json :=
  let status := if passed then "PASS" else "FAIL" in
  JObject [("check", JString name); ("status", JString status);
           ("message", JString msg); ("passed", JBool passed)].

(** The [for name, func in checks] loop of [main] with [--json], followed
    by [json.dumps({"results": results})].  [call] runs a check function;
    [None] is an exception escaping it, which ends the program before
    anything is printed. *)
Fixpoint json_results {A} (call : A -> option (bool * string))
  (checks : list (string * A)) : option (list json) :=
  match checks with
  | [] => Some []
  | (name, func) :: rest =>
      match call func with
      | None => None
      | Some (passed, msg) =>
          match json_results call rest with
          | None => None
          | Some js => Some (result_entry name passed msg :: js)
          end
      end
  end.

Definition main_json {A} (call : A -> option (bool * string))
  (checks : list (string * A)) : option json :=
  match json_results call checks with
  | None => None
  | Some results => Some (JObject [("results", JArray results)])
  end.

(** The same loop without [--json]: the line
    [print(f"[{status}] {name}: {msg}")] of each check, in order, and
    [false] when a check raised, which ends the program after the lines
    already printed. *)
Fixpoint text_lines {A} (call : A -> option (bool * string))
  (checks : list (string * A)) : list string * bool :=
  match checks with
  | [] => ([], true)
  | (name, func) :: rest =>
      match call func with
      | None => ([], false)
      | Some (passed, msg) =>
          let status := if passed then "PASS" else "FAIL" in
          let '(lines, ok) := text_lines call rest in
          (("[" ++ status ++ "] " ++ name ++ ": " ++ msg) :: lines, ok)
      end
  end.

(** [main] without [--json]: the report header, then the loop. *)
Definition main_text {A} (header : string) (call : A -> option (bool * string))
  (checks : list (string * A)) : list string * bool :=
  let '(lines, ok) := text_lines call checks in (header :: lines, ok).

(* ------------------------------------------------------------------ *)
(** ** [cis_filesystem_audit.py] *)

Module FsAudit.

(** What the argv commands of this script return; [run_command] uses
    [shell=False] and does not strip.  A command that cannot be started
    is the [(1, "", str(e))] of the [except] branch. *)
Record fa_snapshot := mk_fa {
  fa_lsmod : proc_result;
  fa_grep : string -> string -> proc_result;  (* pattern, path *)
  fa_findmnt : string -> proc_result
}.

Definition check_kernel_module_not_loaded (p : fa_snapshot) (module_name : string)
  : bool * string :=
  let r := fa_lsmod p in
  if negb (rc r =? 0)%Z then
    (false, "Error checking if " ++ module_name ++ " is loaded: " ++ err r)
  else if Py.contains module_name (out r) then
    (false, module_name ++ " kernel module is loaded")
  else (true, module_name ++ " kernel module is not loaded").

Definition config_files : list string :=
  ["/etc/modprobe.d/*.conf"; "/etc/modprobe.conf"; "/lib/modprobe.d/*.conf"].

Definition check_kernel_module_disabled (p : fa_snapshot) (module_name : string)
  : bool * string :=
  let pat := "^install " ++ module_name ++ " /bin/true" in
  if existsb (fun config_pattern =>
                let r := fa_grep p pat config_pattern in
                (rc r =? 0)%Z && negb (String.eqb (Py.strip (out r)) ""))
             config_files
  then (true, module_name ++ " kernel module is disabled in modprobe config")
  else (false, module_name ++ " kernel module is not disabled in modprobe config").

(** [None]: [stdout.split()[3]] raises [IndexError]. *)
Definition check_mount_option (p : fa_snapshot) (mount_point option : string)
  : Datatypes.option (bool * string) :=
  let r := fa_findmnt p mount_point in
  if negb (rc r =? 0)%Z then
    Some (false, "Mount point " ++ mount_point ++ " not found")
  else match Py.index (Py.split (out r)) 3 with
       | None => None
       | Some o =>
           if Py.list_in option (Py.split_on ","%char o)
           then Some (true, "Mount option '" ++ option ++ "' is set on " ++ mount_point)
           else Some (false, "Mount option '" ++ option ++ "' is not set on " ++ mount_point)
       end.

Definition check_separate_partition (p : fa_snapshot) (mount_point : string)
  : bool * string :=
  let r := fa_findmnt p mount_point in
  if negb (rc r =? 0)%Z then
    (false, mount_point ++ " is not on a separate partition")
  else (true, mount_point ++ " is on a separate partition").

(** The three shapes of the check functions of the [checks] list. *)
Inductive fa_check :=
| ModuleCheck (module_name : string)
    (* check_cramfs .. check_usb_storage *)
| PartitionCheck (mount_point remediation : string)
    (* check_tmp_partition, check_home_partition, ... *)
| OptionCheck (mount_point option : string)
    (* check_tmp_nodev, check_var_log_noexec, ... *).

Definition run_check (p : fa_snapshot) (c : fa_check) : option (bool * string) :=
  match c with
  | ModuleCheck m =>
      let loaded_check := check_kernel_module_not_loaded p m in
      let disabled_check := check_kernel_module_disabled p m in
      if fst loaded_check && fst disabled_check then
        Some (true, m ++ " kernel module is not loaded and is disabled")
      else if negb (fst loaded_check) then
        Some (false, snd loaded_check ++ ". Remediation: rmmod " ++ m
                     ++ " && echo 'install " ++ m ++ " /bin/true' > /etc/modprobe.d/"
                     ++ m ++ ".conf")
      else
        Some (false, snd disabled_check ++ ". Remediation: echo 'install " ++ m
                     ++ " /bin/true' > /etc/modprobe.d/" ++ m ++ ".conf")
  | PartitionCheck mp rem =>
      let result := check_separate_partition p mp in
      if negb (fst result) then Some (false, snd result ++ ". Remediation: " ++ rem)
      else Some (true, snd result)
  | OptionCheck mp opt =>
      match check_mount_option p mp opt with
      | None => None
      | Some result =>
          if negb (fst result) then
            Some (false, snd result ++ ". Remediation: Add '" ++ opt
                         ++ "' to the mount options for " ++ mp ++ " in /etc/fstab.")
          else Some (true, snd result)
      end
  end.

Definition part_rem (mp : string) : string :=
  "Create a separate partition for " ++ mp
  ++ " during system installation or resize existing partitions.".

Definition checks : list (string * fa_check) := [
  ("1.1.1.1 Ensure cramfs kernel module is not available", ModuleCheck "cramfs");
  ("1.1.1.2 Ensure freevxfs kernel module is not available", ModuleCheck "freevxfs");
  ("1.1.1.3 Ensure hfs kernel module is not available", ModuleCheck "hfs");
  ("1.1.1.4 Ensure hfsplus kernel module is not available", ModuleCheck "hfsplus");
  ("1.1.1.5 Ensure jffs2 kernel module is not available", ModuleCheck "jffs2");
  ("1.1.1.6 Ensure squashfs kernel module is not available", ModuleCheck "squashfs");
  ("1.1.1.7 Ensure udf kernel module is not available", ModuleCheck "udf");
  ("1.1.1.8 Ensure usb-storage kernel module is not available", ModuleCheck "usb-storage");
  ("1.1.2.1 Ensure /tmp is a separate partition",
   PartitionCheck "/tmp" "Create a separate partition for /tmp during system installation or resize existing partitions to create space for /tmp.");
  ("1.1.2.2 Ensure nodev option set on /tmp partition", OptionCheck "/tmp" "nodev");
  ("1.1.2.3 Ensure noexec option set on /tmp partition", OptionCheck "/tmp" "noexec");
  ("1.1.2.4 Ensure nosuid option set on /tmp partition", OptionCheck "/tmp" "nosuid");
  ("1.1.2.2.1 Ensure /dev/shm is a separate partition",
   PartitionCheck "/dev/shm" "Add an entry for /dev/shm in /etc/fstab: 'tmpfs /dev/shm tmpfs defaults,nodev,nosuid,noexec 0 0'");
  ("1.1.2.2.2 Ensure nodev option set on /dev/shm partition", OptionCheck "/dev/shm" "nodev");
  ("1.1.2.2.3 Ensure noexec option set on /dev/shm partition", OptionCheck "/dev/shm" "noexec");
  ("1.1.2.2.4 Ensure nosuid option set on /dev/shm partition", OptionCheck "/dev/shm" "nosuid");
  ("1.1.2.3.1 Ensure separate partition exists for /home", PartitionCheck "/home" (part_rem "/home"));
  ("1.1.2.3.2 Ensure nodev option set on /home partition", OptionCheck "/home" "nodev");
  ("1.1.2.3.3 Ensure nosuid option set on /home partition", OptionCheck "/home" "nosuid");
  ("1.1.2.4.1 Ensure separate partition exists for /var", PartitionCheck "/var" (part_rem "/var"));
  ("1.1.2.4.2 Ensure nodev option set on /var partition", OptionCheck "/var" "nodev");
  ("1.1.2.4.3 Ensure nosuid option set on /var partition", OptionCheck "/var" "nosuid");
  ("1.1.2.5.1 Ensure separate partition exists for /var/tmp", PartitionCheck "/var/tmp" (part_rem "/var/tmp"));
  ("1.1.2.5.2 Ensure nodev option set on /var/tmp partition", OptionCheck "/var/tmp" "nodev");
  ("1.1.2.5.3 Ensure nosuid option set on /var/tmp partition", OptionCheck "/var/tmp" "nosuid");
  ("1.1.2.5.4 Ensure noexec option set on /var/tmp partition", OptionCheck "/var/tmp" "noexec");
  ("1.1.2.6.1 Ensure separate partition exists for /var/log", PartitionCheck "/var/log" (part_rem "/var/log"));
  ("1.1.2.6.2 Ensure nodev option set on /var/log partition", OptionCheck "/var/log" "nodev");
  ("1.1.2.6.3 Ensure nosuid option set on /var/log partition", OptionCheck "/var/log" "nosuid");
  ("1.1.2.6.4 Ensure noexec option set on /var/log partition", OptionCheck "/var/log" "noexec");
  ("1.1.2.7.1 Ensure separate partition exists for /var/log/audit", PartitionCheck "/var/log/audit" (part_rem "/var/log/audit"));
  ("1.1.2.7.2 Ensure nodev option set on /var/log/audit partition", OptionCheck "/var/log/audit" "nodev");
  ("1.1.2.7.3 Ensure nosuid option set on /var/log/audit partition", OptionCheck "/var/log/audit" "nosuid");
  ("1.1.2.7.4 Ensure noexec option set on /var/log/audit partition", OptionCheck "/var/log/audit" "noexec")
].

(** [main()] with [--json]: [Some] of the printed object, [None] when a
    check raised. *)
Definition main (p : fa_snapshot) : option json := main_json (run_check p) checks.

Definition report_header : string :=
  "Ubuntu 22.04 LTS CIS Section 1.1 - Filesystem Configuration Audit Report" ++ Py.nl
  ++ repeat_str "-" 75.

(** [main()] without [--json]: the printed lines, and whether it returned. *)
Definition main_text (p : fa_snapshot) : list string * bool :=
  main_text report_header (run_check p) checks.

End FsAudit.

(* ------------------------------------------------------------------ *)
(** ** [cis_services_audit.py] *)

Module ServicesAudit.

(** [subprocess.run] either returns or raises; [inr e] is [str(e)]. *)
Definition run_outcome := (proc_result + string)%type.

Record sv_snapshot := mk_sv {
  sv_dpkg : string -> run_outcome;                 (* dpkg -s pkg *)
  sv_systemctl : string -> string -> run_outcome;  (* systemctl verb unit *)
  sv_isfile : string -> bool
}.

Definition check_service_not_installed (p : sv_snapshot) (service_name : string)
  : bool * string :=
  match sv_dpkg p service_name with
  | inr e => (false, "Error checking " ++ service_name ++ ": " ++ e)
  | inl result =>
      if Py.contains "Status: install ok installed" (out result)
      then (false, service_name ++ " is installed")
      else (true, service_name ++ " is not installed")
  end.

Definition check_chronyd (p : sv_snapshot) : bool * string :=
  match sv_systemctl p "is-active" "chronyd" with
  | inr e => (false, "Error checking chronyd: " ++ e)
  | inl active_result =>
  match sv_systemctl p "is-enabled" "chronyd" with
  | inr e => (false, "Error checking chronyd: " ++ e)
  | inl enabled_result =>
      let config_exists := sv_isfile p "/etc/chrony/chrony.conf" in
      let act := Py.contains "active" (Py.strip (out active_result)) in
      let ena := Py.contains "enabled" (Py.strip (out enabled_result)) in
      if act && ena && config_exists then
        (true, "chronyd is active, enabled, and configured")
      else
        let status := ((if act then [] else ["not active"])
                      ++ (if ena then [] else ["not enabled"])
                      ++ (if config_exists then [] else ["config file missing"]))%list in
        (false, "chronyd is " ++ String.concat ", " status)
  end
  end.

Definition check_systemd_timesyncd (p : sv_snapshot) : bool * string :=
  match sv_systemctl p "is-active" "systemd-timesyncd" with
  | inr e => (false, "Error checking systemd-timesyncd: " ++ e)
  | inl active_result =>
  match sv_systemctl p "is-enabled" "systemd-timesyncd" with
  | inr e => (false, "Error checking systemd-timesyncd: " ++ e)
  | inl enabled_result =>
      let act := Py.contains "active" (Py.strip (out active_result)) in
      let ena := Py.contains "enabled" (Py.strip (out enabled_result)) in
      if act && ena then (true, "systemd-timesyncd is active and enabled")
      else
        let status := ((if act then [] else ["not active"])
                      ++ (if ena then [] else ["not enabled"]))%list in
        (false, "systemd-timesyncd is " ++ String.concat ", " status)
  end
  end.

Definition check_time_synchronization (p : sv_snapshot) : bool * string :=
  let chronyd_result := check_chronyd p in
  if fst chronyd_result then
    (true, "Time synchronization via chronyd: " ++ snd chronyd_result)
  else
    let timesyncd_result := check_systemd_timesyncd p in
    if fst timesyncd_result then
      (true, "Time synchronization via systemd-timesyncd: " ++ snd timesyncd_result)
    else (false, "Neither chronyd nor systemd-timesyncd is properly configured").

(** [check_xinetd] .. [check_nis] are [check_service_not_installed] on a
    package name. *)
Inductive sv_check :=
| NotInstalled (service_name : string)
| TimeSynchronization.

Definition run_check (p : sv_snapshot) (c : sv_check) : option (bool * string) :=
  match c with
  | NotInstalled s => Some (check_service_not_installed p s)
  | TimeSynchronization => Some (check_time_synchronization p)
  end.

Definition checks : list (string * sv_check) := [
  ("2.1.1 Ensure xinetd is not installed", NotInstalled "xinetd");
  ("2.1.2 Ensure openbsd-inetd is not installed", NotInstalled "openbsd-inetd");
  ("2.1.3 Ensure avahi-daemon is not installed", NotInstalled "avahi-daemon");
  ("2.1.4 Ensure cups is not installed", NotInstalled "cups");
  ("2.1.5 Ensure isc-dhcp-server is not installed", NotInstalled "isc-dhcp-server");
  ("2.1.6 Ensure slapd is not installed", NotInstalled "slapd");
  ("2.1.7 Ensure nfs-kernel-server is not installed", NotInstalled "nfs-kernel-server");
  ("2.1.8 Ensure bind9 is not installed", NotInstalled "bind9");
  ("2.1.9 Ensure vsftpd is not installed", NotInstalled "vsftpd");
  ("2.1.10 Ensure apache2 is not installed", NotInstalled "apache2");
  ("2.1.11 Ensure dovecot is not installed", NotInstalled "dovecot");
  ("2.1.12 Ensure samba is not installed", NotInstalled "samba");
  ("2.1.13 Ensure squid is not installed", NotInstalled "squid");
  ("2.1.14 Ensure snmpd is not installed", NotInstalled "snmpd");
  ("2.1.15 Ensure rsync is not installed", NotInstalled "rsync");
  ("2.1.16 Ensure nis is not installed", NotInstalled "nis");
  ("2.2 Ensure time synchronization is configured", TimeSynchronization)
].

Definition main (p : sv_snapshot) : option json := main_json (run_check p) checks.

Definition report_header : string :=
  "Ubuntu 22.04 LTS CIS Section 2 - Services Audit Report" ++ Py.nl ++ repeat_str "-" 60.

Definition main_text (p : sv_snapshot) : list string * bool :=
  main_text report_header (run_check p) checks.

End ServicesAudit.

(* ------------------------------------------------------------------ *)
(** ** [cis_audit.py]: the module registry, [filter_modules] and the lines of [run_audits] *)

Module Controller.

(** The Python modules the registry points to. *)
Inductive pymodule :=
| fs_modules | partitions | repositories | updates | apparmor
| configuration | process_restrictions | warning_banners.

Record submodule := mk_sub {
  sub_name : string;
  sub_module : option pymodule;
  sub_title : string;
  sub_description : string
}.

Record module_group := mk_group {
  group_name : string;
  group_submodules : list submodule
}.

Definition MODULES : list module_group := [
  mk_group "kernel"
    [mk_sub "fs_modules" (Some fs_modules) "1.1.1 Filesystem Kernel Modules"
       "Ensure unnecessary filesystem modules are disabled"];
  mk_group "filesystem"
    [mk_sub "partitions" (Some partitions) "1.1.2 Filesystem Partition Configuration"
       "Ensure proper filesystem partitioning and mounting"];
  mk_group "package_management"
    [mk_sub "repositories" (Some repositories) "1.2.1 Configure Package Repositories"
       "Ensure package repositories are properly configured";
     mk_sub "updates" (Some updates) "1.2.2 Configure Package Updates"
       "Ensure package updates are properly configured"];
  mk_group "access_control"
    [mk_sub "apparmor" (Some apparmor) "1.3.1 Configure AppArmor"
       "Ensure AppArmor is properly configured"];
  mk_group "bootloader"
    [mk_sub "configuration" (Some configuration) "1.4 Configure Bootloader"
       "Ensure bootloader is properly configured"];
  mk_group "process_hardening"
    [mk_sub "process_restrictions" (Some process_restrictions)
       "1.5 Configure Additional Process Hardening"
       "Ensure additional process hardening measures are in place"];
  mk_group "command_line_warning"
    [mk_sub "warning_banners" (Some warning_banners)
       "1.6 Configure Command Line Warning Banners"
       "Ensure command line warning banners are properly configured"]
].

(** One iteration of the loop of [filter_modules]: the whole group when
    its name matches ([continue]), otherwise a copy of it restricted to
    the matching submodules, when there is one. *)
Definition filter_group (target_module : string) (module_group : module_group)
  : list Controller.module_group :=
  if String.eqb (group_name module_group) target_module then [module_group]
  else
    let filtered_submodules :=
      filter (fun sm => String.eqb (sub_name sm) target_module)
             (group_submodules module_group) in
    match filtered_submodules with
    | [] => []
    | _ => [mk_group (group_name module_group) filtered_submodules]
    end.

Definition filter_modules (target_module : string) : list module_group :=
  if String.eqb target_module "all" then MODULES
  else flat_map (filter_group target_module) MODULES.

(** The lines [run_audits] prints when the target is unknown. *)
Definition not_found_lines (target_module : string) : list string :=
  app ["Error: Module '" ++ target_module ++ "' not found."; "Available modules:"]
  (flat_map (fun g => ("  - " ++ group_name g ++ " (group)")
                        :: map (fun sm => "    - " ++ sub_name sm) (group_submodules g))
              MODULES).

Definition start_line (target_module : string) : string :=
  Py.nl ++ "🔍 Starting CIS Ubuntu 22.04 LTS Benchmark Audit for "
  ++ target_module ++ "..." ++ Py.nl.

Definition summary_pass : string :=
  Py.nl ++ Colors.GREEN
  ++ "✅ All audits completed successfully. System is compliant with benchmarks."
  ++ Colors.RESET.

Definition summary_fail : string :=
  Py.nl ++ Colors.YELLOW
  ++ "⚠️  All audits completed. Some checks failed. Run with 'remediate' to fix issues."
  ++ Colors.RESET.

End Controller.


(* ------------------------------------------------------------------ *)
(** ** The remediations of the other [modules/] packages: manual steps only *)

(** The remediations of [modules/access_control/apparmor.py]. *)
Module Apparmor.
Definition remediate_apparmor_installed : M bool :=
  print (Colors.YELLOW ++ "Manual remediation steps for installing AppArmor:" ++ Colors.RESET) ;;;
  print ("1. Install AppArmor and AppArmor utilities:") ;;;
  print ("   sudo apt update") ;;;
  print ("   sudo apt install -y apparmor apparmor-utils") ;;;
  print ("2. Verify installation:") ;;;
  print ("   dpkg -s apparmor apparmor-utils | grep Status") ;;;
  print (Py.nl ++ Colors.YELLOW ++ "After making these changes, run the audit again to verify:" ++ Colors.RESET) ;;;
  print ("sudo python3 cis_audit.py audit access_control") ;;;
  ret true.

Definition remediate_apparmor_enabled_bootloader : M bool :=
  print (Colors.YELLOW ++ "Manual remediation steps for enabling AppArmor in bootloader:" ++ Colors.RESET) ;;;
  print ("1. Edit the GRUB configuration:") ;;;
  print ("   sudo nano /etc/default/grub") ;;;
  print ("2. Add 'apparmor=1 security=apparmor' to GRUB_CMDLINE_LINUX if not already present:") ;;;
  print ("   GRUB_CMDLINE_LINUX=" ++ dq ++ "apparmor=1 security=apparmor" ++ dq) ;;;
  print ("   (If other options exist, add these parameters to the existing line)") ;;;
  print ("3. Update GRUB configuration:") ;;;
  print ("   sudo update-grub") ;;;
  print ("4. Reboot the system to apply changes:") ;;;
  print ("   sudo reboot") ;;;
  print (Py.nl ++ Colors.YELLOW ++ "After making these changes and rebooting, run the audit again to verify:" ++ Colors.RESET) ;;;
  print ("sudo python3 cis_audit.py audit access_control") ;;;
  ret true.

Definition remediate_apparmor_profiles_enforcing : M bool :=
  print (Colors.YELLOW ++ "Manual remediation steps for enabling AppArmor profiles:" ++ Colors.RESET) ;;;
  print ("1. List available profiles:") ;;;
  print ("   sudo aa-status") ;;;
  print ("2. Set profiles to enforce mode (recommended for production):") ;;;
  print ("   sudo aa-enforce /etc/apparmor.d/*") ;;;
  print ("   OR for specific profiles:") ;;;
  print ("   sudo aa-enforce /etc/apparmor.d/profile_name") ;;;
  print ("3. Alternatively, set profiles to complain mode (for testing):") ;;;
  print ("   sudo aa-complain /etc/apparmor.d/*") ;;;
  print ("4. Restart AppArmor service:") ;;;
  print ("   sudo systemctl restart apparmor") ;;;
  print (Py.nl ++ Colors.YELLOW ++ "After making these changes, run the audit again to verify:" ++ Colors.RESET) ;;;
  print ("sudo python3 cis_audit.py audit access_control") ;;;
  ret true.

Definition run_all_remediations : M bool :=
  all_remediations [remediate_apparmor_installed; remediate_apparmor_enabled_bootloader; remediate_apparmor_profiles_enforcing].

End Apparmor.

(** The remediations of [modules/bootloader/configuration.py]. *)
Module BootloaderConfiguration.
Definition remediate_bootloader_password : M bool :=
  print (Colors.YELLOW ++ "Manual remediation steps for setting bootloader password:" ++ Colors.RESET) ;;;
  print ("1. Generate a GRUB password hash:") ;;;
  print ("   sudo grub-mkpasswd-pbkdf2") ;;;
  print ("   (Enter and confirm your password when prompted)") ;;;
  print ("2. Create or edit /etc/grub.d/40_custom:") ;;;
  print ("   sudo nano /etc/grub.d/40_custom") ;;;
  print ("3. Add the following lines (replace YOUR_PASSWORD_HASH with the hash generated in step 1):") ;;;
  print ("   set superusers=" ++ dq ++ "root" ++ dq) ;;;
  print ("   password_pbkdf2 root YOUR_PASSWORD_HASH") ;;;
  print ("4. Update GRUB configuration:") ;;;
  print ("   sudo update-grub") ;;;
  print ("5. Verify the password was added:") ;;;
  print ("   grep -E '^password|^password_pbkdf2' /boot/grub/grub.cfg") ;;;
  print (Py.nl ++ Colors.YELLOW ++ "After making these changes, run the audit again to verify:" ++ Colors.RESET) ;;;
  print ("sudo python3 cis_audit.py audit bootloader") ;;;
  ret true.

Definition remediate_bootloader_config_permissions : M bool :=
  print (Colors.YELLOW ++ "Manual remediation steps for securing bootloader config:" ++ Colors.RESET) ;;;
  print ("1. Set proper ownership:") ;;;
  print ("   sudo chown root:root /boot/grub/grub.cfg") ;;;
  print ("2. Set proper permissions:") ;;;
  print ("   sudo chmod 400 /boot/grub/grub.cfg") ;;;
  print ("3. Verify the changes:") ;;;
  print ("   ls -l /boot/grub/grub.cfg") ;;;
  print (Py.nl ++ Colors.YELLOW ++ "After making these changes, run the audit again to verify:" ++ Colors.RESET) ;;;
  print ("sudo python3 cis_audit.py audit bootloader") ;;;
  ret true.

Definition run_all_remediations : M bool :=
  all_remediations [remediate_bootloader_password; remediate_bootloader_config_permissions].

End BootloaderConfiguration.

(** The remediations of [modules/command_line_warning/warning_banners.py]. *)
Module WarningBanners.
Definition remediate_message_of_the_day : M bool :=
  print (Colors.YELLOW ++ "Manual remediation steps for configuring message of the day:" ++ Colors.RESET) ;;;
  print ("1. Create or edit /etc/motd with appropriate content:") ;;;
  print ("   sudo nano /etc/motd") ;;;
  print ("2. Add a legal warning banner, for example:") ;;;
  print ("   'Unauthorized access to this system is prohibited. All access and use may be monitored and recorded.'") ;;;
  print ("3. Ensure the file has proper permissions:") ;;;
  print ("   sudo chmod 644 /etc/motd") ;;;
  print ("   sudo chown root:root /etc/motd") ;;;
  print ("4. Avoid including system information like OS version, kernel version, etc.") ;;;
  print (Py.nl ++ Colors.YELLOW ++ "After making these changes, run the audit again to verify:" ++ Colors.RESET) ;;;
  print ("sudo python3 cis_audit.py audit command_line_warning") ;;;
  ret true.

Definition remediate_local_login_warning : M bool :=
  print (Colors.YELLOW ++ "Manual remediation steps for configuring local login warning banner:" ++ Colors.RESET) ;;;
  print ("1. Create or edit /etc/issue with appropriate content:") ;;;
  print ("   sudo nano /etc/issue") ;;;
  print ("2. Add a legal warning banner, for example:") ;;;
  print ("   'Unauthorized access to this system is prohibited. All access and use may be monitored and recorded.'") ;;;
  print ("3. Ensure the file has proper permissions:") ;;;
  print ("   sudo chmod 644 /etc/issue") ;;;
  print ("   sudo chown root:root /etc/issue") ;;;
  print ("4. Avoid including system information like OS version, kernel version, etc.") ;;;
  print (Py.nl ++ Colors.YELLOW ++ "After making these changes, run the audit again to verify:" ++ Colors.RESET) ;;;
  print ("sudo python3 cis_audit.py audit command_line_warning") ;;;
  ret true.

Definition remediate_remote_login_warning : M bool :=
  print (Colors.YELLOW ++ "Manual remediation steps for configuring remote login warning banner:" ++ Colors.RESET) ;;;
  print ("1. Create or edit /etc/issue.net with appropriate content:") ;;;
  print ("   sudo nano /etc/issue.net") ;;;
  print ("2. Add a legal warning banner, for example:") ;;;
  print ("   'Unauthorized access to this system is prohibited. All access and use may be monitored and recorded.'") ;;;
  print ("3. Ensure the file has proper permissions:") ;;;
  print ("   sudo chmod 644 /etc/issue.net") ;;;
  print ("   sudo chown root:root /etc/issue.net") ;;;
  print ("4. Avoid including system information like OS version, kernel version, etc.") ;;;
  print ("5. Configure SSH to display the banner by editing /etc/ssh/sshd_config:") ;;;
  print ("   sudo nano /etc/ssh/sshd_config") ;;;
  print ("6. Add or modify the line:") ;;;
  print ("   Banner /etc/issue.net") ;;;
  print ("7. Restart SSH service:") ;;;
  print ("   sudo systemctl restart sshd") ;;;
  print (Py.nl ++ Colors.YELLOW ++ "After making these changes, run the audit again to verify:" ++ Colors.RESET) ;;;
  print ("sudo python3 cis_audit.py audit command_line_warning") ;;;
  ret true.

Definition remediate_access_to_etc_issue : M bool :=
  print (Colors.YELLOW ++ "Manual remediation steps for restricting access to the su command:" ++ Colors.RESET) ;;;
  print ("1. Edit the PAM configuration file for su:") ;;;
  print ("   sudo nano /etc/pam.d/su") ;;;
  print ("2. Add or uncomment the following line:") ;;;
  print ("   auth required pam_wheel.so use_uid group=sudo") ;;;
  print ("3. Save the file and exit") ;;;
  print ("4. Verify that only users in the sudo group can use the su command") ;;;
  print (Py.nl ++ Colors.YELLOW ++ "After making these changes, run the audit again to verify:" ++ Colors.RESET) ;;;
  print ("sudo python3 cis_audit.py audit command_line_warning") ;;;
  ret true.

Definition run_all_remediations : M bool :=
  all_remediations [remediate_message_of_the_day; remediate_local_login_warning; remediate_remote_login_warning; remediate_access_to_etc_issue].

End WarningBanners.

(** The remediations of [modules/package_management/repositories.py]. *)
Module Repositories.
Definition remediate_gpg_keys : M bool :=
  print (Colors.YELLOW ++ "Manual remediation steps for GPG keys configuration:" ++ Colors.RESET) ;;;
  print ("1. Identify the repositories you need to use") ;;;
  print ("2. For each repository, obtain the GPG key using one of these methods:") ;;;
  print ("   a. Download the key: sudo wget -qO- https://repo-url/key.gpg | sudo gpg --dearmor -o /etc/apt/trusted.gpg.d/repo-name.gpg") ;;;
  print ("   b. Or use signed-by in source entries: deb [signed-by=/etc/apt/trusted.gpg.d/repo-name.gpg] https://repo-url distribution component") ;;;
  print ("3. Verify the keys: apt-key list or ls -l /etc/apt/trusted.gpg.d/") ;;;
  print (Py.nl ++ "Note: apt-key is deprecated. Use the trusted.gpg.d directory or signed-by method instead.") ;;;
  print (Py.nl ++ Colors.YELLOW ++ "After making these changes, run the audit again to verify:" ++ Colors.RESET) ;;;
  print ("sudo python3 cis_audit.py audit package_management") ;;;
  ret true.

Definition remediate_package_manager_repositories : M bool :=
  print (Colors.YELLOW ++ "Manual remediation steps for package manager repositories:" ++ Colors.RESET) ;;;
  print ("1. Edit /etc/apt/sources.list or create files in /etc/apt/sources.list.d/ with appropriate entries") ;;;
  print ("2. Example for Ubuntu 22.04 (Jammy Jellyfish):") ;;;
  print ("   deb [signed-by=/usr/share/keyrings/ubuntu-archive-keyring.gpg] http://archive.ubuntu.com/ubuntu/ jammy main restricted universe multiverse") ;;;
  print ("   deb [signed-by=/usr/share/keyrings/ubuntu-archive-keyring.gpg] http://archive.ubuntu.com/ubuntu/ jammy-updates main restricted universe multiverse") ;;;
  print ("   deb [signed-by=/usr/share/keyrings/ubuntu-archive-keyring.gpg] http://archive.ubuntu.com/ubuntu/ jammy-security main restricted universe multiverse") ;;;
  print ("3. Update package lists: sudo apt update") ;;;
  print (Py.nl ++ Colors.YELLOW ++ "After making these changes, run the audit again to verify:" ++ Colors.RESET) ;;;
  print ("sudo python3 cis_audit.py audit package_management") ;;;
  ret true.

Definition run_all_remediations : M bool :=
  all_remediations [remediate_gpg_keys; remediate_package_manager_repositories].

End Repositories.

(** The remediations of [modules/package_management/updates.py]. *)
Module Updates.
Definition remediate_updates_installed : M bool :=
  print (Colors.YELLOW ++ "Manual remediation steps for installing updates:" ++ Colors.RESET) ;;;
  print ("1. Update the package lists: sudo apt update") ;;;
  print ("2. Install all available updates: sudo apt upgrade") ;;;
  print ("3. For security updates only: sudo apt upgrade -s | grep -i security") ;;;
  print ("4. Consider setting up automatic updates:") ;;;
  print ("   a. Install unattended-upgrades: sudo apt install unattended-upgrades") ;;;
  print ("   b. Configure in /etc/apt/apt.conf.d/50unattended-upgrades") ;;;
  print ("   c. Enable the service: sudo dpkg-reconfigure -plow unattended-upgrades") ;;;
  print (Py.nl ++ Colors.YELLOW ++ "After making these changes, run the audit again to verify:" ++ Colors.RESET) ;;;
  print ("sudo python3 cis_audit.py audit package_management") ;;;
  ret true.

Definition run_all_remediations : M bool :=
  all_remediations [remediate_updates_installed].

End Updates.

(** The remediations of [modules/process_hardening/process_restrictions.py]. *)
Module ProcessRestrictions.
Definition remediate_address_space_layout_randomization : M bool :=
  print (Colors.YELLOW ++ "Manual remediation steps for enabling ASLR:" ++ Colors.RESET) ;;;
  print ("1. Set the runtime value:") ;;;
  print ("   sudo sysctl -w kernel.randomize_va_space=2") ;;;
  print ("2. Make the setting persistent:") ;;;
  print ("   echo 'kernel.randomize_va_space = 2' | sudo tee /etc/sysctl.d/60-kernel-randomize_va_space.conf") ;;;
  print ("3. Apply the settings:") ;;;
  print ("   sudo sysctl -p /etc/sysctl.d/60-kernel-randomize_va_space.conf") ;;;
  print (Py.nl ++ Colors.YELLOW ++ "After making these changes, run the audit again to verify:" ++ Colors.RESET) ;;;
  print ("sudo python3 cis_audit.py audit process_hardening") ;;;
  ret true.

Definition remediate_ptrace_scope : M bool :=
  print (Colors.YELLOW ++ "Manual remediation steps for restricting ptrace scope:" ++ Colors.RESET) ;;;
  print ("1. Set the runtime value:") ;;;
  print ("   sudo sysctl -w kernel.yama.ptrace_scope=1") ;;;
  print ("2. Make the setting persistent:") ;;;
  print ("   echo 'kernel.yama.ptrace_scope = 1' | sudo tee /etc/sysctl.d/10-ptrace.conf") ;;;
  print ("3. Apply the settings:") ;;;
  print ("   sudo sysctl -p /etc/sysctl.d/10-ptrace.conf") ;;;
  print (Py.nl ++ Colors.YELLOW ++ "After making these changes, run the audit again to verify:" ++ Colors.RESET) ;;;
  print ("sudo python3 cis_audit.py audit process_hardening") ;;;
  ret true.

Definition remediate_core_dumps_restricted : M bool :=
  print (Colors.YELLOW ++ "Manual remediation steps for restricting core dumps:" ++ Colors.RESET) ;;;
  print ("1. Set the runtime sysctl value:") ;;;
  print ("   sudo sysctl -w fs.suid_dumpable=0") ;;;
  print ("2. Make the sysctl setting persistent:") ;;;
  print ("   echo 'fs.suid_dumpable = 0' | sudo tee /etc/sysctl.d/50-coredump.conf") ;;;
  print ("3. Apply the sysctl settings:") ;;;
  print ("   sudo sysctl -p /etc/sysctl.d/50-coredump.conf") ;;;
  print ("4. Set hard limit for core dumps:") ;;;
  print ("   echo '* hard core 0' | sudo tee -a /etc/security/limits.conf") ;;;
  print (Py.nl ++ Colors.YELLOW ++ "After making these changes, run the audit again to verify:" ++ Colors.RESET) ;;;
  print ("sudo python3 cis_audit.py audit process_hardening") ;;;
  ret true.

Definition remediate_prelink_not_installed : M bool :=
  print (Colors.YELLOW ++ "Manual remediation steps for removing prelink:" ++ Colors.RESET) ;;;
  print ("1. If prelink is installed, first restore the system:") ;;;
  print ("   sudo prelink -ua") ;;;
  print ("2. Remove the prelink package:") ;;;
  print ("   sudo apt purge prelink") ;;;
  print ("3. Verify prelink is removed:") ;;;
  print ("   dpkg -s prelink") ;;;
  print (Py.nl ++ Colors.YELLOW ++ "After making these changes, run the audit again to verify:" ++ Colors.RESET) ;;;
  print ("sudo python3 cis_audit.py audit process_hardening") ;;;
  ret true.

Definition remediate_automatic_error_reporting : M bool :=
  print (Colors.YELLOW ++ "Manual remediation steps for disabling Automatic Error Reporting:" ++ Colors.RESET) ;;;
  print ("1. Disable the apport service:") ;;;
  print ("   sudo systemctl disable apport.service") ;;;
  print ("   sudo systemctl stop apport.service") ;;;
  print ("2. Edit the apport configuration file:") ;;;
  print ("   sudo nano /etc/default/apport") ;;;
  print ("3. Set enabled=0 in the configuration file") ;;;
  print ("4. Verify the service is disabled:") ;;;
  print ("   systemctl is-enabled apport.service") ;;;
  print (Py.nl ++ Colors.YELLOW ++ "After making these changes, run the audit again to verify:" ++ Colors.RESET) ;;;
  print ("sudo python3 cis_audit.py audit process_hardening") ;;;
  ret true.

Definition run_all_remediations : M bool :=
  all_remediations [remediate_address_space_layout_randomization; remediate_ptrace_scope; remediate_core_dumps_restricted; remediate_prelink_not_installed; remediate_automatic_error_reporting].

End ProcessRestrictions.
(* ------------------------------------------------------------------ *)
(** ** [fs_kernel_modules.py] (the stand-alone script) *)

Module FsKernelModules.

Definition _is_module_loaded (module_name : string) : M bool :=
  r <- run_command ("lsmod | grep " ++ module_name) ;;
  let '(stdout, _, _) := r in
  ret (Nat.ltb 0 (String.length stdout)).

Definition _is_module_available (module_name : string) : M bool :=
  r <- run_command ("modprobe -n -v " ++ module_name) ;;
  let '(stdout, stderr, _) := r in
  ret (negb (Py.contains "not found" stdout || Py.contains "not found" stderr)).

Definition _is_module_disabled (module_name : string) : M bool :=
  r <- run_command ("modprobe -n -v " ++ module_name) ;;
  let '(stdout, _, _) := r in
  ret (Py.contains "install /bin/true" stdout
       || Py.contains "install /bin/false" stdout).

Definition _create_remediation_file (module_name : string) : string :=
  "# Disable " ++ module_name ++ " module" ++ Py.nl
  ++ "install " ++ module_name ++ " /bin/true".

Definition remediation_file (module_name : string) : string :=
  "/etc/modprobe.d/" ++ module_name ++ ".conf".

(** [not _is_module_disabled(m) and _is_module_available(m)], with
    Python's short circuit. *)
Definition can_be_loaded (module_name : string) : M bool :=
  dis <- _is_module_disabled module_name ;;
  if dis then ret false else _is_module_available module_name.

(** The body of [check_cramfs] .. [check_udf]: [(passed, remediation)]. *)
Definition check_module (module_name : string) : M (bool * string) :=
  print (Py.nl ++ "[*] Checking if " ++ module_name ++ " kernel module is disabled...") ;;;
  loaded <- _is_module_loaded module_name ;;
  if loaded then
    let remediation := "rmmod " ++ module_name in
    print ("[-] FAIL: " ++ module_name ++ " module is currently loaded") ;;;
    print ("    Remediation: " ++ remediation) ;;;
    ret (false, remediation)
  else
    print ("[+] PASS: " ++ module_name ++ " module is not loaded") ;;;
    cbl <- can_be_loaded module_name ;;
    if cbl then
      let rf := remediation_file module_name in
      let rc := _create_remediation_file module_name in
      print ("[-] FAIL: " ++ module_name ++ " module can be loaded") ;;;
      print ("    Remediation: Create " ++ rf ++ " with:") ;;;
      print ("    " ++ rc) ;;;
      ret (false, "echo '" ++ rc ++ "' > " ++ rf)
    else
      print ("[+] PASS: " ++ module_name ++ " module is disabled or not available") ;;;
      ret (true, "").

(** The body of [remediate_cramfs] .. [remediate_udf]. *)
Definition remediate_module (module_name : string) : M bool :=
  print (Py.nl ++ "[*] Remediating " ++ module_name ++ " kernel module...") ;;;
  loaded <- _is_module_loaded module_name ;;
  let write_step : M bool :=
    let rf := remediation_file module_name in
    res <- write_file rf (_create_remediation_file module_name) ;;
    match res with
    | None =>
        print ("[+] Successfully created " ++ rf ++ " to disable " ++ module_name) ;;;
        ret true
    | Some e =>
        print ("[-] Failed to create " ++ rf ++ ": " ++ e) ;;;
        ret false
    end in
  if loaded then
    r <- run_command ("rmmod " ++ module_name) ;;
    let '(_, stderr, rc) := r in
    if (rc =? 0)%Z then
      print ("[+] Successfully unloaded " ++ module_name ++ " module") ;;;
      write_step
    else
      print ("[-] Failed to unload " ++ module_name ++ " module: " ++ stderr) ;;;
      ret false
  else write_step.

Definition remediate_cramfs := remediate_module "cramfs".
Definition remediate_freevxfs := remediate_module "freevxfs".
Definition remediate_jffs2 := remediate_module "jffs2".
Definition remediate_hfs := remediate_module "hfs".
Definition remediate_hfsplus := remediate_module "hfsplus".
Definition remediate_squashfs := remediate_module "squashfs".
Definition remediate_udf := remediate_module "udf".

Definition fat_modules : list string := ["fat"; "vfat"; "msdos"].

(** One iteration of the loop of [check_fat]:
    [(all_pass, remediation_commands)] threaded through. *)
Definition check_fat_step (acc : bool * list string) (module_name : string)
  : M (bool * list string) :=
  print (Py.nl ++ "[*] Checking if " ++ module_name ++ " kernel module is disabled...") ;;;
  loaded <- _is_module_loaded module_name ;;
  acc1 <- (if loaded then
             let remediation := "rmmod " ++ module_name in
             print ("[-] FAIL: " ++ module_name ++ " module is currently loaded") ;;;
             print ("    Remediation: " ++ remediation) ;;;
             ret (false, app (snd acc) [remediation])
           else
             print ("[+] PASS: " ++ module_name ++ " module is not loaded") ;;;
             ret acc) ;;
  cbl <- can_be_loaded module_name ;;
  if cbl then
    let rf := remediation_file module_name in
    let rc := _create_remediation_file module_name in
    print ("[-] FAIL: " ++ module_name ++ " module can be loaded") ;;;
    print ("    Remediation: Create " ++ rf ++ " with:") ;;;
    print ("    " ++ rc) ;;;
    ret (false, app (snd acc1) ["echo '" ++ rc ++ "' > " ++ rf])
  else
    print ("[+] PASS: " ++ module_name ++ " module is disabled or not available") ;;;
    ret acc1.

Definition check_fat : M (bool * string) :=
  r <- foldM check_fat_step (true, []) fat_modules ;;
  ret (fst r, String.concat Py.nl (snd r)).

(** One iteration of the loop of [remediate_fat]; a failed [rmmod] does not
    stop the iteration. *)
Definition remediate_fat_step (all_pass : bool) (module_name : string) : M bool :=
  print (Py.nl ++ "[*] Remediating " ++ module_name ++ " kernel module...") ;;;
  loaded <- _is_module_loaded module_name ;;
  all_pass1 <- (if loaded then
                  r <- run_command ("rmmod " ++ module_name) ;;
                  let '(_, stderr, rc) := r in
                  if (rc =? 0)%Z then
                    print ("[+] Successfully unloaded " ++ module_name ++ " module") ;;;
                    ret all_pass
                  else
                    print ("[-] Failed to unload " ++ module_name ++ " module: " ++ stderr) ;;;
                    ret false
                else ret all_pass) ;;
  let rf := remediation_file module_name in
  res <- write_file rf (_create_remediation_file module_name) ;;
  match res with
  | None =>
      print ("[+] Successfully created " ++ rf ++ " to disable " ++ module_name) ;;;
      ret all_pass1
  | Some e =>
      print ("[-] Failed to create " ++ rf ++ ": " ++ e) ;;;
      ret false
  end.

Definition remediate_fat : M bool := foldM remediate_fat_step true fat_modules.

Definition audit_functions : list (string * string * M (bool * string)) := [
  ("1.1.1.1", "Ensure cramfs kernel module is not available", check_module "cramfs");
  ("1.1.1.2", "Ensure freevxfs kernel module is not available", check_module "freevxfs");
  ("1.1.1.3", "Ensure jffs2 kernel module is not available", check_module "jffs2");
  ("1.1.1.4", "Ensure hfs kernel module is not available", check_module "hfs");
  ("1.1.1.5", "Ensure hfsplus kernel module is not available", check_module "hfsplus");
  ("1.1.1.6", "Ensure squashfs kernel module is not available", check_module "squashfs");
  ("1.1.1.7", "Ensure udf kernel module is not available", check_module "udf");
  ("1.1.1.8", "Ensure FAT kernel module is not available", check_fat)
].

Definition run_all_audits : M bool :=
  print (Py.nl ++ "===== CIS Ubuntu 22.04 LTS Benchmark - Section 1.1.1 Filesystem Kernel Modules Audit =====") ;;;
  results <- mapM (fun '(section, description, check_func) =>
                     print (Py.nl ++ "==== " ++ section ++ " " ++ description ++ " ====") ;;;
                     r <- check_func ;;
                     ret (section, description, fst r))
                  audit_functions ;;
  print (Py.nl ++ Py.nl ++ "===== SUMMARY =====") ;;;
  let passed_count := List.length (filter (fun r => snd r) results) in
  let total_count := List.length results in
  print (Py.nl ++ "Passed: " ++ NilEmpty.string_of_uint (Nat.to_uint passed_count)
         ++ "/" ++ NilEmpty.string_of_uint (Nat.to_uint total_count) ++ " checks") ;;;
  (if Nat.eqb passed_count total_count then print (Py.nl ++ "[+] All checks passed!")
   else
     print (Py.nl ++ "[-] Failed checks:") ;;;
     mapM (fun (r : string * string * bool) =>
             let '(section, description, passed) := r in
             if passed then ret tt
             else print ("    - " ++ section ++ " " ++ description)) results ;;;
     print (Py.nl ++ "Run with remediation functions to fix the issues.")) ;;;
  ret (Nat.eqb passed_count total_count).

Definition remediation_functions : list (string * string * M bool) := [
  ("1.1.1.1", "Ensure cramfs kernel module is not available", remediate_cramfs);
  ("1.1.1.2", "Ensure freevxfs kernel module is not available", remediate_freevxfs);
  ("1.1.1.3", "Ensure jffs2 kernel module is not available", remediate_jffs2);
  ("1.1.1.4", "Ensure hfs kernel module is not available", remediate_hfs);
  ("1.1.1.5", "Ensure hfsplus kernel module is not available", remediate_hfsplus);
  ("1.1.1.6", "Ensure squashfs kernel module is not available", remediate_squashfs);
  ("1.1.1.7", "Ensure udf kernel module is not available", remediate_udf);
  ("1.1.1.8", "Ensure FAT kernel module is not available", remediate_fat)
].

(** The header of each remediation step. *)
Definition step_header (section description : string) : string :=
  Py.nl ++ "==== " ++ section ++ " " ++ description ++ " ====".

(** The [for ... in remediation_functions] loop: each result is dropped. *)
Definition remediation_loop : M unit :=
  mapM (fun '(section, description, remediate_func) =>
          print (step_header section description) ;;;
          remediate_func) remediation_functions ;;;
  ret tt.

Definition run_all_remediations : M bool :=
  print (Py.nl ++ "===== CIS Ubuntu 22.04 LTS Benchmark - Section 1.1.1 Filesystem Kernel Modules Remediation =====") ;;;
  remediation_loop ;;;
  print (Py.nl ++ Py.nl ++ "===== Verifying Remediation =====") ;;;
  run_all_audits.

End FsKernelModules.

(* ------------------------------------------------------------------ *)
(** ** [cis_audit.py]: the whole of [run_audits], [run_remediations] and
    [main], with the [modules/] packages they call *)

Module CisAudit.
Import Controller.

(** One entry of [USER_FRIENDLY_EXPLANATIONS]. *)
Record section_info := mk_info {
  si_title : string;
  si_overview : string;
  si_importance : string;
  si_pass_meaning : string;
  si_fail_meaning : string;
  si_remediation_explanation : string;
  si_modules : list (string * string)
}.

Definition USER_FRIENDLY_EXPLANATIONS : list (string * section_info) := [
  ("1.1.1", mk_info
     "Filesystem Kernel Modules"
     "These checks ensure that unnecessary and potentially vulnerable filesystem modules are disabled."
     "Disabling unnecessary kernel modules reduces the attack surface of the system and minimizes potential security vulnerabilities."
     "The module is either not available or properly disabled, which is good for security."
     "The module can be loaded, which poses a potential security risk."
     "The system will create configuration files that prevent these modules from being loaded."
     [("cramfs", "An old, compressed read-only filesystem that is rarely needed in modern systems.");
       ("freevxfs", "The Veritas filesystem driver, which is not commonly used and may contain vulnerabilities.");
       ("jffs2", "A filesystem designed for flash devices, not typically needed on server systems.");
       ("hfs", "Apple's legacy Hierarchical File System, rarely needed on Linux servers.");
       ("hfsplus", "Apple's HFS+ filesystem, rarely needed on Linux servers.");
       ("squashfs", "A compressed read-only filesystem, often used in live CDs but not typically needed on servers.");
       ("udf", "Universal Disk Format, used for DVDs and optical media, rarely needed on servers.");
       ("fat", "The FAT filesystem (including VFAT), primarily used for compatibility with Windows.")]);
  ("1.1.2", mk_info
     "Filesystem Partition Configuration"
     "These checks ensure that critical filesystem partitions are properly configured with appropriate mount options."
     "Properly configured partitions with appropriate mount options help prevent privilege escalation and protect against various security threats."
     "The partition is properly configured with the required mount options."
     "The partition is either not properly configured or missing required security options."
     "Filesystem partition remediations require manual intervention. The system will provide instructions for manually configuring the partitions with appropriate mount options in /etc/fstab."
     [("/tmp partition", "A separate partition for temporary files that prevents filling up the root filesystem and provides security controls.");
       ("/tmp nodev", "Prevents device files from being created in /tmp, which could be used for privilege escalation.");
       ("/tmp nosuid", "Prevents setuid programs in /tmp from changing the effective user ID, reducing privilege escalation risks.");
       ("/tmp noexec", "Prevents execution of binaries in /tmp, which is a common location for malware to store executable files.");
       ("/dev/shm partition", "A temporary filesystem in memory that needs proper security controls.");
       ("/dev/shm nodev", "Prevents device files from being created in shared memory, which could be used for privilege escalation.");
       ("/dev/shm nosuid", "Prevents setuid programs in shared memory from changing the effective user ID.");
       ("/dev/shm noexec", "Prevents execution of binaries in shared memory, reducing the risk of memory-based attacks.")]);
  ("1.2.1", mk_info
     "Package Repositories"
     "These checks ensure that package repositories are properly configured and secured."
     "Properly configured package repositories ensure that software is obtained from trusted sources and that package integrity is verified."
     "The package repositories are properly configured and secured."
     "The package repositories are not properly configured or secured, which could lead to compromised software."
     "The system will provide instructions for properly configuring package repositories and GPG keys."
     [("GPG keys", "Cryptographic keys used to verify the authenticity of packages.");
       ("package repositories", "Sources from which software packages are downloaded and installed.")]);
  ("1.2.2", mk_info
     "Package Updates"
     "These checks ensure that the system is configured to receive security updates."
     "Regular security updates are critical for maintaining system security and addressing known vulnerabilities."
     "The system is properly configured to receive security updates."
     "The system is not properly configured to receive security updates, which could leave it vulnerable."
     "The system will provide instructions for configuring automatic security updates."
     [("updates", "Configuration for receiving and applying security updates.")]);
  ("1.3.1", mk_info
     "AppArmor Configuration"
     "These checks ensure that AppArmor is properly installed, enabled, and configured."
     "AppArmor provides Mandatory Access Control (MAC) which restricts programs to a limited set of resources, reducing the potential damage from compromised software."
     "AppArmor is properly installed, enabled, and configured."
     "AppArmor is not properly installed, enabled, or configured, which could leave the system vulnerable."
     "The system will provide instructions for installing, enabling, and configuring AppArmor."
     [("AppArmor", "A Linux Security Module that provides Mandatory Access Control.");
       ("AppArmor profiles", "Configuration files that define the resources a program can access.")]);
  ("1.4", mk_info
     "Bootloader Configuration"
     "These checks ensure that the bootloader is properly secured."
     "A properly secured bootloader prevents unauthorized users from modifying boot parameters or booting into single user mode."
     "The bootloader is properly secured."
     "The bootloader is not properly secured, which could allow unauthorized access."
     "The system will provide instructions for securing the bootloader."
     [("bootloader password", "A password that restricts access to the bootloader.");
       ("bootloader permissions", "File permissions that prevent unauthorized modification of bootloader configuration.")]);
  ("1.5", mk_info
     "Process Hardening"
     "These checks ensure that additional process hardening measures are in place."
     "Process hardening measures help prevent exploitation of vulnerabilities in running processes."
     "The process hardening measure is properly configured."
     "The process hardening measure is not properly configured, which could leave processes vulnerable."
     "The system will provide instructions for configuring process hardening measures."
     [("address space layout randomization", "A security technique that randomizes memory addresses to make exploitation more difficult.");
       ("ptrace scope", "Controls which processes can use ptrace to examine the memory and registers of other processes.");
       ("core dumps", "Memory snapshots created when a program crashes, which could contain sensitive information.");
       ("prelink", "A program that modifies ELF binaries to speed up loading, but can interfere with security measures.");
       ("automatic error reporting", "A feature that sends crash reports, which could contain sensitive information.")]);
  ("1.6", mk_info
     "Command Line Warning Banners"
     "These checks ensure that appropriate warning banners are displayed to users."
     "Warning banners inform users about authorized use of the system and may have legal implications."
     "The warning banner is properly configured."
     "The warning banner is not properly configured, which could have legal implications."
     "The system will provide instructions for configuring warning banners."
     [("message of the day", "A message displayed to users when they log in.");
       ("local login warning", "A warning displayed to users logging in locally.");
       ("remote login warning", "A warning displayed to users logging in remotely.");
       ("su command access", "Controls which users can use the su command to become root.")])
].

(** [USER_FRIENDLY_EXPLANATIONS.get(section_id, {})]: [None] is the empty
    dict. *)
Definition explanation_of (section_id : string) : option section_info :=
  option_map snd (find (fun e => String.eqb (fst e) section_id) USER_FRIENDLY_EXPLANATIONS).

(** [d.get(k, "")] on a dict of strings. *)
Definition get_str (k : string) (d : list (string * string)) : string :=
  match find (fun e => String.eqb (fst e) k) d with
  | Some (_, v) => v
  | None => ""
  end.

Definition print_section_header (title description : string) : M unit :=
  print (Py.nl ++ repeat_str "=" 80) ;;;
  print (Colors.BLUE ++ "CIS Benchmark Section: " ++ title ++ Colors.RESET) ;;;
  print (Colors.BLUE ++ "Description: " ++ description ++ Colors.RESET) ;;;
  print (repeat_str "=" 80).

Definition print_user_friendly_header (section_id title : string) : M unit :=
  print (Py.nl ++ repeat_str "=" 80) ;;;
  print ("Security Check: " ++ title) ;;;
  print (repeat_str "=" 80) ;;;
  match explanation_of section_id with
  | None => ret tt
  | Some section_info =>
      print (Py.nl ++ "What this means: " ++ si_overview section_info) ;;;
      print (Py.nl ++ "Why it's important: " ++ si_importance section_info) ;;;
      print (Py.nl ++ "What the results mean:") ;;;
      print ("  " ++ Colors.GREEN ++ "✅ PASS:" ++ Colors.RESET ++ " "
             ++ si_pass_meaning section_info) ;;;
      print ("  " ++ Colors.RED ++ "❌ FAIL:" ++ Colors.RESET ++ " "
             ++ si_fail_meaning section_info) ;;;
      print (Py.nl ++ repeat_str "-" 80)
  end.

Definition explain_module_result (module_name : string) (result : bool)
  (section_id : string) : M unit :=
  let module_info :=
    match explanation_of section_id with
    | Some section_info => get_str module_name (si_modules section_info)
    | None => ""
    end in
  let status := if result then Colors.GREEN ++ "✅ SECURE" ++ Colors.RESET
                else Colors.RED ++ "❌ VULNERABLE" ++ Colors.RESET in
  print (Py.nl ++ status ++ ": " ++ module_name ++ " module") ;;;
  (if String.eqb module_info "" then ret tt else print ("What is it: " ++ module_info)) ;;;
  if result then
    print (Colors.GREEN ++ "Status: This module is properly secured on your system."
           ++ Colors.RESET)
  else
    print (Colors.RED ++ "Status: This module is not properly secured and poses a potential risk."
           ++ Colors.RESET) ;;;
    print "Recommendation: Run the remediation to secure this module.".

(** The [if/elif] chain on [submodule["title"].startswith(...)]. *)
Definition section_id_of (title : string) : option string :=
  if String.prefix "1.1.1" title then Some "1.1.1"
  else if String.prefix "1.1.2" title then Some "1.1.2"
  else if String.prefix "1.2.1" title then Some "1.2.1"
  else if String.prefix "1.2.2" title then Some "1.2.2"
  else if String.prefix "1.3.1" title then Some "1.3.1"
  else if String.prefix "1.4" title then Some "1.4"
  else if String.prefix "1.5" title then Some "1.5"
  else if String.prefix "1.6" title then Some "1.6"
  else None.

(** [sys.stdout = io.StringIO()] around a call: what the call prints is
    swallowed; its commands and file writes still happen. *)
Definition is_print (e : event) : bool :=
  match e with EPrint _ => true | _ => false end.

Definition capture {A} (m : M A) : M A :=
  fun w tr => let '(tr', r) := m w tr in
              (app tr (filter (fun e => negb (is_print e)) (skipn (List.length tr) tr')), r).

(** [next((r[1] for r in results if key in r[0]), False)] *)
Definition next_result (key : string) (results : list (string * bool)) : bool :=
  match find (fun r => Py.contains key (fst r)) results with
  | Some r => snd r
  | None => false
  end.

Definition module_results_111 (results : list (string * bool)) : list (string * bool) := [
  ("cramfs", next_result "1.1.1.1" results);
  ("freevxfs", next_result "1.1.1.2" results);
  ("jffs2", next_result "1.1.1.3" results);
  ("hfs", next_result "1.1.1.4" results);
  ("hfsplus", next_result "1.1.1.5" results);
  ("squashfs", next_result "1.1.1.6" results);
  ("udf", next_result "1.1.1.7" results);
  ("fat", next_result "1.1.1.8" results)].

Definition module_results_112 (results : list (string * bool)) : list (string * bool) := [
  ("/tmp partition", next_result "1.1.2.1" results);
  ("/tmp nodev", next_result "1.1.2.2" results);
  ("/tmp nosuid", next_result "1.1.2.3" results);
  ("/tmp noexec", next_result "1.1.2.4" results);
  ("/dev/shm partition", next_result "1.1.2.5" results);
  ("/dev/shm nodev", next_result "1.1.2.6" results);
  ("/dev/shm nosuid", next_result "1.1.2.7" results);
  ("/dev/shm noexec", next_result "1.1.2.8" results)].

(** Python truthiness of what [run_all_audits(...)] returns. *)
Definition truthy (r : list (string * bool) + bool) : bool :=
  match r with inl l => negb (match l with [] => true | _ => false end) | inr b => b end.

Definition run_all_remediations_of (m : pymodule) : M bool :=
  match m with
  | fs_modules => FsModules.run_all_remediations
  | partitions => Partitions.run_all_remediations
  | repositories => Repositories.run_all_remediations
  | updates => Updates.run_all_remediations
  | apparmor => Apparmor.run_all_remediations
  | configuration => BootloaderConfiguration.run_all_remediations
  | process_restrictions => ProcessRestrictions.run_all_remediations
  | warning_banners => WarningBanners.run_all_remediations
  end.

(** The submodules the loops of [run_audits] and [run_remediations] visit,
    in order. *)
Definition submodules_of (filtered_modules : list module_group) : list submodule :=
  flat_map group_submodules filtered_modules.

Definition print_lines (ls : list string) : M unit :=
  mapM print ls ;;; ret tt.

(** The audits of the six packages other than [fs_modules] and
    [partitions]: [other_audits m return_results] is
    [m.run_all_audits(return_results)]. *)
Section Audits.
Variable other_audits : pymodule -> bool -> M (list (string * bool) + bool).

Definition run_all_audits_of (m : pymodule) (return_results : bool)
  : M (list (string * bool) + bool) :=
  match m with
  | fs_modules => FsModules.run_all_audits return_results
  | partitions => Partitions.run_all_audits return_results
  | _ => other_audits m return_results
  end.

(** The local variables the loop of [run_audits] carries from one
    submodule to the next: [all_passed] and [module_results], which is
    unbound ([None]) until a 1.1.1 or 1.1.2 section assigns it. *)
Definition audit_state : Type := bool * option (list (string * bool)).

(** [print_section_header], [run_all_audits()], [all_passed = False] on a
    falsy result. *)
Definition technical_step (all_passed : bool) (module_results : option (list (string * bool)))
  (pm : pymodule) (sm : submodule) : M audit_state :=
  print_section_header (sub_title sm) (sub_description sm) ;;;
  result <- run_all_audits_of pm false ;;
  ret (all_passed && truthy result, module_results).

(** The body of the inner loop of [run_audits] on one submodule. *)
Definition audit_step (target_module : string) (user_friendly : bool)
  (st : audit_state) (sm : submodule) : M audit_state :=
  let '(all_passed, module_results) := st in
  match sub_module sm with
  | None => ret st
  | Some pm =>
      if user_friendly then
        match section_id_of (sub_title sm) with
        | None => technical_step all_passed module_results pm sm
        | Some section_id =>
            print_user_friendly_header section_id (sub_title sm) ;;;
            results <- capture (run_all_audits_of pm true) ;;
            module_results' <-
              (if String.eqb section_id "1.1.1" then
                 match results with
                 | inl l => ret (Some (module_results_111 l))
                 | inr _ => raise  (* TypeError: a bool is not iterable *)
                 end
               else if String.eqb section_id "1.1.2" then
                 match results with
                 | inl l => ret (Some (module_results_112 l))
                 | inr _ => raise
                 end
               else ret module_results) ;;
            match module_results' with
            | None => raise  (* UnboundLocalError: module_results *)
            | Some d =>
                mapM (fun '(module_name, result) =>
                        explain_module_result module_name result section_id) d ;;;
                let passed := forallb snd d in
                print (Py.nl ++ repeat_str "-" 80) ;;;
                (if passed then
                   print (Py.nl ++ Colors.GREEN ++ "✅ Overall Result: SECURE" ++ Colors.RESET) ;;;
                   print (Colors.GREEN ++ "All checks passed. Your system is properly configured."
                          ++ Colors.RESET)
                 else
                   print (Py.nl ++ Colors.YELLOW ++ "⚠️ Overall Result: VULNERABLE" ++ Colors.RESET) ;;;
                   print (Colors.RED ++ "Some checks failed. Your system may be at risk."
                          ++ Colors.RESET) ;;;
                   print "Recommendation: Run the remediation to address these issues." ;;;
                   print ("Command: python3 cis_audit.py remediate " ++ target_module)) ;;;
                ret (all_passed && passed, Some d)
            end
        end
      else technical_step all_passed module_results pm sm
  end.

Definition run_audits (target_module : string) (user_friendly : bool) : M bool :=
  print (start_line target_module) ;;;
  match filter_modules target_module with
  | [] => print_lines (not_found_lines target_module) ;;; ret false
  | filtered_modules =>
      st <- foldM (audit_step target_module user_friendly) (true, None)
                  (submodules_of filtered_modules) ;;
      print (Py.nl ++ repeat_str "=" 80) ;;;
      print (if fst st then summary_pass else summary_fail) ;;;
      ret (fst st)
  end.

Definition remediation_start_line (target_module : string) : string :=
  Py.nl ++ "🔧 Starting CIS Ubuntu 22.04 LTS Benchmark Remediation for "
  ++ target_module ++ "..." ++ Py.nl.

(** The body of the inner loop of [run_remediations] on one submodule;
    the value of [run_all_remediations()] is dropped. *)
Definition remediation_step (target_module : string) (user_friendly : bool)
  (sm : submodule) : M unit :=
  match sub_module sm with
  | None => ret tt
  | Some pm =>
      let technical :=
        print_section_header (sub_title sm) (sub_description sm) ;;;
        run_all_remediations_of pm ;;; ret tt in
      if user_friendly then
        match section_id_of (sub_title sm) with
        | None => technical
        | Some section_id =>
            print_user_friendly_header section_id (sub_title sm) ;;;
            print (Py.nl ++ "Applying security fixes...") ;;;
            (match explanation_of section_id with
             | Some section_info =>
                 print ("What this will do: " ++ si_remediation_explanation section_info)
             | None => ret tt
             end) ;;;
            run_all_remediations_of pm ;;;
            print (Py.nl ++ Colors.GREEN ++ "✅ Remediation completed!" ++ Colors.RESET) ;;;
            (if String.eqb section_id "1.1.1" then
               print (Colors.GREEN
                      ++ "The system has been secured against the identified vulnerabilities."
                      ++ Colors.RESET)
             else if String.eqb section_id "1.1.2" then
               print (Colors.YELLOW
                      ++ "Note: Filesystem partition remediations require manual intervention."
                      ++ Colors.RESET) ;;;
               print (Colors.YELLOW ++ "Please review the recommendations and apply them manually."
                      ++ Colors.RESET) ;;;
               print (Colors.YELLOW ++ "No automatic remediation is performed for these checks."
                      ++ Colors.RESET)
             else ret tt) ;;;
            print (Py.nl ++ "To verify that all issues have been fixed, run:") ;;;
            print ("python3 cis_audit.py audit " ++ target_module)
        end
      else technical
  end.

Definition run_remediations (target_module : string) (user_friendly : bool) : M bool :=
  print (remediation_start_line target_module) ;;;
  match filter_modules target_module with
  | [] => print_lines (not_found_lines target_module) ;;; ret false
  | filtered_modules =>
      mapM (remediation_step target_module user_friendly) (submodules_of filtered_modules) ;;;
      print (Py.nl ++ repeat_str "=" 80) ;;;
      print (Py.nl ++ Colors.GREEN ++ "✅ Remediation completed. Run audit again to verify compliance."
             ++ Colors.RESET) ;;;
      ret true
  end.

Definition list_available_modules : M unit :=
  print (Py.nl ++ "Available Modules:" ++ Py.nl) ;;;
  print "Module Groups:" ;;;
  mapM (fun g =>
          print ("  - " ++ group_name g) ;;;
          print ("    Description: Group of modules for " ++ group_name g ++ " security checks") ;;;
          print "    Submodules:" ;;;
          mapM (fun sm =>
                  print ("      - " ++ sub_name sm) ;;;
                  print ("        Title: " ++ sub_title sm) ;;;
                  print ("        Description: " ++ sub_description sm))
               (group_submodules g) ;;;
          print "") MODULES ;;;
  ret tt.

(** The arguments [argparse] hands to [main]: [action] is [None] when
    [--help-modules] is given instead; [modules] is [[]] when [--modules]
    is absent ([nargs="+"] never gives an empty list). *)
Record args := mk_args {
  action : option string;
  help_modules : bool;
  module : string;
  technical : bool;
  modules : list string
}.

Definition action_is (a : args) (s : string) : bool :=
  match action a with Some x => String.eqb x s | None => false end.

(** [main()] after [parser.parse_args()]: its return value, [None] for
    Python's [None]. *)
Definition main (a : args) : M (option bool) :=
  if help_modules a then list_available_modules ;;; ret None
  else
    let user_friendly := negb (technical a) in
    match modules a with
    | _ :: _ =>
        all_passed <-
          foldM (fun all_passed module =>
                   if action_is a "audit" then
                     result <- run_audits module user_friendly ;;
                     ret (all_passed && result)
                   else if action_is a "remediate" then
                     run_remediations module user_friendly ;;; ret all_passed
                   else ret all_passed) true (modules a) ;;
        ret (Some all_passed)
    | [] =>
        if action_is a "audit" then
          r <- run_audits (module a) user_friendly ;; ret (Some r)
        else if action_is a "remediate" then
          r <- run_remediations (module a) user_friendly ;; ret (Some r)
        else ret None
    end.

End Audits.

End CisAudit.

(* ------------------------------------------------------------------ *)
(** ** The [main()] of [partitions.py], [fs_modules.py] and
    [fs_kernel_modules.py]: [argv] is [sys.argv], the value is the exit
    status ([sys.exit(n)], or 0 when [main()] returns). *)

Module ScriptMains.
Import CisAudit.

Section Mains.
(** [str.lower]. *)
Variable lower : string -> string.

Definition partitions_main (argv : list string) : M Z :=
  match argv with
  | _ :: arg :: _ =>
      let mode := lower arg in
      if String.eqb mode "audit" then
        success <- Partitions.run_all_audits false ;;
        ret (if truthy success then 0 else 1)%Z
      else if String.eqb mode "remediate" then
        success <- Partitions.run_all_remediations ;;
        ret (if success then 0 else 1)%Z
      else
        print ("Error: Invalid mode '" ++ mode ++ "'.") ;;;
        print "Usage: python3 partitions.py [audit|remediate]" ;;;
        ret 1%Z
  | _ =>
      print "Error: Missing required argument." ;;;
      print "Usage: python3 partitions.py [audit|remediate]" ;;;
      ret 1%Z
  end.

Definition fs_modules_main (argv : list string) : M Z :=
  match argv with
  | _ :: arg :: _ =>
      let mode := lower arg in
      if String.eqb mode "audit" then
        success <- FsModules.run_all_audits false ;;
        ret (if truthy success then 0 else 1)%Z
      else if String.eqb mode "remediate" then
        success <- FsModules.run_all_remediations ;;
        ret (if success then 0 else 1)%Z
      else
        print ("Error: Invalid mode '" ++ mode ++ "'.") ;;;
        print "Usage: python3 fs_kernel_modules.py [audit|remediate]" ;;;
        ret 1%Z
  | _ =>
      print "Error: Missing required argument." ;;;
      print "Usage: python3 fs_kernel_modules.py [audit|remediate]" ;;;
      ret 1%Z
  end.

Definition fs_kernel_modules_main (argv : list string) : M Z :=
  match argv with
  | _ :: arg :: _ =>
      let action := lower arg in
      if String.eqb action "audit" then FsKernelModules.run_all_audits ;;; ret 0%Z
      else if String.eqb action "remediate" then
        FsKernelModules.run_all_remediations ;;; ret 0%Z
      else
        print "Invalid action. Use 'audit' or 'remediate'." ;;;
        ret 1%Z
  | _ =>
      print "Usage: python fs_kernel_modules.py [audit|remediate]" ;;;
      ret 1%Z
  end.

End Mains.
End ScriptMains.

(* ================================================================== *)
(** * Predicates used in the statements *)

(** [f] holds of every character of [s]. *)
Fixpoint all_chars (f : ascii -> bool) (s : string) : bool :=
  match s with
  | EmptyString => true
  | String c s' => f c && all_chars f s'
  end.

(** The first character is not whitespace. *)
Definition starts_nonspace (s : string) : bool :=
  match s with EmptyString => true | String c _ => negb (Py.is_space c) end.

(** The last character is not whitespace. *)
Fixpoint ends_nonspace (s : string) : bool :=
  match s with
  | EmptyString => true
  | String c EmptyString => negb (Py.is_space c)
  | String _ s' => ends_nonspace s'
  end.

(** [m] returns without raising, appending to the trace only events that
    satisfy [P], and its value satisfies [Q]. *)
Definition runs {A} (P : event -> Prop) (Q : A -> Prop) (m : M A) : Prop :=
  forall w tr, exists suf a, m w tr = (app tr suf, Some a) /\ Forall P suf /\ Q a.

(** What the three probes of a module report on a snapshot. *)
Definition loaded_in (p : snapshot) (m : string) : bool :=
  negb (String.eqb (Py.strip (grep m (lsmod_text p))) "").

Definition available_in (p : snapshot) (m : string) : bool :=
  let s := Py.strip (out (modprobe_n p m)) in
  negb (Py.contains "not found" s || Py.contains "No such file or directory" s).

Definition disabled_in (p : snapshot) (m : string) : bool :=
  let s := Py.strip (out (modprobe_n p m)) in
  Py.contains "install /bin/true" s || Py.contains "install /bin/false" s.

(** The descriptions carried by the eight results of
    [modules/kernel/fs_modules.py], whatever the probes say. *)
Definition fs_modules_descriptions : list string := [
  "1.1.1.1 Ensure cramfs kernel module is not available";
  "1.1.1.2 Ensure freevxfs kernel module is not available";
  "1.1.1.3 Ensure jffs2 kernel module is not available";
  "1.1.1.4 Ensure hfs kernel module is not available";
  "1.1.1.5 Ensure hfsplus kernel module is not available";
  "1.1.1.6 Ensure squashfs kernel module is not available";
  "1.1.1.7 Ensure udf kernel module is not available";
  "1.1.1.8 Ensure FAT kernel module is not available"].

(** The benchmark identifier a check name starts with: its first word,
    e.g. [1.1.2.2] for ["1.1.2.2 Ensure nodev option set on /tmp partition"]. *)
Definition check_identifier (name : string) : string := hd "" (Py.split name).

(** No string occurs twice in [l]. *)
Fixpoint nodupb (l : list string) : bool :=
  match l with
  | [] => true
  | x :: rest => negb (Py.list_in x rest) && nodupb rest
  end.

(** [m] returns, and each line of [l] is printed on the way. *)
Definition prints_all {A} (l : list string) (m : M A) : Prop :=
  forall w tr, exists suf a, m w tr = (app tr suf, Some a) /\
                             forall s, In s l -> In (EPrint s) suf.

(** The line a remediation of [fs_kernel_modules.py] starts with. *)
Definition remediating_line (module_name : string) : string :=
  Py.nl ++ "[*] Remediating " ++ module_name ++ " kernel module...".

(** The modules each step of [remediation_functions] remediates. *)
Definition remediated_modules (section : string) : list string :=
  match find (fun p => String.eqb (fst p) section)
             [("1.1.1.1", ["cramfs"]); ("1.1.1.2", ["freevxfs"]); ("1.1.1.3", ["jffs2"]);
              ("1.1.1.4", ["hfs"]); ("1.1.1.5", ["hfsplus"]); ("1.1.1.6", ["squashfs"]);
              ("1.1.1.7", ["udf"]); ("1.1.1.8", FsKernelModules.fat_modules)] with
  | Some (_, ms) => ms
  | None => []
  end.

(** The modules [fs_kernel_modules.py] writes a modprobe file for. *)
Definition fs_kernel_module_names : list string :=
  ["cramfs"; "freevxfs"; "jffs2"; "hfs"; "hfsplus"; "squashfs"; "udf";
   "fat"; "vfat"; "msdos"].

(** A file write, if the event is one, is a modprobe file of one of those
    modules with its two lines. *)
Definition modprobe_conf_write (e : event) : Prop :=
  match e with
  | EWrite path content _ =>
      exists m, In m fs_kernel_module_names /\
                path = "/etc/modprobe.d/" ++ m ++ ".conf" /\
                content = "# Disable " ++ m ++ " module" ++ Py.nl ++ "install " ++ m ++ " /bin/true"
  | _ => True
  end.

(** The event is a print or one of the two read-only probes. *)
Definition probe_or_print (e : event) : Prop :=
  match e with
  | EPrint _ => True
  | ERun c _ => exists m, c = "lsmod | grep " ++ m \/ c = "modprobe -n -v " ++ m
  | EWrite _ _ _ => False
  end.

(** The event is a print. *)
Definition print_only (e : event) : Prop :=
  match e with EPrint _ => True | _ => False end.

(** What a computation returns, when it returns. *)
Definition post {A} (Q : A -> Prop) (m : M A) : Prop :=
  forall w tr tr' a, m w tr = (tr', Some a) -> Q a.

(** A computation that never returns: an exception always escapes it. *)
Definition fails {A} (m : M A) : Prop := forall w tr, snd (m w tr) = None.

(** A submodule of the sections 1.2.1 to 1.6 of [MODULES]: its package is
    neither of the two [run_audits] of [cis_audit.py] calls directly,
    and its title gives a section id other than 1.1.1 and 1.1.2. *)
Definition late (sm : Controller.submodule) : bool :=
  match Controller.sub_module sm, CisAudit.section_id_of (Controller.sub_title sm) with
  | Some pm, Some sid =>
      negb (String.eqb sid "1.1.1") && negb (String.eqb sid "1.1.2")
      && match pm with Controller.fs_modules | Controller.partitions => false | _ => true end
  | _, _ => false
  end.

(** A step of a remediation that went wrong: an [rmmod] that exited with
    a non-zero status, or a file write that raised. *)
Definition failed_step (e : event) : bool :=
  match e with
  | ERun c r =>
      match strip_prefix "rmmod " c with
      | Some _ => negb (rc r =? 0)%Z
      | None => false
      end
  | EWrite _ _ (Some _) => true
  | _ => false
  end.

(** The text line of one JSON entry [{"check": n, "status": s,
    "message": m, ...}]: ["[s] n: m"]. *)
Definition entry_line (e : json) : string :=
  match e with
  | JObject ((_, JString n) :: (_, JString s) :: (_, JString m) :: _) =>
      "[" ++ s ++ "] " ++ n ++ ": " ++ m
  | _ => ""
  end.

(** The module names listed by [lsmod]: the first field of every line
    after the header line. *)
Definition lsmod_modules (text : string) : list string :=
  flat_map (fun l => match Py.split l with name :: _ => [name] | [] => [] end)
           (tl (Py.split_on Py.newline text)).

(** Example probe outputs. *)
Module Examples.

Definition lsmod_header : string := "Module                  Size  Used by".

(** [hfsplus] is loaded, [hfs] is not. *)
Definition lsmod_hfsplus : string :=
  lsmod_header ++ Py.nl ++ "hfsplus               118784  0" ++ Py.nl
  ++ "ext4                  987136  1" ++ Py.nl.

(** No line mentions cramfs. *)
Definition lsmod_plain : string :=
  lsmod_header ++ Py.nl ++ "ext4                  987136  1" ++ Py.nl.

(** [modprobe -n -v m] on a module disabled by an [install] line. *)
Definition modprobe_disabled (m : string) : proc_result :=
  mk_proc 0 ("install /bin/true " ++ Py.nl) "".

Definition findmnt_missing (mp : string) : proc_result := mk_proc 1 "" "".

Definition cramfs_snapshot : snapshot :=
  mk_snapshot lsmod_plain modprobe_disabled findmnt_missing.

Definition hfs_snapshot : snapshot :=
  mk_snapshot lsmod_hfsplus modprobe_disabled findmnt_missing.

(** [/tmp] on its own device with [rw,nosuid,nodev,relatime]. *)
Definition tmp_snapshot : snapshot :=
  mk_snapshot lsmod_plain modprobe_disabled
    (fun mp => if String.eqb mp "/tmp"
               then mk_proc 0 "/tmp /dev/sdb1 ext4 rw,nosuid,nodev,relatime" ""
               else if String.eqb mp "/"
               then mk_proc 0 ("/      /dev/sda1 ext4   rw,relatime" ++ Py.nl) ""
               else findmnt_missing mp).

(** [findmnt] cannot read the mount table. *)
Definition fa_err : FsAudit.fa_snapshot :=
  FsAudit.mk_fa (mk_proc 0 lsmod_plain "") (fun _ _ => mk_proc 1 "" "")
    (fun _ => mk_proc 1 "" "findmnt: can't read /proc/mounts").

(** [lsmod] for the argv-based script. *)
Definition fa_hfs : FsAudit.fa_snapshot :=
  FsAudit.mk_fa (mk_proc 0 lsmod_hfsplus "") (fun _ _ => mk_proc 1 "" "")
    (fun _ => mk_proc 1 "" "").

(** A system where [rmmod] succeeds, the probes answer from
    [cramfs_snapshot], and every [open(path, 'w')] raises
    [PermissionError]. *)
Definition denied_world : world :=
  mk_world
    (fun _ command =>
       if String.eqb (String.substring 0 6 command) "rmmod "
       then mk_proc 0 "" ""
       else w_run (snapshot_world cramfs_snapshot) [] command)
    (fun _ path _ => Some ("[Errno 13] Permission denied: '" ++ path ++ "'")).

(** A hardened system: no filesystem module loaded, each one disabled by
    an [install] line, [/tmp] on its own device and [/dev/shm] mounted,
    both with [nodev,nosuid,noexec]. *)
Definition hardened_snapshot : snapshot :=
  mk_snapshot lsmod_plain modprobe_disabled
    (fun mp => if String.eqb mp "/tmp"
               then mk_proc 0 "/tmp /dev/sdb1 ext4 rw,nosuid,nodev,noexec,relatime" ""
               else if String.eqb mp "/dev/shm"
               then mk_proc 0 "/dev/shm tmpfs tmpfs rw,nosuid,nodev,noexec" ""
               else if String.eqb mp "/"
               then mk_proc 0 ("/      /dev/sda1 ext4   rw,relatime" ++ Py.nl) ""
               else findmnt_missing mp).

(** Audits of the six other packages in which every check fails:
    [run_all_audits(return_results=True)] gives one failed result and
    [run_all_audits()] gives [False]. *)
Definition failing_audits (m : Controller.pymodule) (return_results : bool)
  : M (list (string * bool) + bool) :=
  if return_results then ret (inl [("1.2.1.1 Ensure package manager repositories are configured", false)])
  else ret (inr false).

(** The same audits, all passing. *)
Definition passing_audits (m : Controller.pymodule) (return_results : bool)
  : M (list (string * bool) + bool) :=
  if return_results then ret (inl [("1.2.1.1 Ensure package manager repositories are configured", true)])
  else ret (inr true).

(** chronyd neither active nor enabled; systemd-timesyncd stopped
    ([systemctl is-active] prints "inactive" and exits 3) but enabled. *)
Definition stopped_timesyncd : ServicesAudit.sv_snapshot :=
  ServicesAudit.mk_sv
    (fun _ => inl (mk_proc 1 "" "dpkg-query: package is not installed"))
    (fun verb unit =>
       if String.eqb verb "is-active" then inl (mk_proc 3 ("inactive" ++ Py.nl) "")
       else if String.eqb unit "systemd-timesyncd" then inl (mk_proc 0 ("enabled" ++ Py.nl) "")
       else inl (mk_proc 1 ("disabled" ++ Py.nl) ""))
    (fun _ => false).

End Examples.

(* ================================================================== *)
(** * Properties *)

(* ------------------------------------------------------------------ *)
(** ** Strings: [in], [grep] and [strip] *)

Module StrFacts.

Lemma append_nil_r (s : string) : s ++ "" = s.
Proof. induction s as [|c s IH]; simpl; [reflexivity | now rewrite IH]. Qed.

Lemma append_assoc (a b c : string) : (a ++ b) ++ c = a ++ (b ++ c).
Proof. induction a as [|x a IH]; simpl; [reflexivity | now rewrite IH]. Qed.

Lemma prefix_cons (x y : ascii) (a b : string) :
  String.prefix (String x a) (String y b) = (Ascii.eqb x y && String.prefix a b).
Proof.
  simpl. destruct (ascii_dec x y) as [->|Hne].
  - now rewrite Ascii.eqb_refl.
  - apply Ascii.eqb_neq in Hne. now rewrite Hne.
Qed.

Lemma prefix_empty (n : string) : String.prefix n "" = String.eqb n "".
Proof. destruct n; reflexivity. Qed.

Lemma prefix_app (n u v : string) :
  String.prefix n u = true -> String.prefix n (u ++ v) = true.
Proof.
  revert u. induction n as [|x n IH]; intros u H; [destruct (u ++ v); reflexivity|].
  destruct u as [|y u]; [discriminate|].
  simpl (String y u ++ v). rewrite prefix_cons in *.
  apply andb_true_iff in H as [H1 H2]. now rewrite H1, (IH u H2).
Qed.

Lemma contains_empty_l (s : string) : Py.contains "" s = true.
Proof. destruct s; reflexivity. Qed.

Lemma contains_empty_r (n : string) : Py.contains n "" = String.eqb n "".
Proof. destruct n; reflexivity. Qed.

Lemma contains_cons (n : string) (c : ascii) (s : string) :
  Py.contains n (String c s) = String.prefix n (String c s) || Py.contains n s.
Proof. reflexivity. Qed.

Lemma contains_of_prefix (n s : string) :
  String.prefix n s = true -> Py.contains n s = true.
Proof.
  intros H. destruct s as [|c s].
  - change (Py.contains n "") with (String.prefix n "" || false). now rewrite H.
  - rewrite contains_cons, H. reflexivity.
Qed.

Lemma contains_app_l (n a b : string) :
  Py.contains n a = true -> Py.contains n (a ++ b) = true.
Proof.
  induction a as [|c a IH]; intros H.
  - rewrite contains_empty_r in H. apply String.eqb_eq in H as ->.
    apply contains_empty_l.
  - simpl (String c a ++ b). rewrite contains_cons in *.
    apply orb_true_iff in H as [H|H].
    + pose proof (prefix_app n (String c a) b H) as H'.
      change (String c a ++ b) with (String c (a ++ b)) in H'.
      now rewrite H'.
    + now rewrite (IH H), orb_true_r.
Qed.

Lemma contains_app_r (n a b : string) :
  Py.contains n b = true -> Py.contains n (a ++ b) = true.
Proof.
  induction a as [|c a IH]; intros H; [exact H|].
  simpl. now rewrite (IH H), orb_true_r.
Qed.

Lemma contains_nonempty (n s : string) :
  n <> "" -> Py.contains n s = true -> s <> "".
Proof.
  intros Hn H ->. rewrite contains_empty_r in H.
  apply String.eqb_eq in H. contradiction.
Qed.

(** A needle without the character [c] cannot overlap it. *)
Lemma prefix_app_sep (n u v : string) (c : ascii) :
  all_chars (fun x => negb (Ascii.eqb x c)) n = true ->
  String.prefix n (u ++ String c v) = true -> String.prefix n u = true.
Proof.
  revert u. induction n as [|x n IH]; intros u Hn H; [destruct u; reflexivity|].
  simpl in Hn. apply andb_true_iff in Hn as [Hx Hn].
  destruct u as [|y u].
  - change ("" ++ String c v) with (String c v) in H.
    rewrite prefix_cons in H. apply andb_true_iff in H as [H _].
    rewrite H in Hx. discriminate.
  - simpl (String y u ++ String c v) in H. rewrite prefix_cons in *.
    apply andb_true_iff in H as [H1 H2]. now rewrite H1, (IH u Hn H2).
Qed.

Lemma contains_app_sep (n a b : string) (c : ascii) :
  all_chars (fun x => negb (Ascii.eqb x c)) n = true ->
  Py.contains n (a ++ String c b) = Py.contains n a || Py.contains n b.
Proof.
  intros Hn. induction a as [|x a IH].
  - simpl (_ ++ _). rewrite contains_cons, contains_empty_r.
    destruct n as [|y n]; [reflexivity|].
    simpl in Hn. apply andb_true_iff in Hn as [Hy _].
    rewrite prefix_cons. destruct (Ascii.eqb y c) eqn:E; [discriminate|reflexivity].
  - simpl (String x a ++ _). rewrite !contains_cons, IH, orb_assoc. f_equal.
    destruct (String.prefix n (String x a)) eqn:E.
    + pose proof (prefix_app _ _ (String c b) E) as E'.
      change (String x a ++ String c b) with (String x (a ++ String c b)) in E'.
      now rewrite E'.
    + destruct (String.prefix n (String x (a ++ String c b))) eqn:E'; [|reflexivity].
      change (String x (a ++ String c b)) with (String x a ++ String c b) in E'.
      rewrite (prefix_app_sep n (String x a) b c Hn E') in E. discriminate.
Qed.

(** [any(n in line for line in text.split('\n'))] is [n in text] when [n]
    has no newline. *)
Lemma existsb_split_on (n : string) (c : ascii) (s cur : string) :
  all_chars (fun x => negb (Ascii.eqb x c)) n = true ->
  existsb (Py.contains n) (Py.split_on_aux c cur s) = Py.contains n (cur ++ s).
Proof.
  intros Hn. revert cur. induction s as [|d s IH]; intros cur; simpl.
  - now rewrite orb_false_r, append_nil_r.
  - destruct (Ascii.eqb d c) eqn:E.
    + apply Ascii.eqb_eq in E as ->. simpl. rewrite IH.
      now rewrite (contains_app_sep n cur s c Hn).
    + rewrite IH, append_assoc. reflexivity.
Qed.

Lemma grep_nil (pat text : string) :
  existsb (Py.contains pat) (Py.split_on Py.newline text) = false -> grep pat text = "".
Proof.
  unfold grep. induction (Py.split_on Py.newline text) as [|l ls IH]; intros H;
    [reflexivity|].
  simpl in H. apply orb_false_iff in H as [H1 H2].
  simpl. rewrite H1. exact (IH H2).
Qed.

Lemma grep_contains (pat text : string) :
  existsb (Py.contains pat) (Py.split_on Py.newline text) = true ->
  Py.contains pat (grep pat text) = true.
Proof.
  unfold grep. induction (Py.split_on Py.newline text) as [|l ls IH]; intros H;
    [discriminate|].
  simpl in H. simpl. destruct (Py.contains pat l) eqn:E.
  - simpl. destruct (map _ (filter _ ls)).
    + now apply contains_app_l.
    + now apply contains_app_l, contains_app_l.
  - exact (IH H).
Qed.

Lemma lstrip_contains (n s : string) :
  starts_nonspace n = true -> Py.contains n s = true -> Py.contains n (Py.lstrip s) = true.
Proof.
  intros Hn. induction s as [|x s IH]; intros H; [exact H|].
  simpl. destruct (Py.is_space x) eqn:Ex; [|exact H].
  apply IH. rewrite contains_cons in H. apply orb_true_iff in H as [H|H]; [|exact H].
  destruct n as [|y n]; [apply contains_empty_l|].
  rewrite prefix_cons in H. apply andb_true_iff in H as [H _].
  apply Ascii.eqb_eq in H as ->. simpl in Hn. rewrite Ex in Hn. discriminate.
Qed.

Lemma rstrip_prefix (n s : string) :
  ends_nonspace n = true -> String.prefix n s = true -> String.prefix n (Py.rstrip s) = true.
Proof.
  revert n. induction s as [|x s IH]; intros n Hn H; [exact H|].
  destruct n as [|y n]; [destruct (Py.rstrip (String x s)); reflexivity|].
  rewrite prefix_cons in H. apply andb_true_iff in H as [Hxy H].
  apply Ascii.eqb_eq in Hxy as ->. simpl.
  destruct n as [|z n].
  - simpl in Hn. rewrite (negb_true_iff _) in Hn. rewrite Hn. simpl.
    destruct (ascii_dec x x); [destruct (Py.rstrip s); reflexivity|contradiction].
  - assert (IH' : String.prefix (String z n) (Py.rstrip s) = true)
      by (apply IH; [exact Hn | exact H]).
    destruct (Py.is_space x && String.eqb (Py.rstrip s) "") eqn:E.
    + apply andb_true_iff in E as [_ E]. apply String.eqb_eq in E.
      rewrite E in IH'. discriminate.
    + rewrite prefix_cons, Ascii.eqb_refl. exact IH'.
Qed.

Lemma rstrip_contains (n s : string) :
  ends_nonspace n = true -> Py.contains n s = true -> Py.contains n (Py.rstrip s) = true.
Proof.
  intros Hn. induction s as [|x s IH]; intros H; [exact H|].
  rewrite contains_cons in H. apply orb_true_iff in H as [H|H].
  - apply contains_of_prefix, rstrip_prefix; assumption.
  - specialize (IH H). simpl.
    destruct (Py.is_space x && String.eqb (Py.rstrip s) "") eqn:E.
    + apply andb_true_iff in E as [_ E]. apply String.eqb_eq in E.
      rewrite E in IH. exact IH.
    + rewrite contains_cons, IH. apply orb_true_r.
Qed.

Lemma strip_contains (n s : string) :
  starts_nonspace n = true -> ends_nonspace n = true ->
  Py.contains n s = true -> Py.contains n (Py.strip s) = true.
Proof.
  intros H1 H2 H. unfold Py.strip. apply rstrip_contains; [exact H2|].
  apply lstrip_contains; assumption.
Qed.

Lemma strip_empty : Py.strip "" = "".
Proof. reflexivity. Qed.

(** [bool(stdout)] of [lsmod | grep m] is [m in lsmod] for a module name
    with no whitespace at its ends and no newline. *)
Lemma grep_strip_nonempty (m text : string) :
  m <> "" -> starts_nonspace m = true -> ends_nonspace m = true ->
  all_chars (fun x => negb (Ascii.eqb x Py.newline)) m = true ->
  negb (String.eqb (Py.strip (grep m text)) "") = Py.contains m text.
Proof.
  intros Hm H1 H2 H3.
  pose proof (existsb_split_on m Py.newline text "" H3) as E.
  simpl in E. unfold Py.split_on. rewrite <- E.
  destruct (existsb (Py.contains m) (Py.split_on_aux Py.newline "" text)) eqn:Ex.
  - pose proof (grep_contains m text Ex) as G.
    apply (strip_contains m _ H1 H2) in G.
    apply (contains_nonempty m _ Hm) in G.
    apply String.eqb_neq in G. now rewrite G.
  - rewrite (grep_nil m text Ex). reflexivity.
Qed.

End StrFacts.

(* ------------------------------------------------------------------ *)
(** ** Running a computation: no exception, effects within a predicate *)

Module RunFacts.

Lemma runs_ret {A} P (Q : A -> Prop) a : Q a -> runs P Q (ret a).
Proof. intros HQ w tr. exists [], a. rewrite app_nil_r. auto. Qed.

Lemma runs_print P (Q : unit -> Prop) s : P (EPrint s) -> Q tt -> runs P Q (print s).
Proof. intros HP HQ w tr. exists [EPrint s], tt. auto. Qed.

Lemma runs_run P (Q : string * string * Z -> Prop) c :
  (forall r, P (ERun c r)) -> (forall x, Q x) -> runs P Q (run_command c).
Proof. intros HP HQ w tr. eexists [_], _. split; [reflexivity|auto]. Qed.

Lemma runs_write P (Q : option string -> Prop) path content :
  (forall r, P (EWrite path content r)) -> (forall x, Q x) ->
  runs P Q (write_file path content).
Proof. intros HP HQ w tr. eexists [_], _. split; [reflexivity|auto]. Qed.

Lemma runs_bind {A B} P (Q : B -> Prop) (m : M A) (k : A -> M B) :
  runs P (fun a => runs P Q (k a)) m -> runs P Q (bind m k).
Proof.
  intros Hm w tr. destruct (Hm w tr) as (s1 & a & E1 & F1 & Hk).
  destruct (Hk w (app tr s1)) as (s2 & b & E2 & F2 & HQ).
  exists (app s1 s2), b. unfold bind. rewrite E1, E2, app_assoc.
  split; [reflexivity|]. split; [apply Forall_app; auto | exact HQ].
Qed.

Lemma runs_conseq {A} (P P' : event -> Prop) (Q Q' : A -> Prop) m :
  runs P Q m -> (forall e, P e -> P' e) -> (forall a, Q a -> Q' a) -> runs P' Q' m.
Proof.
  intros H HP HQ w tr. destruct (H w tr) as (s & a & E & F & Ha).
  exists s, a. split; [exact E|]. split; [|auto].
  eapply Forall_impl; [exact HP | exact F].
Qed.

Lemma runs_foldM {A B} P (I : A -> Prop) (f : A -> B -> M A) xs :
  (forall a x, In x xs -> I a -> runs P I (f a x)) ->
  forall a, I a -> runs P I (foldM f a xs).
Proof.
  induction xs as [|x xs IH]; intros Hf a Ha; simpl.
  - now apply runs_ret.
  - apply runs_bind. eapply runs_conseq; [apply Hf; [left; reflexivity|exact Ha] | auto |].
    intros a' Ha'. apply IH; [|exact Ha']. intros; apply Hf; [right|]; assumption.
Qed.

Lemma runs_mapM {A B} P (f : A -> M B) xs :
  (forall x, In x xs -> runs P (fun _ => True) (f x)) ->
  runs P (fun bs => List.length bs = List.length xs) (mapM f xs).
Proof.
  induction xs as [|x xs IH]; intros Hf; simpl.
  - now apply runs_ret.
  - apply runs_bind. eapply runs_conseq; [apply Hf; left; reflexivity | auto |].
    intros b _. apply runs_bind.
    eapply runs_conseq; [apply IH; intros; apply Hf; right; assumption | auto |].
    intros bs Hbs. apply runs_ret. simpl. now rewrite Hbs.
Qed.

(** Used with a proved [runs P (fun _ => True) m] for a named [m]. *)
Lemma runs_any {A} P (Q : A -> Prop) m :
  runs P (fun _ => True) m -> (forall a, Q a) -> runs P Q m.
Proof. intros H HQ. eapply runs_conseq; [exact H | auto | auto]. Qed.

(** The events of a prefix of the trace stay in it. *)
Lemma runs_keeps {A} P (Q : A -> Prop) m w tr e :
  runs P Q m -> In e tr -> In e (fst (m w tr)).
Proof.
  intros H Hin. destruct (H w tr) as (s & a & E & _). rewrite E. simpl.
  apply in_or_app. now left.
Qed.

Lemma bind_print {B} s (k : M B) w tr : (print s ;;; k) w tr = k w (app tr [EPrint s]).
Proof. reflexivity. Qed.

Lemma bind_some {A B} (m : M A) (k : A -> M B) w tr tr' a :
  m w tr = (tr', Some a) -> bind m k w tr = k a w tr'.
Proof. intros E. unfold bind. now rewrite E. Qed.

Lemma bind_none {A B} (m : M A) (k : A -> M B) w tr tr' :
  m w tr = (tr', None) -> bind m k w tr = (tr', None).
Proof. intros E. unfold bind. now rewrite E. Qed.

Lemma bind_snd {A B} (m : M A) (k : A -> M B) w tr :
  snd (bind m k w tr) = match snd (m w tr) with
                        | None => None
                        | Some a => snd (k a w (fst (m w tr)))
                        end.
Proof. unfold bind. destruct (m w tr) as [tr' [a|]]; reflexivity. Qed.

(** Steps through a computation built from [ret], [print], [run_command],
    [write_file], [bind] and case analysis on its values. *)
Ltac runs_step :=
  match goal with
  | |- runs _ _ (bind _ _) => apply runs_bind
  | |- runs _ _ (ret _) => apply runs_ret
  | |- runs _ _ (print _) => apply runs_print
  | |- runs _ _ (run_command _) => apply runs_run
  | |- runs _ _ (write_file _ _) => apply runs_write
  | |- runs _ _ (if ?b then _ else _) => destruct b
  | |- runs _ _ (match ?x with _ => _ end) => destruct x
  | |- forall _, _ => intro
  | |- _ => progress cbv beta
  end.

End RunFacts.

(* ------------------------------------------------------------------ *)
(** ** The kernel-module probes of [modules/kernel/fs_modules.py] on a snapshot *)

Module SnapshotFacts.
Import RunFacts StrFacts.

Lemma loaded_snapshot p m tr :
  FsModules._is_module_loaded m (snapshot_world p) tr
  = (app tr [ERun ("lsmod | grep " ++ m) (sh_lsmod_grep p m)], Some (loaded_in p m)).
Proof. reflexivity. Qed.

Lemma available_snapshot p m tr :
  FsModules._is_module_available m (snapshot_world p) tr
  = (app tr [ERun ("modprobe -n -v " ++ m) (modprobe_n p m)], Some (available_in p m)).
Proof. reflexivity. Qed.

Lemma disabled_snapshot p m tr :
  FsModules._is_module_disabled m (snapshot_world p) tr
  = (app tr [ERun ("modprobe -n -v " ++ m) (modprobe_n p m)], Some (disabled_in p m)).
Proof. reflexivity. Qed.

Lemma module_status_snapshot p m tr :
  snd (FsModules.module_status m (snapshot_world p) tr)
  = Some (negb (loaded_in p m) && (negb (available_in p m) || disabled_in p m)).
Proof.
  unfold FsModules.module_status. unfold bind at 1. rewrite loaded_snapshot.
  destruct (loaded_in p m); [reflexivity|].
  unfold bind at 1. rewrite available_snapshot.
  destruct (available_in p m); simpl.
  - unfold bind at 1. rewrite disabled_snapshot.
    destruct (disabled_in p m); reflexivity.
  - reflexivity.
Qed.

Lemma check_module_snapshot p m bid tr :
  snd (FsModules.check_module m bid (snapshot_world p) tr)
  = let b := negb (loaded_in p m) && (negb (available_in p m) || disabled_in p m) in
    Some (b, bid ++ " Ensure " ++ m ++ " kernel module is not available", b).
Proof.
  unfold FsModules.check_module, bind at 1.
  pose proof (module_status_snapshot p m tr) as H.
  destruct (FsModules.module_status m (snapshot_world p) tr) as [tr' [b|]];
    simpl in H; inversion H; reflexivity.
Qed.

(** For a module name [m] (no whitespace at its ends, no newline), the
    pipeline [lsmod | grep m] reports [m] loaded exactly when [m] occurs in
    the output of [lsmod]. *)
Lemma loaded_in_contains p m :
  m <> "" -> starts_nonspace m = true -> ends_nonspace m = true ->
  all_chars (fun x => negb (Ascii.eqb x Py.newline)) m = true ->
  loaded_in p m = Py.contains m (lsmod_text p).
Proof. apply grep_strip_nonempty. Qed.

End SnapshotFacts.

(* ------------------------------------------------------------------ *)
(** ** The checks of [modules/kernel/fs_modules.py] never raise *)

Module FsModulesFacts.
Import RunFacts.

Ltac runs_auto := repeat (runs_step || exact I || (intros; exact I)).

Lemma runs_mapM_id {B C} P (g : B -> C) (cs : list (M B)) (ds : list C) :
  Forall2 (fun c d => runs P (fun r => g r = d) c) cs ds ->
  runs P (fun rs => map g rs = ds) (mapM (fun c => c) cs).
Proof.
  induction 1 as [|c d cs ds Hc _ IH]; simpl.
  - now apply runs_ret.
  - apply runs_bind. eapply runs_conseq; [exact Hc | auto |].
    intros r Hr. apply runs_bind. eapply runs_conseq; [exact IH | auto |].
    intros rs Hrs. apply runs_ret. simpl. now rewrite Hr, Hrs.
Qed.

Lemma runs_mapM_true {A B} P (f : A -> M B) xs :
  (forall x, In x xs -> runs P (fun _ => True) (f x)) ->
  runs P (fun _ => True) (mapM f xs).
Proof. intros H. eapply runs_conseq; [apply runs_mapM; exact H | auto | auto]. Qed.

(** The events of [modules/kernel/fs_modules.py]: prints and the two
    probes. *)
Section Probes.
Variable P : event -> Prop.
Hypothesis HP : forall s, P (EPrint s).
Hypothesis HL : forall m r, P (ERun ("lsmod | grep " ++ m) r).
Hypothesis HM : forall m r, P (ERun ("modprobe -n -v " ++ m) r).

Local Ltac runs_autoP :=
  repeat (runs_step || exact I || (intros; exact I) || apply HP || apply HL || apply HM
          || (progress (cbv zeta))).

Lemma module_status_runs_P m : runs P (fun _ => True) (FsModules.module_status m).
Proof. unfold FsModules.module_status, FsModules._is_module_loaded,
  FsModules._is_module_available, FsModules._is_module_disabled. runs_autoP. Qed.

Lemma check_module_runs_P m bid :
  runs P
    (fun r : bool * string * bool =>
       snd (fst r) = bid ++ " Ensure " ++ m ++ " kernel module is not available")
    (FsModules.check_module m bid).
Proof.
  unfold FsModules.check_module. apply runs_bind.
  apply runs_any; [apply module_status_runs_P|]. intros b. apply runs_ret. reflexivity.
Qed.

Lemma check_fat_runs_P :
  runs P
    (fun r : bool * string * bool =>
       snd (fst r) = "1.1.1.8 Ensure FAT kernel module is not available")
    FsModules.check_fat.
Proof.
  unfold FsModules.check_fat. apply runs_bind.
  apply runs_any; [apply module_status_runs_P|]. intros b. apply runs_bind.
  apply runs_any; [apply module_status_runs_P|]. intros b'. apply runs_ret. reflexivity.
Qed.

Lemma results_runs_P :
  runs P
    (fun rs : list (bool * string * bool) => map (fun r => snd (fst r)) rs = fs_modules_descriptions)
    FsModules.results.
Proof.
  apply runs_mapM_id.
  repeat constructor; (apply check_fat_runs_P || apply check_module_runs_P).
Qed.

Lemma print_summary_runs_P title rs :
  runs P (fun _ => True) (FsModules.print_summary title rs).
Proof. unfold FsModules.print_summary. runs_autoP. Qed.

Lemma run_all_audits_runs_P rr :
  runs P (fun _ => True) (FsModules.run_all_audits rr).
Proof.
  unfold FsModules.run_all_audits.
  apply runs_bind, runs_print; [apply HP|]. apply runs_bind.
  eapply (runs_conseq P); [exact results_runs_P | auto |]. intros rs _.
  apply runs_bind. apply runs_any; [apply print_summary_runs_P|]. intros _.
  destruct rr; apply runs_ret; exact I.
Qed.

Lemma run_all_remediations_runs_P :
  runs P (fun _ => True) FsModules.run_all_remediations.
Proof.
  unfold FsModules.run_all_remediations.
  apply runs_bind, runs_print; [apply HP|]. apply runs_bind.
  eapply (runs_conseq P); [apply runs_mapM_true | auto |].
  - intros [name f] Hx. cbv beta iota. apply runs_bind, runs_print; [apply HP|].
    simpl in Hx.
    repeat (destruct Hx as [Hx|Hx];
            [injection Hx as _ <-;
             cbv delta [FsModules.remediate_cramfs FsModules.remediate_freevxfs
               FsModules.remediate_jffs2 FsModules.remediate_hfs FsModules.remediate_hfsplus
               FsModules.remediate_squashfs FsModules.remediate_udf FsModules.remediate_fat];
             runs_autoP |]).
    destruct Hx.
  - intros ? _. apply runs_bind, runs_print; [apply HP|].
    apply runs_bind, runs_print; [apply HP|].
    apply runs_bind. apply runs_any; [apply run_all_audits_runs_P|]. intros r.
    runs_autoP.
Qed.

End Probes.

Lemma results_runs :
  runs (fun _ => True)
    (fun rs : list (bool * string * bool) => map (fun r => snd (fst r)) rs = fs_modules_descriptions)
    FsModules.results.
Proof. apply results_runs_P; intros; exact I. Qed.

Lemma print_summary_runs title rs :
  runs (fun _ => True) (fun _ => True) (FsModules.print_summary title rs).
Proof. apply print_summary_runs_P; intros; exact I. Qed.

End FsModulesFacts.

Module FsKernelModulesFacts.
Import RunFacts FsModulesFacts.

Lemma prints_all_of_runs {A} P Q (m : M A) : runs P Q m -> prints_all [] m.
Proof.
  intros H w tr. destruct (H w tr) as (s & a & E & _). exists s, a.
  split; [exact E | intros x []].
Qed.

Lemma prints_all_print {A} s l (k : M A) :
  prints_all l k -> prints_all (s :: l) (print s ;;; k).
Proof.
  intros H w tr. rewrite bind_print.
  destruct (H w (app tr [EPrint s])) as (suf & a & E & Hl).
  exists (EPrint s :: suf), a. rewrite E, <- app_assoc. split; [reflexivity|].
  intros x [<-|Hx]; [left; reflexivity | right; auto].
Qed.

Lemma prints_all_weaken {A} l l' (m : M A) :
  prints_all l m -> (forall s, In s l' -> In s l) -> prints_all l' m.
Proof.
  intros H Hl w tr. destruct (H w tr) as (suf & a & E & Hs). exists suf, a. auto.
Qed.

Lemma prints_all_mapM {A B} (L : A -> list string) (f : A -> M B) xs :
  (forall x, In x xs -> prints_all (L x) (f x)) ->
  prints_all (flat_map L xs) (mapM f xs).
Proof.
  induction xs as [|x xs IH]; intros Hf w tr; cbn [mapM flat_map].
  - exists [], []. rewrite app_nil_r. split; [reflexivity | intros s []].
  - destruct (Hf x (or_introl eq_refl) w tr) as (s1 & b & E1 & H1).
    destruct (IH (fun y Hy => Hf y (or_intror Hy)) w (app tr s1)) as (s2 & bs & E2 & H2).
    exists (app s1 s2), (b :: bs). unfold bind. rewrite E1, E2, app_assoc.
    split; [reflexivity|].
    intros s Hs. apply in_app_or in Hs as [Hs|Hs]; apply in_or_app; auto.
Qed.

Lemma prints_all_foldM {A B} (L : B -> list string) (f : A -> B -> M A) xs :
  (forall a x, In x xs -> prints_all (L x) (f a x)) ->
  forall a, prints_all (flat_map L xs) (foldM f a xs).
Proof.
  induction xs as [|x xs IH]; intros Hf a w tr; cbn [foldM flat_map].
  - exists [], a. rewrite app_nil_r. split; [reflexivity | intros s []].
  - destruct (Hf a x (or_introl eq_refl) w tr) as (s1 & a1 & E1 & H1).
    destruct (IH (fun b y Hy => Hf b y (or_intror Hy)) a1 w (app tr s1))
      as (s2 & a2 & E2 & H2).
    exists (app s1 s2), a2. unfold bind. rewrite E1, E2, app_assoc.
    split; [reflexivity|].
    intros s Hs. apply in_app_or in Hs as [Hs|Hs]; apply in_or_app; auto.
Qed.

Lemma prints_all_bind {A B} l1 l2 (m : M A) (k : A -> M B) :
  prints_all l1 m -> (forall a, prints_all l2 (k a)) -> prints_all (app l1 l2) (bind m k).
Proof.
  intros Hm Hk w tr. destruct (Hm w tr) as (s1 & a & E1 & H1).
  destruct (Hk a w (app tr s1)) as (s2 & b & E2 & H2).
  exists (app s1 s2), b. unfold bind. rewrite E1, E2, app_assoc.
  split; [reflexivity|].
  intros s Hs. apply in_app_or in Hs as [Hs|Hs]; apply in_or_app; auto.
Qed.

(** The events of [fs_kernel_modules.py]: prints, any command, and the
    writes of the modprobe files. *)
Section KernelEvents.
Variable P : event -> Prop.
Hypothesis HP : forall s, P (EPrint s).
Hypothesis HR : forall c r, P (ERun c r).
Hypothesis HW : forall m r, In m fs_kernel_module_names ->
  P (EWrite (FsKernelModules.remediation_file m) (FsKernelModules._create_remediation_file m) r).

Local Ltac runs_autoK :=
  repeat (runs_step || exact I || (intros; exact I) || apply HP || apply HR
          || (progress (cbv zeta))).

Lemma k_check_module_runs_P m :
  runs P (fun _ => True) (FsKernelModules.check_module m).
Proof.
  unfold FsKernelModules.check_module, FsKernelModules._is_module_loaded,
    FsKernelModules.can_be_loaded, FsKernelModules._is_module_disabled,
    FsKernelModules._is_module_available.
  runs_autoK.
Qed.

Lemma k_check_fat_runs_P :
  runs P (fun _ => True) FsKernelModules.check_fat.
Proof.
  unfold FsKernelModules.check_fat. apply runs_bind.
  eapply (runs_conseq P); [apply (runs_foldM P (fun _ => True)); [|exact I] | auto |].
  - intros a x _ _. unfold FsKernelModules.check_fat_step, FsKernelModules._is_module_loaded,
      FsKernelModules.can_be_loaded, FsKernelModules._is_module_disabled,
      FsKernelModules._is_module_available.
    runs_autoK.
  - intros. apply runs_ret. exact I.
Qed.

Lemma k_run_all_audits_runs_P :
  runs P (fun _ => True) FsKernelModules.run_all_audits.
Proof.
  unfold FsKernelModules.run_all_audits.
  apply runs_bind, runs_print; [apply HP|]. apply runs_bind.
  eapply (runs_conseq P); [apply runs_mapM_true | auto |].
  - intros x Hx. simpl in Hx.
    repeat (destruct Hx as [<-|Hx];
            [cbv beta iota; apply runs_bind, runs_print; [apply HP|]; apply runs_bind;
             eapply (runs_conseq P);
             [first [apply k_check_module_runs_P | apply k_check_fat_runs_P] | auto |];
             intros; apply runs_ret; exact I |]).
    destruct Hx.
  - intros results _.
    repeat (runs_step || exact I || (intros; exact I) || apply HP ||
            (eapply (runs_conseq P); [apply runs_mapM_true | auto |])).
Qed.

Lemma remediate_module_runs_P m :
  In m fs_kernel_module_names ->
  runs P (fun _ => True) (FsKernelModules.remediate_module m).
Proof.
  intros Hm. unfold FsKernelModules.remediate_module, FsKernelModules._is_module_loaded.
  runs_autoK; intros; apply HW; exact Hm.
Qed.

Lemma remediate_fat_runs_P :
  runs P (fun _ => True) FsKernelModules.remediate_fat.
Proof.
  unfold FsKernelModules.remediate_fat.
  apply (runs_foldM P (fun _ => True)); [|exact I].
  intros a x Hx _.
  assert (Hm : In x fs_kernel_module_names) by (simpl in Hx |- *; tauto).
  unfold FsKernelModules.remediate_fat_step, FsKernelModules._is_module_loaded.
  runs_autoK; intros; apply HW; exact Hm.
Qed.

Lemma k_run_all_remediations_runs_P :
  runs P (fun _ => True) FsKernelModules.run_all_remediations.
Proof.
  unfold FsKernelModules.run_all_remediations, FsKernelModules.remediation_loop.
  apply runs_bind, runs_print; [apply HP|]. apply runs_bind, runs_bind.
  eapply (runs_conseq P); [apply runs_mapM_true | auto |].
  - intros x Hx. simpl in Hx.
    repeat (destruct Hx as [<-|Hx];
            [cbv beta iota; apply runs_bind, runs_print; [apply HP|];
             first [ apply remediate_fat_runs_P
                   | apply remediate_module_runs_P; simpl; tauto ] |]).
    destruct Hx.
  - intros. apply runs_ret. cbv beta. apply runs_bind, runs_print; [apply HP|].
    exact k_run_all_audits_runs_P.
Qed.

End KernelEvents.

Lemma k_run_all_audits_runs :
  runs (fun _ => True) (fun _ => True) FsKernelModules.run_all_audits.
Proof. apply k_run_all_audits_runs_P; intros; exact I. Qed.

Lemma remediate_module_prints m :
  prints_all [remediating_line m] (FsKernelModules.remediate_module m).
Proof.
  unfold FsKernelModules.remediate_module. apply prints_all_print.
  eapply prints_all_of_runs with (P := fun _ => True) (Q := fun _ => True).
  unfold FsKernelModules._is_module_loaded. cbv zeta. runs_auto.
Qed.

Lemma remediate_fat_prints :
  prints_all (map remediating_line FsKernelModules.fat_modules) FsKernelModules.remediate_fat.
Proof.
  unfold FsKernelModules.remediate_fat.
  eapply prints_all_weaken;
    [apply (prints_all_foldM (fun m => [remediating_line m])) |].
  - intros a x _. unfold FsKernelModules.remediate_fat_step. apply prints_all_print.
    eapply prints_all_of_runs with (P := fun _ => True) (Q := fun _ => True).
    unfold FsKernelModules._is_module_loaded. cbv zeta. runs_auto.
  - intros s Hs. simpl in Hs |- *. exact Hs.
Qed.

Lemma remediation_loop_prints :
  prints_all
    (flat_map (fun x => FsKernelModules.step_header (fst (fst x)) (snd (fst x))
                        :: map remediating_line (remediated_modules (fst (fst x))))
              FsKernelModules.remediation_functions)
    FsKernelModules.remediation_loop.
Proof.
  unfold FsKernelModules.remediation_loop.
  eapply prints_all_weaken;
    [apply (prints_all_bind
              (flat_map (fun x => FsKernelModules.step_header (fst (fst x)) (snd (fst x))
                                  :: map remediating_line (remediated_modules (fst (fst x))))
                        FsKernelModules.remediation_functions) []);
     [apply prints_all_mapM | ] |].
  - intros x Hx. simpl in Hx.
    repeat (destruct Hx as [<-|Hx];
            [cbv beta iota; apply prints_all_print;
             first [ exact (remediate_module_prints _) | exact remediate_fat_prints ] |]).
    destruct Hx.
  - intros a. apply (prints_all_of_runs (fun _ => True) (fun _ => True)).
    apply runs_ret. exact I.
  - intros s Hs. rewrite app_nil_r. exact Hs.
Qed.

End FsKernelModulesFacts.

Module ManualFacts.
Import RunFacts FsModulesFacts.

Lemma all_remediations_runs P fs :
  (forall f, In f fs -> runs P (fun _ => True) f) ->
  runs P (fun _ => True) (all_remediations fs).
Proof.
  intros H. unfold all_remediations.
  apply (runs_foldM P (fun _ => True)); [|exact I].
  intros a f Hf _. apply runs_bind.
  eapply (runs_conseq P); [apply H; exact Hf | auto |].
  intros. apply runs_ret. exact I.
Qed.

Ltac unfold_manual :=
  cbv delta [Apparmor.remediate_apparmor_installed
             Apparmor.remediate_apparmor_enabled_bootloader
             Apparmor.remediate_apparmor_profiles_enforcing
             BootloaderConfiguration.remediate_bootloader_password
             BootloaderConfiguration.remediate_bootloader_config_permissions
             WarningBanners.remediate_message_of_the_day
             WarningBanners.remediate_local_login_warning
             WarningBanners.remediate_remote_login_warning
             WarningBanners.remediate_access_to_etc_issue
             Repositories.remediate_gpg_keys
             Repositories.remediate_package_manager_repositories
             Updates.remediate_updates_installed
             ProcessRestrictions.remediate_address_space_layout_randomization
             ProcessRestrictions.remediate_ptrace_scope
             ProcessRestrictions.remediate_core_dumps_restricted
             ProcessRestrictions.remediate_prelink_not_installed
             ProcessRestrictions.remediate_automatic_error_reporting].

Ltac manual_print_only :=
  apply all_remediations_runs; intros f Hf; simpl in Hf;
  repeat (destruct Hf as [<-|Hf]; [unfold_manual; runs_auto|]); destruct Hf.

End ManualFacts.

Module JsonFacts.

Lemma json_results_Forall2 {A} (call : A -> option (bool * string)) checks js :
  json_results call checks = Some js ->
  Forall2 (fun (c : string * A) e => exists passed msg,
             call (snd c) = Some (passed, msg) /\ e = result_entry (fst c) passed msg)
          checks js.
Proof.
  revert js. induction checks as [|[name func] rest IH]; intros js H; simpl in H.
  - injection H as <-. constructor.
  - destruct (call func) as [[passed msg]|] eqn:Ec; [|discriminate].
    destruct (json_results call rest) as [js'|] eqn:Er; [|discriminate].
    injection H as <-. constructor; [|apply IH; reflexivity].
    exists passed, msg. auto.
Qed.

Lemma json_results_total {A} (call : A -> option (bool * string)) checks :
  (forall c, In c checks -> exists r, call (snd c) = Some r) ->
  exists js, json_results call checks = Some js.
Proof.
  induction checks as [|[name func] rest IH]; intros H; simpl.
  - eauto.
  - destruct (H (name, func)) as [[passed msg] Ec]; [left; reflexivity|].
    simpl in Ec. rewrite Ec.
    destruct IH as [js Er]; [intros c Hc; apply H; right; exact Hc|].
    rewrite Er. eauto.
Qed.

Lemma main_json_shape {A} (call : A -> option (bool * string)) checks j :
  main_json call checks = Some j ->
  exists js, j = JObject [("results", JArray js)] /\
    Forall2 (fun (c : string * A) e => exists passed msg,
               call (snd c) = Some (passed, msg) /\ e = result_entry (fst c) passed msg)
            checks js.
Proof.
  unfold main_json. destruct (json_results call checks) as [js|] eqn:E; [|discriminate].
  intros H. injection H as <-. exists js. split; [reflexivity|].
  apply json_results_Forall2. exact E.
Qed.

Lemma nodupb_NoDup l : nodupb l = true -> NoDup l.
Proof.
  induction l as [|x rest IH]; simpl; intros H; constructor.
  - apply andb_prop in H. destruct H as [H _].
    intros Hin. apply negb_true_iff in H. unfold Py.list_in in H.
    assert (existsb (String.eqb x) rest = true) as C.
    { apply existsb_exists. exists x. split; [exact Hin | apply String.eqb_refl]. }
    congruence.
  - apply IH. apply andb_prop in H. destruct H as [_ H]. exact H.
Qed.

End JsonFacts.

(* ------------------------------------------------------------------ *)
(** ** The loops of [cis_audit.py] *)

Module CisAuditFacts.
Import RunFacts FsModulesFacts ManualFacts Controller CisAudit.

Lemma post_ret {A} (Q : A -> Prop) a : Q a -> post Q (ret a).
Proof. intros HQ w tr tr' b E. injection E as _ <-. exact HQ. Qed.

Lemma post_raise {A} (Q : A -> Prop) : post Q raise.
Proof. intros w tr tr' b E. discriminate E. Qed.

Lemma post_bind_dep {A B} (R : A -> Prop) (Q : B -> Prop) (m : M A) (k : A -> M B) :
  post R m -> (forall a, R a -> post Q (k a)) -> post Q (bind m k).
Proof.
  intros Hm H w tr tr' b E. unfold bind in E.
  destruct (m w tr) as [t1 [a|]] eqn:E1; [|discriminate E].
  eapply H; [eapply Hm; exact E1 | exact E].
Qed.

Lemma post_bind {A B} (Q : B -> Prop) (m : M A) (k : A -> M B) :
  (forall a, post Q (k a)) -> post Q (bind m k).
Proof.
  intros H. apply (post_bind_dep (fun _ => True)); [|intros; apply H].
  intros ? ? ? ? ?; exact I.
Qed.

Lemma post_foldM {A B} (I : A -> Prop) (f : A -> B -> M A) xs :
  (forall a x, In x xs -> I a -> post I (f a x)) ->
  forall a, I a -> post I (foldM f a xs).
Proof.
  induction xs as [|x xs IH]; intros Hf a Ha; simpl.
  - now apply post_ret.
  - apply (post_bind_dep I); [apply Hf; [left; reflexivity | exact Ha]|].
    intros a' Ha'. apply IH; [|exact Ha']. intros; apply Hf; [right|]; assumption.
Qed.

(** An invariant that one of the steps establishes, whatever the state
    before it, holds at the end. *)
Lemma post_foldM_reach {A B} (I : A -> Prop) (f : A -> B -> M A) xs :
  (forall a x, In x xs -> I a -> post I (f a x)) ->
  (exists x, In x xs /\ forall a, post I (f a x)) ->
  forall a, post I (foldM f a xs).
Proof.
  induction xs as [|x xs IH]; intros Hf (x0 & Hin & Hx0) a; [destruct Hin|].
  simpl. destruct Hin as [<-|Hin].
  - apply (post_bind_dep I); [apply Hx0|]. intros a' Ha'.
    apply post_foldM; [|exact Ha']. intros; apply Hf; [right|]; assumption.
  - apply post_bind. intros a'. apply IH; [intros; apply Hf; [right|]; assumption|].
    exists x0; split; assumption.
Qed.

Lemma post_runs {A} P (Q : A -> Prop) m : runs P Q m -> post Q m.
Proof.
  intros H w tr tr' a E. destruct (H w tr) as (s & a' & E' & _ & HQ).
  rewrite E in E'. injection E' as _ <-. exact HQ.
Qed.

Lemma fails_bind {A B} (m : M A) (k : A -> M B) :
  (forall a, fails (k a)) -> fails (bind m k).
Proof.
  intros H w tr. unfold bind. destruct (m w tr) as [t1 [a|]]; [apply H|reflexivity].
Qed.

Lemma fails_foldM {A B} (f : A -> B -> M A) a x xs :
  fails (f a x) -> fails (foldM f a (x :: xs)).
Proof.
  intros H w tr. simpl. unfold bind. specialize (H w tr).
  destruct (f a x w tr) as [t1 [b|]]; [discriminate H|reflexivity].
Qed.

Lemma skipn_length_app {A} (l1 l2 : list A) : skipn (List.length l1) (l1 ++ l2) = l2.
Proof. induction l1; simpl; auto. Qed.

Lemma runs_capture {A} P (Q : A -> Prop) m : runs P Q m -> runs P Q (capture m).
Proof.
  intros H w tr. destruct (H w tr) as (s & a & E & F & HQ).
  exists (filter (fun e => negb (is_print e)) s), a. unfold capture. rewrite E.
  rewrite skipn_length_app. split; [reflexivity|]. split; [|exact HQ].
  apply Forall_forall. intros x Hx. apply filter_In in Hx.
  rewrite Forall_forall in F. apply F, Hx.
Qed.

Lemma print_user_friendly_header_runs sid title :
  runs (fun _ => True) (fun _ => True) (print_user_friendly_header sid title).
Proof. unfold print_user_friendly_header. runs_auto. Qed.

Lemma print_section_header_runs title d :
  runs (fun _ => True) (fun _ => True) (print_section_header title d).
Proof. unfold print_section_header. runs_auto. Qed.

Lemma explain_module_result_runs name r sid :
  runs (fun _ => True) (fun _ => True) (explain_module_result name r sid).
Proof. unfold explain_module_result. runs_auto. Qed.

Lemma print_lines_runs ls : runs (fun _ => True) (fun _ => True) (print_lines ls).
Proof.
  unfold print_lines. apply runs_bind. eapply (runs_conseq (fun _ => True));
    [apply runs_mapM_true; intros; apply runs_print; exact I | auto | ].
  intros; apply runs_ret; exact I.
Qed.

(** [mapM print] prints its lines in order. *)
Lemma mapM_print_trace ls w tr :
  mapM print ls w tr = (app tr (map EPrint ls), Some (map (fun _ => tt) ls)).
Proof.
  revert tr; induction ls as [|l ls IH]; intros tr.
  - cbn. rewrite app_nil_r. reflexivity.
  - cbn [mapM]. erewrite bind_some by reflexivity.
    erewrite bind_some by apply IH.
    unfold ret. rewrite <- app_assoc. reflexivity.
Qed.

(** [print_lines] prints its lines in order and returns. *)
Lemma print_lines_trace ls w tr :
  print_lines ls w tr = (app tr (map EPrint ls), Some tt).
Proof.
  unfold print_lines. erewrite bind_some by apply mapM_print_trace. reflexivity.
Qed.

(** Reads the value of a decidable subterm off its evaluation. *)
Ltac eval_in_goal f :=
  repeat match goal with
  | |- context [f ?x] =>
      let v := eval vm_compute in (f x) in
      progress change (f x) with v
  end.

Lemma late_step_unbound o t ap sm :
  late sm = true -> fails (audit_step o t true (ap, None) sm).
Proof.
  unfold late. intros H.
  destruct (sub_module sm) as [pm|] eqn:Hm; [|discriminate H].
  destruct (section_id_of (sub_title sm)) as [sid|] eqn:Hs; [|discriminate H].
  apply andb_prop in H as [H H3]. apply andb_prop in H as [H1 H2].
  apply negb_true_iff in H1, H2.
  unfold audit_step. rewrite Hm, Hs, H1, H2. cbv beta iota.
  apply fails_bind; intros _. apply fails_bind; intros _. intros w tr; reflexivity.
Qed.

Lemma late_step_bound o t b d sm :
  late sm = true -> (forall m, runs (fun _ => True) (fun _ => True) (o m true)) ->
  runs (fun _ => True) (fun st => st = (b && forallb snd d, Some d))
    (audit_step o t true (b, Some d) sm).
Proof.
  unfold late. intros H Ho.
  destruct (sub_module sm) as [pm|] eqn:Hm; [|discriminate H].
  destruct (section_id_of (sub_title sm)) as [sid|] eqn:Hs; [|discriminate H].
  apply andb_prop in H as [H H3]. apply andb_prop in H as [H1 H2].
  apply negb_true_iff in H1, H2.
  unfold audit_step. rewrite Hm, Hs, H1, H2. cbv beta iota zeta.
  apply runs_bind. apply runs_any; [apply print_user_friendly_header_runs|]. intros _.
  apply runs_bind. eapply (runs_conseq (fun _ => True) _ (fun _ => True));
    [apply runs_capture; destruct pm; try discriminate H3; apply Ho | auto |].
  intros _ _. apply runs_bind, runs_ret. cbv beta iota.
  apply runs_bind. apply runs_any; [apply runs_mapM_true; intros [n r] _;
    apply explain_module_result_runs|]. intros _.
  repeat (runs_step || exact I || reflexivity).
Qed.

Lemma late_fold o t b d x xs :
  forallb late (x :: xs) = true ->
  (forall m, runs (fun _ => True) (fun _ => True) (o m true)) ->
  runs (fun _ => True) (fun st => st = (b && forallb snd d, Some d))
    (foldM (audit_step o t true) (b, Some d) (x :: xs)).
Proof.
  revert b x. induction xs as [|y xs IH]; intros b x Hl Ho; simpl in Hl |- *;
    apply andb_prop in Hl as [Hx Hl].
  - apply runs_bind. eapply (runs_conseq (fun _ => True));
      [apply late_step_bound; assumption | auto |].
    intros st ->. apply runs_ret. reflexivity.
  - apply runs_bind. eapply (runs_conseq (fun _ => True));
      [apply late_step_bound; assumption | auto |].
    intros st ->. eapply (runs_conseq (fun _ => True)); [apply IH; assumption | auto |].
    intros st ->. rewrite <- andb_assoc, andb_diag. reflexivity.
Qed.

Lemma run_audits_fold o t uf :
  filter_modules t <> [] ->
  forall w tr, snd (run_audits o t uf w tr)
    = option_map fst (snd (foldM (audit_step o t uf) (true, None)
                             (submodules_of (filter_modules t)) w
                             (app tr [EPrint (start_line t)]))).
Proof.
  intros H w tr. unfold run_audits. rewrite bind_print.
  destruct (filter_modules t) eqn:E; [congruence|]. unfold bind.
  destruct (foldM _ _ _ _ _) as [? [st|]]; reflexivity.
Qed.

Lemma run_audits_post o t uf (Q : bool -> Prop) :
  filter_modules t <> [] ->
  post (fun st => Q (fst st))
    (foldM (audit_step o t uf) (true, None) (submodules_of (filter_modules t))) ->
  post Q (run_audits o t uf).
Proof.
  intros H Hf w tr tr' b E. assert (E' := f_equal snd E).
  rewrite run_audits_fold in E' by exact H. simpl in E'.
  destruct (foldM _ _ _ _ _) as [t1 [st|]] eqn:E1; [|discriminate E'].
  injection E' as <-. eapply Hf; exact E1.
Qed.

Lemma partitions_step_binds o t a sm :
  sub_module sm = Some partitions -> section_id_of (sub_title sm) = Some "1.1.2" ->
  post (fun st => exists b d, st = (b, Some d)) (audit_step o t true a sm).
Proof.
  intros Hm Hs. destruct a as [ap mr]. unfold audit_step. rewrite Hm, Hs. cbv beta iota.
  eval_in_goal (String.eqb "1.1.2"). cbv beta iota.
  apply post_bind; intros _. apply post_bind; intros r.
  apply post_bind; intros [d|]; [|apply post_raise].
  repeat (apply post_bind; intros ?). apply post_ret. eauto.
Qed.

(** Unrolls the two first steps of the loop of [run_audits]. *)
Lemma fold_two_indep o1 o2 t x1 x2 xs a :
  (forall a, audit_step o1 t true a x1 = audit_step o2 t true a x1) ->
  (forall a, audit_step o1 t true a x2 = audit_step o2 t true a x2) ->
  (forall a, post (fun st => exists b d, st = (b, Some d)) (audit_step o1 t true a x2)) ->
  forallb late xs = true -> xs <> [] ->
  (forall m, runs (fun _ => True) (fun _ => True) (o1 m true)) ->
  (forall m, runs (fun _ => True) (fun _ => True) (o2 m true)) ->
  forall w tr,
  option_map fst (snd (foldM (audit_step o1 t true) a (x1 :: x2 :: xs) w tr))
  = option_map fst (snd (foldM (audit_step o2 t true) a (x1 :: x2 :: xs) w tr)).
Proof.
  intros H1 H2 Hp Hl Hne Ho1 Ho2 w tr. cbn [foldM]. unfold bind at 1 3.
  rewrite <- H1. destruct (audit_step o1 t true a x1 w tr) as [t1 [a1|]]; [|reflexivity].
  unfold bind. rewrite <- H2.
  destruct (audit_step o1 t true a1 x2 w t1) as [t2 [a2|]] eqn:E2; [|reflexivity].
  destruct (Hp a1 w t1 t2 a2 E2) as (b & d & ->).
  destruct xs as [|x xs]; [congruence|].
  destruct (late_fold o1 t b d x xs Hl Ho1 w t2) as (s1 & st1 & -> & _ & ->).
  destruct (late_fold o2 t b d x xs Hl Ho2 w t2) as (s2 & st2 & -> & _ & ->).
  reflexivity.
Qed.

Lemma technical_keeps_false o t st sm :
  fst st = false -> post (fun st' => fst st' = false) (audit_step o t false st sm).
Proof.
  destruct st as [ap mr]. simpl. intros ->. unfold audit_step. cbv beta iota.
  destruct (sub_module sm) as [pm|]; [|apply post_ret; reflexivity].
  unfold technical_step. apply post_bind; intros _. apply post_bind; intros r.
  apply post_ret. reflexivity.
Qed.

Lemma technical_step_false o t st sm pm :
  sub_module sm = Some pm ->
  match pm with fs_modules | partitions => False | _ => True end ->
  post (fun r => truthy r = false) (o pm false) ->
  post (fun st' => fst st' = false) (audit_step o t false st sm).
Proof.
  destruct st as [ap mr]. intros Hm Hp Ho. unfold audit_step. rewrite Hm. cbv beta iota.
  unfold technical_step. apply post_bind; intros _.
  apply (post_bind_dep (fun r => truthy r = false)); [destruct pm; try contradiction; exact Ho|].
  intros r Hr. apply post_ret. simpl. rewrite Hr, andb_false_r. reflexivity.
Qed.

Lemma runs_snd {A} P (Q : A -> Prop) m w tr :
  runs P Q m -> exists a, snd (m w tr) = Some a /\ Q a.
Proof. intros H. destruct (H w tr) as (s & a & -> & _ & HQ). exists a. auto. Qed.

Lemma run_all_remediations_of_runs pm :
  runs (fun _ => True) (fun _ => True) (run_all_remediations_of pm).
Proof.
  destruct pm; cbn [run_all_remediations_of];
    [apply run_all_remediations_runs_P; intros; exact I
    | unfold Partitions.run_all_remediations; runs_auto
    | apply all_remediations_runs; intros f Hf; simpl in Hf;
      repeat (destruct Hf as [<-|Hf]; [unfold_manual; runs_auto|]); destruct Hf ..].
Qed.

Lemma remediation_step_runs t uf sm :
  runs (fun _ => True) (fun _ => True) (remediation_step t uf sm).
Proof.
  unfold remediation_step.
  repeat (runs_step || exact I || (intros; exact I)
          || (apply runs_any; [apply run_all_remediations_of_runs|])
          || (apply runs_any; [apply print_user_friendly_header_runs|])
          || (apply runs_any; [apply print_section_header_runs|])
          || (progress (cbv zeta))).
Qed.

End CisAuditFacts.

(* ------------------------------------------------------------------ *)
(** ** The remediations of [fs_kernel_modules.py], event by event *)

Module KernelRemediationFacts.
Import RunFacts FsKernelModules.

(** Names the answers of the world, then splits on them. *)
Ltac split_outcomes :=
  repeat first
    [ match goal with
      | |- context [w_run ?w ?t ?c] => generalize (w_run w t c); intros ?r
      end
    | match goal with
      | |- context [w_write ?w ?t ?p ?c] => generalize (w_write w t p c); intros ?f
      end
    | match goal with
      | |- context [if ?b then _ else _] => destruct b eqn:?
      | |- context [match ?f with Some _ => _ | None => _ end] =>
          match type of f with option string => destruct f end
      end ].

Lemma fs_print s : failed_step (EPrint s) = false.
Proof. reflexivity. Qed.

Lemma fs_lsmod m r : failed_step (ERun ("lsmod | grep " ++ m) r) = false.
Proof. reflexivity. Qed.

Lemma fs_rmmod m r : failed_step (ERun ("rmmod " ++ m) r) = negb (rc r =? 0)%Z.
Proof. reflexivity. Qed.

Lemma fs_write p c f : failed_step (EWrite p c f) = match f with Some _ => true | None => false end.
Proof. reflexivity. Qed.

Ltac close_outcome :=
  eexists; eexists; split; [rewrite <- ?app_assoc; reflexivity|];
  rewrite ?existsb_app; cbn [existsb]; rewrite ?fs_print, ?fs_lsmod, ?fs_rmmod, ?fs_write;
  repeat match goal with H : ?x = _ |- context [?x] => rewrite H end;
  cbn [negb andb orb].

Ltac close_iff :=
  split; intros H;
  [ (rewrite ?in_app_iff; cbn [In]; tauto) || discriminate H
  | reflexivity
    || (exfalso; rewrite ?in_app_iff in H; cbn [In] in H;
        repeat match goal with
               | H : _ \/ _ |- _ => destruct H
               | H : False |- _ => destruct H
               | H : _ = _ |- _ => discriminate H
               end) ].

Lemma remediate_fat_step_outcome a m w tr :
  exists suf b, remediate_fat_step a m w tr = (app tr suf, Some b) /\
    b = a && negb (existsb failed_step suf) /\
    exists f, In (EWrite (remediation_file m) (_create_remediation_file m) f) suf.
Proof.
  unfold remediate_fat_step, _is_module_loaded, bind, ret, print, run_command, write_file,
    _run_command.
  cbv beta iota zeta. split_outcomes; close_outcome;
    (split; [rewrite ?andb_true_r, ?andb_false_r; reflexivity
            | eexists; rewrite ?in_app_iff; cbn [In]; tauto]).
Qed.

Lemma remediate_fat_fold ms a w tr :
  exists suf b, foldM remediate_fat_step a ms w tr = (app tr suf, Some b) /\
    b = a && negb (existsb failed_step suf) /\
    forall m, In m ms ->
      exists f, In (EWrite (remediation_file m) (_create_remediation_file m) f) suf.
Proof.
  revert a tr. induction ms as [|m ms IH]; intros a tr; simpl.
  - exists [], a. rewrite app_nil_r, andb_true_r. split; [reflexivity|]. split; [reflexivity|].
    intros _ [].
  - unfold bind.
    destruct (remediate_fat_step_outcome a m w tr) as (s1 & b1 & -> & Hb1 & (f & Hf)).
    destruct (IH b1 (app tr s1)) as (s2 & b2 & -> & Hb2 & Hw).
    exists (app s1 s2), b2. rewrite app_assoc. split; [reflexivity|]. split.
    + rewrite Hb2, Hb1, existsb_app, negb_orb, andb_assoc. reflexivity.
    + intros m' [<-|Hm]; [exists f; apply in_or_app; left; exact Hf|].
      destruct (Hw m' Hm) as (f' & Hf'). exists f'. apply in_or_app; right; exact Hf'.
Qed.

End KernelRemediationFacts.

(* ------------------------------------------------------------------ *)
(** ** The text and JSON reports of the two audit scripts *)

Module TextFacts.

Lemma text_json_some {A} (call : A -> option (bool * string)) checks js :
  json_results call checks = Some js -> text_lines call checks = (map entry_line js, true).
Proof.
  revert js. induction checks as [|[name f] rest IH]; simpl; intros js H.
  - injection H as <-. reflexivity.
  - destruct (call f) as [[passed msg]|]; [|discriminate H].
    destruct (json_results call rest) as [js'|] eqn:E; [|discriminate H].
    injection H as <-. rewrite (IH js' eq_refl). reflexivity.
Qed.

Lemma text_json_none {A} (call : A -> option (bool * string)) checks :
  json_results call checks = None ->
  exists pre c post js, checks = app pre (c :: post) /\ call (snd c) = None /\
    json_results call pre = Some js /\ text_lines call checks = (map entry_line js, false).
Proof.
  induction checks as [|[name f] rest IH]; simpl; intros H; [discriminate H|].
  destruct (call f) as [[passed msg]|] eqn:Ef.
  - destruct (json_results call rest) as [js'|] eqn:E; [discriminate H|].
    destruct (IH eq_refl) as (pre & c & post & js & -> & Hc & Hpre & Ht).
    exists ((name, f) :: pre), c, post, (result_entry name passed msg :: js).
    split; [reflexivity|]. split; [exact Hc|]. split.
    + simpl. rewrite Ef, Hpre. reflexivity.
    + rewrite Ht. reflexivity.
  - exists [], (name, f), rest, []. auto.
Qed.

End TextFacts.

(* ------------------------------------------------------------------ *)
(** ** The claims *)

Module Claims.
Import RunFacts StrFacts SnapshotFacts FsModulesFacts FsKernelModulesFacts ManualFacts JsonFacts.

(** C1: [run_all_audits()] of [modules/kernel/fs_modules.py] and of
    [modules/filesystem/partitions.py] returns the conjunction of the
    [passed] fields of the results its checks returned: [True] exactly
    when every check passed.  The kernel-module checks never raise; when a
    partition check raises ([IndexError]), so does [run_all_audits]. *)
Theorem C1_run_all_audits_conjunction :
  (forall w tr, exists rs,
     snd (FsModules.results w (app tr [EPrint FsModules.audits_header])) = Some rs /\
     snd (FsModules.run_all_audits false w tr)
       = Some (inr (forallb (fun r => fst (fst r)) rs)) /\
     (forallb (fun r => fst (fst r)) rs = true <-> forall r, In r rs -> fst (fst r) = true)) /\
  (forall w tr,
     snd (Partitions.run_all_audits false w tr)
     = match snd (Partitions.results w (app tr [EPrint Partitions.audits_header])) with
       | Some rs => Some (inr (forallb (fun r => fst (fst r)) rs))
       | None => None
       end).
Proof.
  split.
  - intros w tr.
    destruct (results_runs w (app tr [EPrint FsModules.audits_header]))
      as (suf & rs & E & _ & _).
    exists rs. rewrite E. split; [reflexivity|]. split; [|apply forallb_forall].
    unfold FsModules.run_all_audits. rewrite bind_print, (bind_some _ _ _ _ _ _ E).
    destruct (print_summary_runs "Filesystem Kernel Module Audit Summary:" rs w
                (app (app tr [EPrint FsModules.audits_header]) suf)) as (s2 & u & E2 & _).
    rewrite (bind_some _ _ _ _ _ _ E2). reflexivity.
  - intros w tr. unfold Partitions.run_all_audits. rewrite bind_print.
    destruct (Partitions.results w (app tr [EPrint Partitions.audits_header]))
      as [tr1 [rs|]] eqn:E.
    + rewrite (bind_some _ _ _ _ _ _ E).
      destruct (print_summary_runs "Filesystem Partition Configuration Audit Summary:"
                  rs w tr1) as (s2 & u & E2 & _).
      rewrite (bind_some _ _ _ _ _ _ E2). reflexivity.
    + rewrite (bind_none _ _ _ _ _ E). reflexivity.
Qed.

(** C2: on a system whose probes answer from a snapshot, a kernel-module
    check of [modules/kernel/fs_modules.py] passes exactly when the module
    is not loaded and is not available or is disabled, as its three probes
    report; in particular [check_cramfs] passes when the [lsmod] output
    has no occurrence of "cramfs" and the output of
    [modprobe -n -v cramfs] contains "install /bin/true". *)
Theorem C2_module_check_passes :
  (forall p m bid, exists L A D,
     result_of (snapshot_world p) (FsModules._is_module_loaded m) = Some L /\
     result_of (snapshot_world p) (FsModules._is_module_available m) = Some A /\
     result_of (snapshot_world p) (FsModules._is_module_disabled m) = Some D /\
     result_of (snapshot_world p) (FsModules.check_module m bid)
     = Some (negb L && (negb A || D),
             bid ++ " Ensure " ++ m ++ " kernel module is not available",
             negb L && (negb A || D))) /\
  (forall p,
     Py.contains "cramfs" (lsmod_text p) = false ->
     Py.contains "install /bin/true" (out (modprobe_n p "cramfs")) = true ->
     result_of (snapshot_world p) FsModules.check_cramfs
     = Some (true, "1.1.1.1 Ensure cramfs kernel module is not available", true)).
Proof.
  split.
  - intros p m bid. exists (loaded_in p m), (available_in p m), (disabled_in p m).
    unfold result_of. rewrite loaded_snapshot, available_snapshot, disabled_snapshot.
    split; [reflexivity|]. split; [reflexivity|]. split; [reflexivity|].
    apply check_module_snapshot.
  - intros p Hl Hd. unfold result_of, FsModules.check_cramfs.
    rewrite check_module_snapshot. cbv zeta.
    rewrite (loaded_in_contains p "cramfs") by (reflexivity || discriminate).
    rewrite Hl.
    assert (HD : disabled_in p "cramfs" = true).
    { unfold disabled_in.
      rewrite (strip_contains "install /bin/true" _ eq_refl eq_refl Hd). reflexivity. }
    rewrite HD, orb_true_r. reflexivity.
Qed.

(** C3: on a system whose probes answer from a snapshot, the [/tmp]
    mount-option checks of [modules/filesystem/partitions.py] pass exactly
    when [/tmp] is mounted, its device differs from the root device and
    from "", and the option is in the option list of [findmnt]; a [/tmp]
    that is not a separate partition gives [passed = False].  This holds
    whenever the root device can be read ([findmnt -n /] prints nothing or
    at least two fields) or [/tmp] is not mounted.  With [/tmp] on its own
    device and options [rw,nosuid,nodev,relatime], [noexec] fails and
    [nodev] passes. *)
Theorem C3_tmp_option_checks :
  (forall p bid opt root,
     (Partitions.root_device_of (Py.strip (out (findmnt_n p "/"))) = Some root
      \/ fst (fst (Partitions.mount_info_of (Py.strip (out (findmnt_n p "/tmp"))))) = false) ->
     let '(is_mounted, options, device) :=
       Partitions.mount_info_of (Py.strip (out (findmnt_n p "/tmp"))) in
     let b := is_mounted && negb (String.eqb device root) && negb (String.eqb device "")
              && Py.list_in opt options in
     result_of (snapshot_world p) (Partitions.check_tmp_option bid opt)
     = Some (b, bid ++ " Ensure " ++ opt ++ " option set on /tmp partition", b)) /\
  (forall p root,
     out (findmnt_n p "/tmp") = "/tmp /dev/sdb1 ext4 rw,nosuid,nodev,relatime" ->
     Partitions.root_device_of (Py.strip (out (findmnt_n p "/"))) = Some root ->
     root <> "/dev/sdb1" ->
     result_of (snapshot_world p) Partitions.check_tmp_noexec
       = Some (false, "1.1.2.4 Ensure noexec option set on /tmp partition", false) /\
     result_of (snapshot_world p) Partitions.check_tmp_nodev
       = Some (true, "1.1.2.2 Ensure nodev option set on /tmp partition", true)).
Proof.
  assert (G : forall p bid opt root,
     (Partitions.root_device_of (Py.strip (out (findmnt_n p "/"))) = Some root
      \/ fst (fst (Partitions.mount_info_of (Py.strip (out (findmnt_n p "/tmp"))))) = false) ->
     let '(is_mounted, options, device) :=
       Partitions.mount_info_of (Py.strip (out (findmnt_n p "/tmp"))) in
     let b := is_mounted && negb (String.eqb device root) && negb (String.eqb device "")
              && Py.list_in opt options in
     result_of (snapshot_world p) (Partitions.check_tmp_option bid opt)
     = Some (b, bid ++ " Ensure " ++ opt ++ " option set on /tmp partition", b)).
  { intros p bid opt root H.
    destruct (Partitions.mount_info_of (Py.strip (out (findmnt_n p "/tmp"))))
      as [[im opts] dev] eqn:ET.
    unfold result_of, Partitions.check_tmp_option, Partitions._is_separate_partition,
      Partitions.option_status, Partitions._has_option, Partitions._get_mount_info,
      bind, ret, run_command, print, from_option, raise, snapshot_world.
    cbn -[Partitions.mount_info_of Py.strip Partitions.root_device_of Py.list_in].
    rewrite ET.
    destruct im; cbn -[Partitions.mount_info_of Py.strip Partitions.root_device_of Py.list_in].
    - destruct H as [H|H]; [|discriminate]. rewrite H.
      cbn -[Py.strip Partitions.mount_info_of Py.list_in].
      destruct (negb (String.eqb dev root) && negb (String.eqb dev ""));
        cbn -[Py.strip Partitions.mount_info_of Py.list_in].
      + rewrite ET. destruct (Py.list_in opt opts); reflexivity.
      + reflexivity.
    - reflexivity. }
  split; [exact G|].
  intros p root Ht Hr Hne.
  assert (Hdev : String.eqb "/dev/sdb1" root = false)
    by (apply String.eqb_neq; intros E; apply Hne; symmetry; exact E).
  assert (E : Partitions.mount_info_of
                (Py.strip "/tmp /dev/sdb1 ext4 rw,nosuid,nodev,relatime")
              = (true, ["rw"; "nosuid"; "nodev"; "relatime"], "/dev/sdb1"))
    by reflexivity.
  split.
  - pose proof (G p "1.1.2.4" "noexec" root (or_introl Hr)) as H.
    rewrite Ht, E in H. cbn -[String.eqb] in H. rewrite Hdev in H. exact H.
  - pose proof (G p "1.1.2.2" "nodev" root (or_introl Hr)) as H.
    rewrite Ht, E in H. cbn -[String.eqb] in H. rewrite Hdev in H. exact H.
Qed.

(** C10: "loaded" is substring containment.  In
    [modules/kernel/fs_modules.py], [_is_module_loaded(m)] is [True]
    exactly when the stripped output of [lsmod | grep m] is non-empty, and
    on a snapshot that is exactly when [m] occurs in the [lsmod] output;
    [check_kernel_module_not_loaded] of [cis_filesystem_audit.py] tests
    [m in stdout] on the whole [lsmod] output.  With [hfsplus] loaded and
    [hfs] not, both report [hfs] as loaded and its check fails. *)
Theorem C10_loaded_is_substring :
  (forall w tr m,
     FsModules._is_module_loaded m w tr
     = (app tr [ERun ("lsmod | grep " ++ m) (w_run w tr ("lsmod | grep " ++ m))],
        Some (negb (String.eqb (Py.strip (out (w_run w tr ("lsmod | grep " ++ m)))) "")))) /\
  (forall p m,
     rc (FsAudit.fa_lsmod p) = 0%Z ->
     fst (FsAudit.check_kernel_module_not_loaded p m)
     = negb (Py.contains m (out (FsAudit.fa_lsmod p)))) /\
  (forall p m,
     m <> "" -> starts_nonspace m = true -> ends_nonspace m = true ->
     all_chars (fun x => negb (Ascii.eqb x Py.newline)) m = true ->
     result_of (snapshot_world p) (FsModules._is_module_loaded m)
     = Some (Py.contains m (lsmod_text p))) /\
  (exists (p : snapshot) (q : FsAudit.fa_snapshot),
     In "hfsplus" (lsmod_modules (lsmod_text p)) /\
     ~ In "hfs" (lsmod_modules (lsmod_text p)) /\
     result_of (snapshot_world p) (FsModules._is_module_loaded "hfs") = Some true /\
     result_of (snapshot_world p) (FsModules._is_module_disabled "hfs") = Some true /\
     result_of (snapshot_world p) FsModules.check_hfs
       = Some (false, "1.1.1.4 Ensure hfs kernel module is not available", false) /\
     out (FsAudit.fa_lsmod q) = lsmod_text p /\
     FsAudit.check_kernel_module_not_loaded q "hfs" = (false, "hfs kernel module is loaded") /\
     option_map fst (FsAudit.run_check q (FsAudit.ModuleCheck "hfs")) = Some false).
Proof.
  split; [intros; reflexivity|].
  split.
  { intros p m Hrc. unfold FsAudit.check_kernel_module_not_loaded. rewrite Hrc. simpl.
    destruct (Py.contains m (out (FsAudit.fa_lsmod p))); reflexivity. }
  split.
  { intros p m H1 H2 H3 H4. unfold result_of. rewrite loaded_snapshot. simpl.
    rewrite loaded_in_contains by assumption. reflexivity. }
  exists Examples.hfs_snapshot, Examples.fa_hfs.
  split; [vm_compute; tauto|].
  split; [intros H; vm_compute in H;
          repeat (destruct H as [H|H]; [discriminate H|]); exact H|].
  repeat split; vm_compute; reflexivity.
Qed.

Lemma C2_witness :
  Py.contains "cramfs" (lsmod_text Examples.cramfs_snapshot) = false /\
  Py.contains "install /bin/true" (out (modprobe_n Examples.cramfs_snapshot "cramfs")) = true /\
  result_of (snapshot_world Examples.cramfs_snapshot) FsModules.check_cramfs
  = Some (true, "1.1.1.1 Ensure cramfs kernel module is not available", true).
Proof.
  split; [vm_compute; reflexivity|]. split; [vm_compute; reflexivity|].
  apply (proj2 C2_module_check_passes); vm_compute; reflexivity.
Defined.

Lemma C3_witness :
  out (findmnt_n Examples.tmp_snapshot "/tmp") = "/tmp /dev/sdb1 ext4 rw,nosuid,nodev,relatime" /\
  Partitions.root_device_of (Py.strip (out (findmnt_n Examples.tmp_snapshot "/")))
    = Some "/dev/sda1" /\
  result_of (snapshot_world Examples.tmp_snapshot) Partitions.check_tmp_noexec
    = Some (false, "1.1.2.4 Ensure noexec option set on /tmp partition", false) /\
  result_of (snapshot_world Examples.tmp_snapshot) Partitions.check_tmp_nodev
    = Some (true, "1.1.2.2 Ensure nodev option set on /tmp partition", true).
Proof.
  split; [reflexivity|]. split; [vm_compute; reflexivity|].
  apply (proj2 C3_tmp_option_checks Examples.tmp_snapshot "/dev/sda1");
    [reflexivity | vm_compute; reflexivity | discriminate].
Defined.

Lemma C10_witness :
  result_of (snapshot_world Examples.hfs_snapshot) (FsModules._is_module_loaded "ext4")
  = Some (Py.contains "ext4" (lsmod_text Examples.hfs_snapshot)) /\
  fst (FsAudit.check_kernel_module_not_loaded Examples.fa_hfs "ext4")
  = negb (Py.contains "ext4" (out (FsAudit.fa_lsmod Examples.fa_hfs))).
Proof.
  split.
  - apply (proj1 (proj2 (proj2 C10_loaded_is_substring)));
      [discriminate | reflexivity | reflexivity | reflexivity].
  - apply (proj1 (proj2 C10_loaded_is_substring)). reflexivity.
Defined.

(** C4 (as stated, refuted): a check of [cis_filesystem_audit.py] whose
    probe fails does not always embed the probe's stderr in its message:
    when [findmnt] fails with "findmnt: can't read /proc/mounts",
    [check_mount_option] answers "Mount point /tmp not found". *)
Lemma C4_stderr_not_embedded :
  ~ (forall p mp opt, rc (FsAudit.fa_findmnt p mp) <> 0%Z ->
       exists msg, FsAudit.check_mount_option p mp opt = Some (false, msg) /\
                   Py.contains (err (FsAudit.fa_findmnt p mp)) msg = true).
Proof.
  intros H.
  destruct (H Examples.fa_err "/tmp" "nodev") as (msg & E & C); [discriminate|].
  vm_compute in E. injection E as <-. vm_compute in C. discriminate C.
Qed.

(** C4 (amended): in [cis_filesystem_audit.py] a check whose probe exits
    non-zero returns [passed = False] and does not raise;
    [check_kernel_module_not_loaded] embeds the stderr of [lsmod] in its
    message, while [check_kernel_module_disabled] (every [grep] failing),
    [check_separate_partition] and [check_mount_option] answer a fixed
    message without it. *)
Theorem C4_failed_probe_checks :
  (forall p m, rc (FsAudit.fa_lsmod p) <> 0%Z ->
     FsAudit.check_kernel_module_not_loaded p m
       = (false, "Error checking if " ++ m ++ " is loaded: " ++ err (FsAudit.fa_lsmod p)) /\
     FsAudit.run_check p (FsAudit.ModuleCheck m)
       = Some (false, ("Error checking if " ++ m ++ " is loaded: " ++ err (FsAudit.fa_lsmod p))
                      ++ ". Remediation: rmmod " ++ m ++ " && echo 'install " ++ m
                      ++ " /bin/true' > /etc/modprobe.d/" ++ m ++ ".conf")) /\
  (forall p m,
     (forall cf, rc (FsAudit.fa_grep p ("^install " ++ m ++ " /bin/true") cf) <> 0%Z) ->
     FsAudit.check_kernel_module_disabled p m
       = (false, m ++ " kernel module is not disabled in modprobe config")) /\
  (forall p mp opt, rc (FsAudit.fa_findmnt p mp) <> 0%Z ->
     FsAudit.check_mount_option p mp opt = Some (false, "Mount point " ++ mp ++ " not found") /\
     FsAudit.check_separate_partition p mp = (false, mp ++ " is not on a separate partition") /\
     FsAudit.run_check p (FsAudit.OptionCheck mp opt)
       = Some (false, ("Mount point " ++ mp ++ " not found") ++ ". Remediation: Add '" ++ opt
                      ++ "' to the mount options for " ++ mp ++ " in /etc/fstab.")).
Proof.
  split; [|split].
  - intros p m H. apply Z.eqb_neq in H.
    unfold FsAudit.run_check, FsAudit.check_kernel_module_not_loaded. rewrite H.
    split; reflexivity.
  - intros p m H. unfold FsAudit.check_kernel_module_disabled.
    assert (E : forall cfs, existsb (fun config_pattern =>
                let r := FsAudit.fa_grep p ("^install " ++ m ++ " /bin/true") config_pattern in
                (rc r =? 0)%Z && negb (String.eqb (Py.strip (out r)) "")) cfs = false).
    { induction cfs as [|cf cfs IH]; [reflexivity|]. cbn [existsb]. cbv beta zeta.
      rewrite (proj2 (Z.eqb_neq _ _) (H cf)). exact IH. }
    rewrite E. reflexivity.
  - intros p mp opt H. apply Z.eqb_neq in H.
    unfold FsAudit.run_check, FsAudit.check_mount_option, FsAudit.check_separate_partition.
    rewrite H. repeat split.
Qed.

Lemma C4_witness :
  FsAudit.check_mount_option Examples.fa_err "/tmp" "nodev"
    = Some (false, "Mount point " ++ "/tmp" ++ " not found") /\
  FsAudit.check_separate_partition Examples.fa_err "/tmp"
    = (false, "/tmp" ++ " is not on a separate partition") /\
  FsAudit.run_check Examples.fa_err (FsAudit.OptionCheck "/tmp" "nodev")
    = Some (false, ("Mount point " ++ "/tmp" ++ " not found") ++ ". Remediation: Add '"
                   ++ "nodev" ++ "' to the mount options for " ++ "/tmp" ++ " in /etc/fstab.").
Proof.
  apply (proj2 (proj2 C4_failed_probe_checks)). discriminate.
Defined.


(** C5: [filter_modules("all")] is [MODULES]; the name of a group gives
    that group, the name of a submodule gives its group restricted to it;
    a name that matches nothing gives [[]], and then [run_audits] of
    [cis_audit.py], in either output mode and whatever the packages' audits
    do, returns [False] without raising, after printing only its start
    line, "Error: Module '<name>' not found." and the list of modules: no
    command is run and neither summary line is printed.  After a non-empty
    filter, whenever [run_audits] returns, its last printed line is the
    summary line of its result. *)
Theorem C5_filter_modules :
  Controller.filter_modules "all" = Controller.MODULES /\
  (forall g, In g Controller.MODULES ->
     Controller.filter_modules (Controller.group_name g) = [g]) /\
  (forall g sm, In g Controller.MODULES -> In sm (Controller.group_submodules g) ->
     Controller.filter_modules (Controller.sub_name sm)
     = [Controller.mk_group (Controller.group_name g) [sm]]) /\
  (forall t o uf w tr,
     String.eqb t "all" = false ->
     forallb (fun g => negb (String.eqb (Controller.group_name g) t)
                       && forallb (fun sm => negb (String.eqb (Controller.sub_name sm) t))
                                  (Controller.group_submodules g))
             Controller.MODULES = true ->
     let suf := map EPrint (Controller.start_line t :: Controller.not_found_lines t) in
     Controller.filter_modules t = [] /\
     CisAudit.run_audits o t uf w tr = (app tr suf, Some false) /\
     nth 1 suf (EPrint "") = EPrint ("Error: Module '" ++ t ++ "' not found.") /\
     ~ In (EPrint Controller.summary_pass) suf /\
     ~ In (EPrint Controller.summary_fail) suf) /\
  (forall t o uf w tr tr' b,
     Controller.filter_modules t <> [] ->
     CisAudit.run_audits o t uf w tr = (tr', Some b) ->
     last tr' (EPrint "")
     = EPrint (if b then Controller.summary_pass else Controller.summary_fail)).
Proof.
  split; [reflexivity|].
  split.
  { intros g H. simpl in H.
    repeat (destruct H as [<-|H]; [reflexivity|]). destruct H. }
  split.
  { intros g sm H1 H2. simpl in H1.
    repeat (destruct H1 as [<-|H1];
            [simpl in H2; repeat (destruct H2 as [<-|H2]; [reflexivity|]); destruct H2|]).
    destruct H1. }
  split.
  - intros t o uf w tr Ha Hn suf.
    assert (F : Controller.filter_modules t = []).
    { unfold Controller.filter_modules. rewrite Ha.
      unfold Controller.MODULES in *. cbn [forallb Controller.group_name
        Controller.group_submodules Controller.sub_name] in Hn.
      repeat match goal with
             | H : _ && _ = true |- _ => apply andb_prop in H; destruct H
             end.
      repeat match goal with
             | H : negb (String.eqb _ t) = true |- _ =>
                 apply negb_true_iff in H
             end.
      unfold Controller.filter_group; cbn [flat_map Controller.group_name
        Controller.group_submodules Controller.sub_name filter].
      repeat match goal with H : String.eqb _ _ = false |- _ => rewrite H; clear H end.
      reflexivity. }
    split; [exact F|].
    split.
    { unfold CisAudit.run_audits. rewrite bind_print, F.
      erewrite bind_some by apply CisAuditFacts.print_lines_trace.
      unfold ret, suf. cbn [map]. rewrite <- app_assoc. reflexivity. }
    split; [reflexivity|].
    unfold suf. split; intros H; cbn [map] in H; destruct H as [H|H];
      [ discriminate H
      | unfold Controller.not_found_lines in H; simpl in H;
        repeat (destruct H as [H|H]; [discriminate H|]); exact H
      | discriminate H
      | unfold Controller.not_found_lines in H; simpl in H;
        repeat (destruct H as [H|H]; [discriminate H|]); exact H ].
  - intros t o uf w tr tr' b Hne. unfold CisAudit.run_audits. rewrite bind_print.
    destruct (Controller.filter_modules t) as [|g gs]; [contradiction|].
    unfold bind at 1.
    destruct (foldM _ _ _ _ _) as [t1 [[ap mr]|]]; [|discriminate].
    rewrite !bind_print. unfold ret. cbn [fst].
    intros E; injection E as <- <-. apply last_last.
Qed.

Lemma C5_witness :
  (String.eqb "nosuch" "all" = false /\
   CisAudit.run_audits Examples.passing_audits "nosuch" true (snapshot_world Examples.hardened_snapshot) []
   = (map EPrint (Controller.start_line "nosuch" :: Controller.not_found_lines "nosuch"),
      Some false)) /\
  (Controller.filter_modules "kernel" <> [] /\
   last (fst (CisAudit.run_audits Examples.passing_audits "kernel" true
                (snapshot_world Examples.hardened_snapshot) [])) (EPrint "")
   = EPrint Controller.summary_pass).
Proof.
  split.
  - split; [reflexivity|].
    apply (proj1 (proj2 (proj1 (proj2 (proj2 (proj2 C5_filter_modules)))
             "nosuch" Examples.passing_audits true (snapshot_world Examples.hardened_snapshot) []
             eq_refl eq_refl))).
  - split; [vm_compute; discriminate|].
    apply (proj2 (proj2 (proj2 (proj2 C5_filter_modules)))
             "kernel" Examples.passing_audits true (snapshot_world Examples.hardened_snapshot) [] _ true);
      [vm_compute; discriminate | vm_compute; reflexivity].
Defined.


(** C6: when writing [/etc/modprobe.d/cramfs.conf] raises,
    [remediate_cramfs] of [fs_kernel_modules.py] catches it, prints
    "[-] Failed to create /etc/modprobe.d/cramfs.conf: <error>" (when
    [rmmod] did not stop it first) and returns [False]; and on every
    system [run_all_remediations] runs to its end: the header of every
    step and the first line of the remediation of every module are
    printed, whatever the earlier steps returned. *)
Theorem C6_write_failure_continues :
  (forall w tr e,
     (forall tr', w_write w tr' (FsKernelModules.remediation_file "cramfs")
                    (FsKernelModules._create_remediation_file "cramfs") = Some e) ->
     snd (FsKernelModules.remediate_cramfs w tr) = Some false /\
     ((forall tr', rc (w_run w tr' "rmmod cramfs") = 0%Z) ->
      In (EPrint ("[-] Failed to create /etc/modprobe.d/cramfs.conf: " ++ e))
         (fst (FsKernelModules.remediate_cramfs w tr)))) /\
  (forall w tr, exists tr' b,
     FsKernelModules.run_all_remediations w tr = (tr', Some b) /\
     (forall s d f, In (s, d, f) FsKernelModules.remediation_functions ->
        In (EPrint (FsKernelModules.step_header s d)) tr') /\
     (forall m, In m ["cramfs"; "freevxfs"; "jffs2"; "hfs"; "hfsplus"; "squashfs"; "udf";
                      "fat"; "vfat"; "msdos"] ->
        In (EPrint (remediating_line m)) tr')).
Proof.
  split.
  - intros w tr e Hw.
    unfold FsKernelModules.remediate_cramfs, FsKernelModules.remediate_module,
      FsKernelModules._is_module_loaded, bind, ret, print, run_command, write_file,
      _run_command.
    cbv beta iota zeta.
    change ("rmmod " ++ "cramfs") with "rmmod cramfs".
    repeat match goal with
           | |- context [w_write w ?t _ _] => rewrite (Hw t)
           | |- context [if ?b then _ else _] => destruct b eqn:?
           end;
      (split; [reflexivity | intros Hr]);
      try (apply in_or_app; right; left; reflexivity).
    match goal with H : (rc (w_run w ?t "rmmod cramfs") =? 0)%Z = false |- _ =>
      rewrite Hr in H; discriminate H end.
  - intros w tr.
    assert (P : prints_all
                  ((Py.nl ++ "===== CIS Ubuntu 22.04 LTS Benchmark - Section 1.1.1 Filesystem Kernel Modules Remediation =====")
                   :: app (flat_map (fun x => FsKernelModules.step_header (fst (fst x)) (snd (fst x))
                                     :: map remediating_line (remediated_modules (fst (fst x))))
                                FsKernelModules.remediation_functions)
                          [Py.nl ++ Py.nl ++ "===== Verifying Remediation ====="])
                  FsKernelModules.run_all_remediations).
    { unfold FsKernelModules.run_all_remediations.
      apply prints_all_print. apply prints_all_bind; [exact remediation_loop_prints|].
      intros _. apply prints_all_print.
      exact (prints_all_of_runs _ _ _ k_run_all_audits_runs). }
    destruct (P w tr) as (suf & b & E & H).
    exists (app tr suf), b. split; [exact E|]. split.
    + intros s d f Hin. apply in_or_app; right. apply H. right. apply in_or_app; left.
      apply in_flat_map. exists (s, d, f). split; [exact Hin | left; reflexivity].
    + intros m Hm. apply in_or_app; right. apply H.
      simpl in Hm. repeat (destruct Hm as [<-|Hm]; [vm_compute; tauto|]). destruct Hm.
Qed.

Lemma C6_witness :
  snd (FsKernelModules.remediate_cramfs Examples.denied_world []) = Some false /\
  In (EPrint ("[-] Failed to create /etc/modprobe.d/cramfs.conf: "
              ++ "[Errno 13] Permission denied: '/etc/modprobe.d/cramfs.conf'"))
     (fst (FsKernelModules.remediate_cramfs Examples.denied_world [])).
Proof.
  destruct (proj1 C6_write_failure_continues Examples.denied_world []
              "[Errno 13] Permission denied: '/etc/modprobe.d/cramfs.conf'")
    as [H1 H2]; [intros; reflexivity|].
  split; [exact H1 | apply H2; intros; reflexivity].
Defined.


(** C7 (as stated, refuted): the files [fs_kernel_modules.py] writes do
    not hold just [install <module> /bin/true]: on a system where cramfs
    is not loaded, [run_all_remediations] writes
    [/etc/modprobe.d/cramfs.conf] with a comment line first. *)
Lemma C7_content_has_comment_line :
  ~ (forall w, Forall (fun e => match e with
        | EWrite path content _ =>
            exists m, path = "/etc/modprobe.d/" ++ m ++ ".conf" /\
                      content = "install " ++ m ++ " /bin/true"
        | _ => True
        end) (fst (FsKernelModules.run_all_remediations w []))).
Proof.
  intros H. specialize (H (snapshot_world Examples.cramfs_snapshot)).
  rewrite Forall_forall in H.
  destruct (H (EWrite "/etc/modprobe.d/cramfs.conf"
                 (FsKernelModules._create_remediation_file "cramfs") None)) as (m & _ & Hc).
  - vm_compute. repeat (first [left; reflexivity | right]).
  - unfold FsKernelModules._create_remediation_file in Hc. cbn in Hc. discriminate Hc.
Qed.

(** C7 (amended): the only files the program writes are those of
    [fs_kernel_modules.py]: [/etc/modprobe.d/<m>.conf] for a module [m]
    among cramfs, freevxfs, jffs2, hfs, hfsplus, squashfs, udf, fat, vfat
    and msdos, with the content "# Disable <m> module", a newline and
    "install <m> /bin/true".  The remediations of the [modules/] packages
    write nothing: those of [modules/kernel/fs_modules.py] print and run
    only the probes [lsmod | grep m] and [modprobe -n -v m] of the
    verifying audit; those of partitions, bootloader, AppArmor, warning
    banners, repositories, updates and process hardening only print. *)
Theorem C7_written_files :
  runs modprobe_conf_write (fun _ => True) FsKernelModules.run_all_remediations /\
  runs probe_or_print (fun _ => True) FsModules.run_all_remediations /\
  runs print_only (fun _ => True) Partitions.run_all_remediations /\
  runs print_only (fun _ => True) Apparmor.run_all_remediations /\
  runs print_only (fun _ => True) BootloaderConfiguration.run_all_remediations /\
  runs print_only (fun _ => True) WarningBanners.run_all_remediations /\
  runs print_only (fun _ => True) Repositories.run_all_remediations /\
  runs print_only (fun _ => True) Updates.run_all_remediations /\
  runs print_only (fun _ => True) ProcessRestrictions.run_all_remediations.
Proof.
  split.
  { apply k_run_all_remediations_runs_P; [intros; exact I | intros; exact I |].
    intros m r Hm. cbn [modprobe_conf_write]. exists m.
    split; [exact Hm | split; reflexivity]. }
  split.
  { apply run_all_remediations_runs_P; [intros; exact I | |];
      intros m r; cbn [probe_or_print]; exists m; [left | right]; reflexivity. }
  split; [unfold Partitions.run_all_remediations; runs_auto|].
  repeat split; manual_print_only.
Qed.

(** C8: with [--json], [main()] of [cis_filesystem_audit.py] prints the
    object [{"results": js}] where [js] has one element per entry of the
    [checks] registry, in the registry's order, and each element is the
    object with exactly the keys [check], [status], [message] and [passed],
    [status] being ["PASS"] when [passed] is true and ["FAIL"] otherwise.
    (When a check raises, here the [IndexError] of an option check on a
    [findmnt] line of fewer than four fields, nothing is printed.)  The
    same holds of [main()] of [cis_services_audit.py], whose checks never
    raise, so that it always prints such an object. *)
Theorem C8_json_output :
  (forall p j, FsAudit.main p = Some j ->
     exists js, j = JObject [("results", JArray js)] /\
       Forall2 (fun (c : string * FsAudit.fa_check) e => exists passed msg,
                  FsAudit.run_check p (snd c) = Some (passed, msg) /\
                  e = JObject [("check", JString (fst c));
                               ("status", JString (if passed then "PASS" else "FAIL"));
                               ("message", JString msg); ("passed", JBool passed)])
               FsAudit.checks js) /\
  (forall p, exists js, ServicesAudit.main p = Some (JObject [("results", JArray js)]) /\
       Forall2 (fun (c : string * ServicesAudit.sv_check) e => exists passed msg,
                  ServicesAudit.run_check p (snd c) = Some (passed, msg) /\
                  e = JObject [("check", JString (fst c));
                               ("status", JString (if passed then "PASS" else "FAIL"));
                               ("message", JString msg); ("passed", JBool passed)])
               ServicesAudit.checks js).
Proof.
  split.
  - intros p j H. destruct (main_json_shape _ _ _ H) as (js & -> & F).
    exists js. split; [reflexivity|].
    eapply Forall2_impl; [|exact F].
    intros c e (passed & msg & E1 & E2). exists passed, msg.
    split; [exact E1|]. rewrite E2. reflexivity.
  - intros p.
    destruct (json_results_total (ServicesAudit.run_check p) ServicesAudit.checks)
      as [js E].
    { intros [name [s|]] _; simpl; eauto. }
    exists js. unfold ServicesAudit.main, main_json. rewrite E. split; [reflexivity|].
    eapply Forall2_impl; [|apply json_results_Forall2; exact E].
    intros c e (passed & msg & E1 & E2). exists passed, msg.
    split; [exact E1|]. rewrite E2. reflexivity.
Qed.

Lemma C8_witness :
  exists j, FsAudit.main Examples.fa_err = Some j /\
    exists js, j = JObject [("results", JArray js)] /\
               List.length js = List.length FsAudit.checks.
Proof.
  eexists. split; [reflexivity|].
  destruct (proj1 C8_json_output Examples.fa_err _ eq_refl) as (js & E & F).
  exists js. split; [exact E | exact (eq_sym (Forall2_length F))].
Defined.

(** C9: the check names of the [checks] registries of
    [cis_filesystem_audit.py] and [cis_services_audit.py] are pairwise
    distinct, and so are the benchmark identifiers they start with; the
    descriptions [run_all_audits(return_results=True)] of
    [modules/kernel/fs_modules.py] returns, one per check it aggregates,
    are the eight of [fs_modules_descriptions], pairwise distinct, and so
    are their identifiers, on every system. *)
Theorem C9_unique_identifiers :
  NoDup (map fst FsAudit.checks) /\
  NoDup (map (fun c => check_identifier (fst c)) FsAudit.checks) /\
  NoDup (map fst ServicesAudit.checks) /\
  NoDup (map (fun c => check_identifier (fst c)) ServicesAudit.checks) /\
  (forall w tr, exists l,
     snd (FsModules.run_all_audits true w tr) = Some (inl l) /\
     map fst l = fs_modules_descriptions /\
     NoDup (map fst l) /\ NoDup (map check_identifier (map fst l))).
Proof.
  assert (R : runs (fun _ => True)
                (fun r => exists l, r = inl l /\ map fst l = fs_modules_descriptions)
                (FsModules.run_all_audits true)).
  { unfold FsModules.run_all_audits. apply runs_bind. apply runs_print; [exact I|].
    apply runs_bind.
    eapply (runs_conseq (fun _ => True)); [apply results_runs | auto |].
    intros rs Hrs. apply runs_bind.
    eapply (runs_conseq (fun _ => True)); [apply print_summary_runs | auto |].
    intros ? _. apply runs_ret. eexists; split; [reflexivity|].
    rewrite map_map. exact Hrs. }
  split; [apply nodupb_NoDup; vm_compute; reflexivity|].
  split; [apply nodupb_NoDup; vm_compute; reflexivity|].
  split; [apply nodupb_NoDup; vm_compute; reflexivity|].
  split; [apply nodupb_NoDup; vm_compute; reflexivity|].
  intros w tr. destruct (R w tr) as (suf & a & E & _ & l & -> & Hl).
  exists l. rewrite E. split; [reflexivity|]. rewrite Hl.
  split; [reflexivity|].
  split; apply nodupb_NoDup; vm_compute; reflexivity.
Qed.

End Claims.

(* ------------------------------------------------------------------ *)
(** ** Further properties of the code *)

Module Extras.
Import RunFacts FsModulesFacts FsKernelModulesFacts Controller CisAudit CisAuditFacts
  KernelRemediationFacts TextFacts FsKernelModules ScriptMains Examples.

(** X1: in user-friendly mode, [run_audits] on a target of the sections
    1.2.1 to 1.6 (a group or submodule other than [kernel], [fs_modules],
    [filesystem] and [partitions]) never returns, whatever the audits
    report: [module_results] is read before it is assigned
    ([UnboundLocalError]). *)
Theorem X1_late_targets_unbound :
  Forall (fun t => forall o w tr, snd (run_audits o t true w tr) = None)
    ["package_management"; "repositories"; "updates"; "access_control"; "apparmor";
     "bootloader"; "configuration"; "process_hardening"; "process_restrictions";
     "command_line_warning"; "warning_banners"].
Proof.
  repeat (apply Forall_cons; [intros o w tr;
    rewrite run_audits_fold by (vm_compute; discriminate);
    eval_in_goal submodules_of;
    match goal with
    | |- option_map fst (snd (foldM ?f ?a (?x :: ?xs) ?w ?tr)) = None =>
        rewrite (fails_foldM f a x xs (late_step_unbound _ _ _ x eq_refl) w tr)
    end; reflexivity|]).
  apply Forall_nil.
Qed.

(** X2: in user-friendly mode, the verdict of [run_audits("all")] does not
    depend on the audits of the six packages of sections 1.2.1 to 1.6, as
    long as they return: those sections reuse the [module_results] of
    section 1.1.2. *)
Theorem X2_all_ignores_other_audits o1 o2
  (H1 : forall m, runs (fun _ => True) (fun _ => True) (o1 m true))
  (H2 : forall m, runs (fun _ => True) (fun _ => True) (o2 m true)) :
  forall w tr, snd (run_audits o1 "all" true w tr) = snd (run_audits o2 "all" true w tr).
Proof.
  intros w tr. rewrite !run_audits_fold by (vm_compute; discriminate).
  eval_in_goal submodules_of.
  apply fold_two_indep; try assumption; try (intros; reflexivity); [|discriminate].
  intros a. apply partitions_step_binds; reflexivity.
Qed.

Lemma X2_witness :
  snd (run_audits failing_audits "all" true (snapshot_world hardened_snapshot) []) = Some true /\
  snd (run_audits failing_audits "all" true (snapshot_world hardened_snapshot) [])
  = snd (run_audits passing_audits "all" true (snapshot_world hardened_snapshot) []).
Proof.
  split; [vm_compute; reflexivity|].
  apply X2_all_ignores_other_audits; intros m; apply runs_ret; exact I.
Defined.

(** X3: in technical mode, [run_audits("all")] returns [False] whenever
    one of the six packages of sections 1.2.1 to 1.6 returns a falsy
    value from [run_all_audits()]. *)
Theorem X3_technical_all_fails o pm
  (Hin : In pm [repositories; updates; apparmor; configuration; process_restrictions;
                warning_banners])
  (Ho : post (fun r => truthy r = false) (o pm false)) :
  post (fun b => b = false) (run_audits o "all" false).
Proof.
  apply run_audits_post; [vm_compute; discriminate|].
  apply post_foldM_reach; [intros a x _ Ha; apply technical_keeps_false; exact Ha|].
  eval_in_goal submodules_of.
  simpl in Hin.
  repeat destruct Hin as [<-|Hin];
    try match goal with
    | |- exists x, In x ?l /\ _ =>
        let rec pick l :=
          match l with
          | ?x :: ?r =>
              (exists x; split; [simpl; tauto | intros a;
                 eapply technical_step_false; [reflexivity | exact I | exact Ho]])
              || pick r
          end in pick l
    end; destruct Hin.
Qed.

Lemma X3_witness :
  snd (run_audits failing_audits "all" false (snapshot_world hardened_snapshot) []) = Some false.
Proof.
  assert (H := X3_technical_all_fails failing_audits repositories
                 (or_introl eq_refl)
                 (fun w tr tr' a E => eq_sym (f_equal (fun r => match snd r with Some x => truthy x | None => false end) E))).
  destruct (run_audits failing_audits "all" false (snapshot_world hardened_snapshot) [])
    as [tr' [b|]] eqn:E; [simpl; f_equal; exact (H _ _ _ _ E) | vm_compute in E; discriminate E].
Defined.

(** X4: [run_remediations] returns [True] exactly when the target names a
    group or a submodule, whatever the remediations do, and it never
    raises. *)
Theorem X4_run_remediations_result t uf w tr :
  snd (run_remediations t uf w tr)
  = Some (match filter_modules t with [] => false | _ => true end).
Proof.
  unfold run_remediations. rewrite bind_print.
  destruct (filter_modules t) as [|g gs].
  - destruct (runs_snd (fun _ => True) (fun b => b = false)
                (print_lines (not_found_lines t) ;;; ret false) w (app tr [EPrint (remediation_start_line t)]))
      as (b & -> & ->); [|reflexivity].
    apply runs_bind. apply runs_any; [apply print_lines_runs|]. intros; apply runs_ret; reflexivity.
  - match goal with |- snd (?m ?w ?tr) = _ =>
      destruct (runs_snd (fun _ => True) (fun b => b = true) m w tr) as (b & -> & ->);
      [|reflexivity] end.
    apply runs_bind. apply runs_any; [apply runs_mapM_true; intros; apply remediation_step_runs|].
    intros _. runs_auto. reflexivity.
Qed.


(** X5: [remediate_cramfs] .. [remediate_udf] of [fs_kernel_modules.py]
    always return, and return [True] exactly when none of their steps
    failed (an [rmmod] exiting non-zero, a file write raising), which is
    exactly when they wrote [/etc/modprobe.d/<m>.conf] without error: a
    failed [rmmod] skips the write. *)
Theorem X5_remediate_module_result m w tr :
  exists suf b, remediate_module m w tr = (app tr suf, Some b) /\
    b = negb (existsb failed_step suf) /\
    (b = true <-> In (EWrite (remediation_file m) (_create_remediation_file m) None) suf).
Proof.
  unfold remediate_module, _is_module_loaded, bind, ret, print, run_command, write_file,
    _run_command.
  cbv beta iota zeta. split_outcomes; close_outcome; (split; [reflexivity | close_iff]).
Qed.

(** X6: [remediate_fat] of [fs_kernel_modules.py] always returns, writes
    the modprobe files of fat, vfat and msdos even when an [rmmod] fails,
    and returns [True] exactly when no [rmmod] exited non-zero and no
    write raised. *)
Theorem X6_remediate_fat_result w tr :
  exists suf b, remediate_fat w tr = (app tr suf, Some b) /\
    b = negb (existsb failed_step suf) /\
    forall m, In m fat_modules ->
      exists f, In (EWrite (remediation_file m) (_create_remediation_file m) f) suf.
Proof. exact (remediate_fat_fold fat_modules true w tr). Qed.

(** X7: [fs_kernel_modules.py] exits with status 0 for the actions
    [audit] and [remediate] (in any case), whatever the audit finds, and
    with status 1 for a missing or any other action. *)
Theorem X7_fs_kernel_modules_exit lower argv w tr :
  snd (fs_kernel_modules_main lower argv w tr)
  = Some (match argv with
          | _ :: arg :: _ =>
              if String.eqb (lower arg) "audit" || String.eqb (lower arg) "remediate"
              then 0 else 1
          | _ => 1
          end)%Z.
Proof.
  destruct argv as [|a0 [|arg rest]]; try reflexivity.
  unfold fs_kernel_modules_main. cbv zeta.
  destruct (String.eqb (lower arg) "audit"); [|destruct (String.eqb (lower arg) "remediate")];
    cbn [orb]; try reflexivity.
  - destruct (runs_snd (fun _ => True) (fun z => z = 0%Z) (run_all_audits ;;; ret 0%Z) w tr)
      as (z & -> & ->); [|reflexivity].
    apply runs_bind. apply runs_any; [exact k_run_all_audits_runs|].
    intros; apply runs_ret; reflexivity.
  - destruct (runs_snd (fun _ => True) (fun z => z = 0%Z) (run_all_remediations ;;; ret 0%Z) w tr)
      as (z & -> & ->); [|reflexivity].
    apply runs_bind. apply runs_any; [apply k_run_all_remediations_runs_P; intros; exact I|].
    intros; apply runs_ret; reflexivity.
Qed.

(** X8: [partitions.py] exits with status 1 unless its mode is [audit]:
    with [remediate], because [run_all_remediations()] always returns
    [False]; with a missing or unknown mode, after the usage message. *)
Theorem X8_partitions_exit_one lower argv
  (Hmode : match argv with _ :: arg :: _ => String.eqb (lower arg) "audit" = false
                         | _ => True end) :
  forall w tr, snd (partitions_main lower argv w tr) = Some 1%Z.
Proof.
  intros w tr.
  assert (H : runs (fun _ => True) (fun z => z = 1%Z) (partitions_main lower argv)).
  { destruct argv as [|a0 [|arg rest]]; unfold partitions_main;
      [repeat (runs_step || reflexivity) .. |].
    cbv zeta. rewrite Hmode. destruct (String.eqb (lower arg) "remediate").
    - apply runs_bind.
      eapply (runs_conseq (fun _ => True) _ (fun b => b = false));
        [unfold Partitions.run_all_remediations; repeat (runs_step || exact I || reflexivity)
        | auto |].
      intros b ->. apply runs_ret. reflexivity.
    - repeat (runs_step || exact I || reflexivity). }
  destruct (runs_snd _ _ _ w tr H) as (z & -> & ->). reflexivity.
Qed.

Lemma X8_witness :
  snd (partitions_main (fun s => s) ["partitions.py"; "remediate"]
         (snapshot_world hardened_snapshot) []) = Some 1%Z.
Proof. apply X8_partitions_exit_one. reflexivity. Defined.

(** X9: the [main()] of [modules/kernel/fs_modules.py] never raises: it
    exits with status 0 or 1, and with 1 when the mode is missing or is
    neither [audit] nor [remediate]. *)
Theorem X9_fs_modules_exit lower argv w tr :
  exists code, snd (fs_modules_main lower argv w tr) = Some code /\
    (code = 0 \/ code = 1)%Z /\
    (match argv with
     | _ :: arg :: _ => String.eqb (lower arg) "audit" || String.eqb (lower arg) "remediate"
     | _ => false
     end = false -> code = 1%Z).
Proof.
  assert (H : runs (fun _ => True)
                (fun code => (code = 0 \/ code = 1)%Z /\
                   (match argv with
                    | _ :: arg :: _ => String.eqb (lower arg) "audit"
                                       || String.eqb (lower arg) "remediate"
                    | _ => false
                    end = false -> code = 1%Z))
                (fs_modules_main lower argv)).
  { destruct argv as [|a0 [|arg rest]]; unfold fs_modules_main;
      [repeat (runs_step || exact I); split; auto .. |].
    cbv zeta. destruct (String.eqb (lower arg) "audit").
    - apply runs_bind. apply runs_any; [apply run_all_audits_runs_P; intros; exact I|].
      intros r. apply runs_ret. split; [destruct (CisAudit.truthy r); auto|].
      intros Hf; discriminate Hf.
    - destruct (String.eqb (lower arg) "remediate").
      + apply runs_bind. apply runs_any; [apply run_all_remediations_runs_P; intros; exact I|].
        intros b. apply runs_ret. split; [destruct b; auto|]. intros Hf; discriminate Hf.
      + repeat (runs_step || exact I). split; auto. }
  destruct (runs_snd _ _ _ w tr H) as (z & -> & Hz). exists z. split; [reflexivity | exact Hz].
Qed.


(** X10: without [--json], [cis_filesystem_audit.py] prints its header
    and then, for each check, the line ["[status] name: message"] of the
    entry the JSON mode gives it, in the same order; when a check raises,
    it has printed the lines of the checks before it (the JSON mode
    prints nothing).  [cis_services_audit.py] always prints all its
    lines. *)
Theorem X10_text_report (p : FsAudit.fa_snapshot) (q : ServicesAudit.sv_snapshot) :
  (forall js, FsAudit.main p = Some (JObject [("results", JArray js)]) ->
     FsAudit.main_text p = (FsAudit.report_header :: map entry_line js, true)) /\
  (FsAudit.main p = None ->
     exists pre c post js, FsAudit.checks = app pre (c :: post) /\
       FsAudit.run_check p (snd c) = None /\
       json_results (FsAudit.run_check p) pre = Some js /\
       FsAudit.main_text p = (FsAudit.report_header :: map entry_line js, false)) /\
  (exists js, ServicesAudit.main q = Some (JObject [("results", JArray js)]) /\
     ServicesAudit.main_text q = (ServicesAudit.report_header :: map entry_line js, true)).
Proof.
  unfold FsAudit.main, FsAudit.main_text, ServicesAudit.main, ServicesAudit.main_text,
    main_json, main_text.
  split; [|split].
  - intros js H. destruct (json_results _ _) as [js'|] eqn:E; [|discriminate H].
    injection H as <-. rewrite (text_json_some _ _ _ E). reflexivity.
  - intros H. destruct (json_results _ _) eqn:E; [discriminate H|].
    destruct (text_json_none _ _ E) as (pre & c & post & js & Hc & Hn & Hp & Ht).
    exists pre, c, post, js. rewrite Ht. auto.
  - destruct (json_results (ServicesAudit.run_check q) ServicesAudit.checks) as [js|] eqn:E.
    + exists js. rewrite (text_json_some _ _ _ E). auto.
    + exfalso. destruct (text_json_none _ _ E) as (pre & [name c] & post & js & _ & Hn & _).
      destruct c; discriminate Hn.
Qed.

(** X11: [check_systemd_timesyncd] counts a service that [systemctl
    is-active] reports as "inactive" as active (it tests the substring
    "active"): when it is also reported enabled, the check passes, and so
    does [check_time_synchronization]. *)
Theorem X11_inactive_counts_as_active (p : ServicesAudit.sv_snapshot) r1 r2
  (Ha : ServicesAudit.sv_systemctl p "is-active" "systemd-timesyncd" = inl r1)
  (Hi : Py.strip (out r1) = "inactive")
  (He : ServicesAudit.sv_systemctl p "is-enabled" "systemd-timesyncd" = inl r2)
  (Hn : Py.contains "enabled" (Py.strip (out r2)) = true) :
  ServicesAudit.check_systemd_timesyncd p = (true, "systemd-timesyncd is active and enabled") /\
  fst (ServicesAudit.check_time_synchronization p) = true.
Proof.
  assert (H : ServicesAudit.check_systemd_timesyncd p
              = (true, "systemd-timesyncd is active and enabled")).
  { unfold ServicesAudit.check_systemd_timesyncd. rewrite Ha, He, Hi, Hn. reflexivity. }
  split; [exact H|].
  unfold ServicesAudit.check_time_synchronization. rewrite H.
  destruct (fst (ServicesAudit.check_chronyd p)); reflexivity.
Qed.

Lemma X11_witness :
  ServicesAudit.check_systemd_timesyncd stopped_timesyncd
    = (true, "systemd-timesyncd is active and enabled") /\
  fst (ServicesAudit.check_time_synchronization stopped_timesyncd) = true.
Proof.
  apply (X11_inactive_counts_as_active stopped_timesyncd
           (mk_proc 3 ("inactive" ++ Py.nl) "") (mk_proc 0 ("enabled" ++ Py.nl) ""));
    vm_compute; reflexivity.
Defined.

End Extras.
